(** * Knowledge-graph batch collation: negative sampling and reindexing

    A shallow embedding of [apps/graph4kg/utils/dataset.py]
    ([KGDataset] and [TestKGDataset]) together with the properties its
    specification states about it, and of the rule by which
    [apps/PGLBox/src/models/gnn_model.py] names the loss function it
    looks up.

    Conventions of the embedding.
    - Python and numpy integers are [Z]; one-dimensional arrays and
      tensors are [list Z], two-dimensional ones are [list (list Z)].
      [paddle.to_tensor] keeps the values it is given and is the identity.
    - A filter value is a Python set or an array of ids ([filter_t]); the
      [correct_index] column of an evaluation set is a Python list or a
      numpy array ([TestKGDataset.corr_t]). The two behave differently
      where the code hands them to numpy or uses them as a condition.
    - Sizes that count samples ([k], [num_negs]) are [nat].
    - A Python [dict] is a [gmap]; a missing key raises [KeyError].
    - A computation either returns, raises, or is still inside its
      [while] loop when the fuel it was given ran out ([Spin]).
    - [np.random] is an interface ([RandomState]) whose state is threaded
      explicitly through every computation that draws from it. *)

From Stdlib Require Import ZArith Lia.
From stdpp Require Import gmap list sorting strings.

(** ** Outcomes of a call *)

Inductive exn : Type :=
  | KeyError | ValueError | IndexError | TypeError | AssertionError | NameError.

Inductive outcome (A : Type) : Type :=
  | Ret (a : A)
  | Raise (e : exn)
  | Spin.
Arguments Ret {A} a.
Arguments Raise {A} e.
Arguments Spin {A}.

Definition obind {A B} (m : outcome A) (k : A -> outcome B) : outcome B :=
  match m with
  | Ret a => k a
  | Raise e => Raise e
  | Spin => Spin
  end.

Notation "'let!' x ':=' m 'in' k" := (obind m (fun x => k))
  (at level 10, x pattern, m at level 100, k at level 200).

(** [[f(x) for x in xs]], stopping at the first exception. *)
Fixpoint omap {A B} (f : A -> outcome B) (xs : list A) : outcome (list B) :=
  match xs with
  | [] => Ret []
  | x :: xs' => let! y := f x in let! ys := omap f xs' in Ret (y :: ys)
  end.

(** ** The numpy operations the module uses *)

(** [np.concatenate(arrays)]: at least one array is needed. *)
Definition np_concatenate (arrays : list (list Z)) : outcome (list Z) :=
  match arrays with
  | [] => Raise ValueError
  | _ => Ret (concat arrays)
  end.

(** Second step of [np.unique] on the sorted array [aux]:
    [mask[0] = True; mask[1:] = aux[1:] != aux[:-1]; aux[mask]]. *)
Fixpoint keep_changes (prev : Z) (aux : list Z) : list Z :=
  match aux with
  | [] => []
  | x :: aux' =>
      if (x =? prev)%Z then keep_changes x aux' else x :: keep_changes x aux'
  end.

(** [np.unique(ar)]: sort, then keep the first element of every run. *)
Definition np_unique (ar : list Z) : list Z :=
  match merge_sort Z.le ar with
  | [] => []
  | x :: aux => x :: keep_changes x aux
  end.

(** [a[i]] for an integer [i]: negative indices count from the end. *)
Definition np_getitem (a : list Z) (i : Z) : outcome Z :=
  let n := Z.of_nat (length a) in
  if (0 <=? i)%Z && (i <? n)%Z then
    match a !! Z.to_nat i with Some x => Ret x | None => Raise IndexError end
  else if (- n <=? i)%Z && (i <? 0)%Z then
    match a !! Z.to_nat (n + i) with Some x => Ret x | None => Raise IndexError end
  else Raise IndexError.

(** [a[idx]] for an integer array [idx]. *)
Definition np_take (a : list Z) (idx : list Z) : outcome (list Z) :=
  omap (np_getitem a) idx.

(** What a filter value can be: a Python [set] of ids, as the docstring of
    [KGDataset] has it, or an array (or list) of ids. *)
Inductive filter_t : Type :=
  | FilterSet (s : gset Z)
  | FilterArr (a : list Z).

#[global] Instance filter_t_eq_dec : EqDecision filter_t.
Proof. solve_decision. Defined.

(** [np.in1d(ar1, ar2, invert=invert)]: one flag per element of [ar1]. An
    array [ar2] is searched for the element. A set is not a sequence:
    [np.asarray] wraps it whole into an array of one object, which no
    integer of [ar1] equals, so none of its members is looked at. *)
Definition np_in1d (ar1 : list Z) (ar2 : filter_t) (invert : bool) : list bool :=
  match ar2 with
  | FilterArr a => map (fun x => xorb invert (existsb (Z.eqb x) a)) ar1
  | FilterSet _ => map (fun _ => xorb invert false) ar1
  end.

(** [a[mask]] for a boolean array [mask]. *)
Fixpoint np_mask (a : list Z) (mask : list bool) : list Z :=
  match a, mask with
  | x :: a', b :: mask' => if b then x :: np_mask a' mask' else np_mask a' mask'
  | _, _ => []
  end.

(** [np.vectorize(f)(xs)]: the output type is found by calling [f] on the
    first element, so an empty input is refused. *)
Definition np_vectorize (f : Z -> outcome Z) (xs : list Z) : outcome (list Z) :=
  match xs with
  | [] => Raise ValueError
  | _ => omap f xs
  end.

(** [np.stack(rows)]: at least one row, all of the same length. *)
Definition np_stack (rows : list (list Z)) : outcome (list (list Z)) :=
  match rows with
  | [] => Raise ValueError
  | r0 :: _ =>
      if forallb (fun r => length r =? length r0) rows then Ret rows
      else Raise ValueError
  end.

(** [enumerate(l)] *)
Definition enumerate (l : list Z) : list (Z * Z) :=
  imap (fun i x => (Z.of_nat i, x)) l.

(** [dict(pairs)]: a later pair overrides an earlier one with the same key. *)
Definition py_dict (pairs : list (Z * Z)) : gmap Z Z :=
  foldl (fun d kv => <[kv.1 := kv.2]> d) ∅ pairs.

(** [d[x]] *)
Definition dict_getitem {K V} `{Countable K} (d : gmap K V) (x : K) : outcome V :=
  match d !! x with
  | Some v => Ret v
  | None => Raise KeyError
  end.

(** [l[i]] for a Python list: negative indices count from the end. *)
Definition list_getitem {A} (l : list A) (i : Z) : outcome A :=
  let n := Z.of_nat (length l) in
  let j := if (i <? 0)%Z then (n + i)%Z else i in
  if (0 <=? j)%Z && (j <? n)%Z then
    match l !! Z.to_nat j with Some x => Ret x | None => Raise IndexError end
  else Raise IndexError.

(** ** [np.random] *)

(** The global random state behind [np.random.randint]: [draw g low high
    size] is an array of [size] integers of [[low, high)] and the state
    after the draw. Nothing else is known about the values. *)
Class RandomState := {
  rng : Type;
  draw : rng → Z → Z → nat → list Z * rng;
  draw_length : ∀ g low high size, length (draw g low high size).1 = size;
  draw_range : ∀ g low high size,
    (low < high)%Z → Forall (λ x, (low ≤ x < high)%Z) (draw g low high size).1
}.

(** Computations that draw random numbers. *)
Definition M `{RandomState} (A : Type) : Type := rng → outcome A * rng.

Definition mret `{RandomState} {A} (a : A) : M A := λ g, (Ret a, g).

Definition mbind `{RandomState} {A B} (m : M A) (k : A → M B) : M B :=
  λ g, match m g with
       | (Ret a, g') => k a g'
       | (Raise e, g') => (Raise e, g')
       | (Spin, g') => (Spin, g')
       end.

Definition lift `{RandomState} {A} (o : outcome A) : M A := λ g, (o, g).

Notation "'let*' x ':=' m 'in' k" := (mbind m (fun x => k))
  (at level 10, x pattern, m at level 100, k at level 200).

(** [[f(x) for x in xs]] for an [f] that draws random numbers. *)
Fixpoint mmap `{RandomState} {A B} (f : A → M B) (xs : list A) : M (list B) :=
  match xs with
  | [] => mret []
  | x :: xs' => let* y := f x in let* ys := mmap f xs' in mret (y :: ys)
  end.

(** [np.random.randint(low, high, size)]: an empty request is answered
    before the bounds are looked at; otherwise [low >= high] is refused. *)
Definition np_random_randint `{RandomState} (low high : Z) (size : nat) : M (list Z) :=
  λ g, if size =? 0 then (Ret [], g)
       else if (low <? high)%Z then
         let '(xs, g') := draw g low high size in (Ret xs, g')
       else (Raise ValueError, g).

(** Two concrete random states. [cycle_rng] walks through the range,
    [stuck_rng j] answers the [j]-th value of the range every time. *)
Program Definition cycle_rng : RandomState := {|
  rng := Z;
  draw g low high size :=
    (map (λ i, (low + (g + Z.of_nat i) `mod` (high - low))%Z) (seq 0 size),
     (g + Z.of_nat size)%Z)
|}.
Next Obligation. intros. simpl. by rewrite length_map, length_seq. Qed.
Next Obligation.
  intros g low high size Hlt. simpl. apply Forall_forall. intros x Hx.
  apply list_elem_of_fmap in Hx as [i [-> _]].
  pose proof (Z.mod_pos_bound (g + Z.of_nat i) (high - low)). lia.
Qed.

Program Definition stuck_rng (j : Z) : RandomState := {|
  rng := unit;
  draw g low high size := (replicate size (low + j `mod` (high - low))%Z, g)
|}.
Next Obligation. intros. simpl. by rewrite length_replicate. Qed.
Next Obligation.
  intros j g low high size Hlt. simpl. apply Forall_replicate.
  pose proof (Z.mod_pos_bound j (high - low)). lia.
Qed.

(** ** [KGDataset] *)

Module KGDataset.

(** A filter lookup [{(anchor, relation): ids}]; the ids are what
    [np.in1d] receives as its second argument. *)
Abbreviation filter_map := (gmap (Z * Z) filter_t).

Record t : Type := {
  _triplets : list (Z * Z * Z);
  _num_ents : Z;
  _num_negs : nat;
  _neg_mode : string;
  _filter_mode : bool;
  _filter_dict : gmap string (option filter_map);
  _step : Z
}.

Definition __init__ (triplets : list (Z * Z * Z)) (num_ents : Z) (num_negs : nat)
    (neg_mode : string) (filter_mode : bool)
    (filter_dict : option (gmap string (option filter_map))) : outcome t :=
  let! fd :=
    (if negb filter_mode then Ret (<["tail" := None]> (<["head" := None]> ∅))
     else match filter_dict with
          | None => Raise AssertionError
          | Some fd =>
              if negb (bool_decide (is_Some (fd !! "head"))) then Raise AssertionError
              else if negb (bool_decide (is_Some (fd !! "tail"))) then Raise AssertionError
              else Ret fd
          end) in
  Ret {| _triplets := triplets; _num_ents := num_ents; _num_negs := num_negs;
         _neg_mode := neg_mode; _filter_mode := filter_mode;
         _filter_dict := fd; _step := 0 |}.

Definition __len__ (self : t) : nat := length (_triplets self).

Definition __getitem__ (self : t) (index : Z) : outcome (Z * Z * Z) :=
  let! (h, r, t) := list_getitem (_triplets self) index in
  Ret (h, r, t).

(** [dict([(x, i) for i, x in enumerate(uniques)])] *)
Definition reindex_dict (uniques : list Z) : gmap Z Z :=
  py_dict (map (λ ix, (ix.2, ix.1)) (enumerate uniques)).

Definition group_index (data : list (list Z))
  : outcome ((list Z → outcome (list Z)) * list Z) :=
  let! all := np_concatenate data in
  let uniques := np_unique all in
  let reindex_func := np_vectorize (λ x, dict_getitem (reindex_dict uniques) x) in
  Ret (reindex_func, uniques).

(** The candidate domain handed to the sampler: a size or an id array. *)
Inductive cand_t : Type :=
  | CandInt (n : Z)
  | CandArr (a : list Z).

(** [n_cand = cand if isinstance(cand, int) else len(cand)] *)
Definition n_cand_of (cand : cand_t) : Z :=
  match cand with
  | CandInt n => n
  | CandArr a => Z.of_nat (length a)
  end.

(** [e_cand = None if isinstance(cand, int) else cand] *)
Definition e_cand_of (cand : cand_t) : option (list Z) :=
  match cand with
  | CandInt _ => None
  | CandArr a => Some a
  end.

(** [new_e if e_cand is None else e_cand[new_e]] *)
Definition through_cand (e_cand : option (list Z)) (new_e : list Z) : outcome (list Z) :=
  match e_cand with
  | None => Ret new_e
  | Some a => np_take a new_e
  end.

Section sampling.
Context `{RandomState}.

(** The [while new_e_num < k] loop of the filtered branch. *)
Fixpoint sampler_loop (fuel : nat) (k : nat) (n_cand : Z) (e_cand : option (list Z))
    (filter_set : filter_t) (new_e_list : list (list Z)) (new_e_num : nat)
  : M (list (list Z)) :=
  if new_e_num <? k then
    match fuel with
    | 0 => lift Spin
    | S fuel' =>
        let* new_e := np_random_randint 0 n_cand (2 * k) in
        let* new_e := lift (through_cand e_cand new_e) in
        let mask := np_in1d new_e filter_set true in
        let new_e := np_mask new_e mask in
        sampler_loop fuel' k n_cand e_cand filter_set
          (new_e_list ++ [new_e]) (new_e_num + length new_e)
    end
  else mret new_e_list.

Definition uniform_sampler (fuel : nat) (k : nat) (cand : cand_t)
    (filter_set : option filter_t) : M (list Z) :=
  let n_cand := n_cand_of cand in
  let e_cand := e_cand_of cand in
  match filter_set with
  | Some filter_set =>
      let* new_e_list := sampler_loop fuel k n_cand e_cand filter_set [] 0 in
      let* new_e := lift (np_concatenate new_e_list) in
      mret (take k new_e)
  | None =>
      let* new_e := np_random_randint 0 n_cand k in
      lift (through_cand e_cand new_e)
  end.

(** [fl_set[key] if fl_set else None]: [None] and the empty dict are false. *)
Definition filter_for (fl_set : option filter_map) (key : Z * Z)
  : outcome (option filter_t) :=
  match fl_set with
  | None => Ret None
  | Some d =>
      if bool_decide (d = ∅) then Ret None
      else let! s := dict_getitem d key in Ret (Some s)
  end.

(** [h, r, t = np.array(data).T] *)
Definition unpack_columns (data : list (Z * Z * Z))
  : outcome (list Z * list Z * list Z) :=
  match data with
  | [] => Raise ValueError
  | _ => Ret (map (λ x, x.1.1) data, map (λ x, x.1.2) data, map (λ x, x.2) data)
  end.

Definition batch_t : Type :=
  (list Z * list Z * list Z * list (list Z)) * list Z * string.

(** The two [for hi, ri, ti in data] loops that fill [neg_ents]: the key of
    the filter lookup is [(ti, ri)] when heads are corrupted and
    [(hi, ri)] otherwise. *)
Definition sample_negatives (fuel : nat) (self : t) (data : list (Z * Z * Z))
    (mode : string) (fl_set : option filter_map) (cand : cand_t)
  : M (list (list Z)) :=
  if String.eqb mode "head" then
    mmap (λ '(hi, ri, ti),
            let* fl_set_i := lift (filter_for fl_set (ti, ri)) in
            uniform_sampler fuel (_num_negs self) cand fl_set_i) data
  else
    mmap (λ '(hi, ri, ti),
            let* fl_set_i := lift (filter_for fl_set (hi, ri)) in
            uniform_sampler fuel (_num_negs self) cand fl_set_i) data.

(** The end of [_collate_fn]: reindex heads, tails and every row of
    negatives, stack the rows, and return the batch. *)
Definition reindex_batch (reindex_func : list Z → outcome (list Z))
    (h r t : list Z) (neg_ents : list (list Z)) (all_ents : list Z) (mode : string)
  : outcome batch_t :=
  let! h := reindex_func h in
  let! t := reindex_func t in
  let! rows := omap reindex_func neg_ents in
  let! neg_ents := np_stack rows in
  Ret ((h, r, t, neg_ents), all_ents, mode).

Definition _collate_fn (fuel : nat) (self : t) (data : list (Z * Z * Z))
    (mode : string) (fl_set : option filter_map) : M batch_t :=
  let* (h, r, t) := lift (unpack_columns data) in
  if String.eqb (_neg_mode self) "batch" then
    let* (reindex_func, all_ents) := lift (group_index [h; t]) in
    let cand := CandArr all_ents in
    let* neg_ents := sample_negatives fuel self data mode fl_set cand in
    lift (reindex_batch reindex_func h r t neg_ents all_ents mode)
  else if String.eqb (_neg_mode self) "full" then
    let cand := CandInt (_num_ents self) in
    let* neg_ents := sample_negatives fuel self data mode fl_set cand in
    let* negs := lift (np_concatenate neg_ents) in
    let ents_list := [h; t; negs] in
    let* (reindex_func, all_ents) := lift (group_index ents_list) in
    lift (reindex_batch reindex_func h r t neg_ents all_ents mode)
  else lift (Raise ValueError).

(** [self._filter_dict[side]] *)
Definition side_filter (self : t) (side : string) : M (option filter_map) :=
  lift (dict_getitem (_filter_dict self) side).

Definition head_collate_fn (fuel : nat) (self : t) (data : list (Z * Z * Z)) : M batch_t :=
  let* fl_set := side_filter self "head" in
  _collate_fn fuel self data "head" fl_set.

Definition tail_collate_fn (fuel : nat) (self : t) (data : list (Z * Z * Z)) : M batch_t :=
  let* fl_set := side_filter self "tail" in
  _collate_fn fuel self data "tail" fl_set.

(** [self._step += 1] happens first: the updated dataset is returned next
    to the collation that runs on it. *)
Definition mixed_collate_fn (fuel : nat) (self : t) (data : list (Z * Z * Z))
  : t * M batch_t :=
  let self := {| _triplets := _triplets self; _num_ents := _num_ents self;
                 _num_negs := _num_negs self; _neg_mode := _neg_mode self;
                 _filter_mode := _filter_mode self;
                 _filter_dict := _filter_dict self;
                 _step := (_step self + 1)%Z |} in
  (self,
   if (_step self `mod` 2 =? 0)%Z then
     let* fl_set := side_filter self "head" in
     _collate_fn fuel self data "head" fl_set
   else
     let* fl_set := side_filter self "tail" in
     _collate_fn fuel self data "tail" fl_set).

End sampling.

End KGDataset.

(** ** [TestKGDataset] *)

Module TestKGDataset.

(** What the [candidate] entry and an item's candidate slot can hold: an
    integer, one row of candidate ids, or a table with a row per query,
    all rows of one length. *)
Inductive cand_t : Type :=
  | CandCount (n : Z)
  | CandRow (row : list Z)
  | CandRows (rows : list (list Z)).

(** What the [correct_index] entry can hold: a Python list, or a numpy
    array. The array has a first entry: what an empty array is worth as a
    condition is not the same in all versions of numpy. *)
Inductive corr_t : Type :=
  | CorrList (l : list Z)
  | CorrArr (c : Z) (cs : list Z).

(** The entries of the column. *)
Definition corr_entries (c : corr_t) : list Z :=
  match c with
  | CorrList l => l
  | CorrArr c cs => c :: cs
  end.

(** The [triplets] dictionary; an entry that is [None] is a missing key. *)
Record triplets_t : Type := {
  d_mode : option string;
  d_h : option (list Z);
  d_r : option (list Z);
  d_t : option (list Z);
  d_candidate : option cand_t;
  d_correct_index : option corr_t
}.

Record t : Type := {
  _num_ents : Z;
  _mode : string;
  _h : list Z;
  _r : list Z;
  _t : option (list Z);
  _cand : cand_t;
  _corr_idx : option corr_t
}.

(** [triplets[key]] *)
Definition required {A} (entry : option A) : outcome A :=
  match entry with
  | Some v => Ret v
  | None => Raise KeyError
  end.

Definition __init__ (triplets : triplets_t) (num_ents : Z) : outcome t :=
  let! mode := required (d_mode triplets) in
  if negb (String.eqb mode "wiki" || String.eqb mode "normal") then Raise AssertionError
  else
    let! h := required (d_h triplets) in
    let! r := required (d_r triplets) in
    let! cand := required (d_candidate triplets) in
    Ret {| _num_ents := num_ents; _mode := mode; _h := h; _r := r;
           _t := d_t triplets; _cand := cand;
           _corr_idx := d_correct_index triplets |}.

Definition __len__ (self : t) : nat := length (_r self).

(** [self._cand[index]] *)
Definition cand_getitem (c : cand_t) (index : Z) : outcome cand_t :=
  match c with
  | CandCount _ => Raise TypeError
  | CandRow row => let! x := np_getitem row index in Ret (CandCount x)
  | CandRows rows =>
      let n := Z.of_nat (length rows) in
      let i := if (index <? 0)%Z then (n + index)%Z else index in
      if (0 <=? i)%Z && (i <? n)%Z then
        match rows !! Z.to_nat i with
        | Some row => Ret (CandRow row)
        | None => Raise IndexError
        end
      else Raise IndexError
  end.

(** [self._corr_idx] as the condition of [if self._corr_idx:]. [None] and
    the empty list are false and a list with entries is true. An array of
    one entry is worth that entry; an array of more entries has no truth
    value, and asking for it raises [ValueError]. *)
Definition corr_truth (corr_idx : option corr_t) : outcome bool :=
  match corr_idx with
  | None => Ret false
  | Some (CorrList []) => Ret false
  | Some (CorrList (_ :: _)) => Ret true
  | Some (CorrArr c []) => Ret (negb (c =? 0)%Z)
  | Some (CorrArr _ (_ :: _)) => Raise ValueError
  end.

Definition item_t : Type := (Z * Z * option Z) * cand_t * option Z.

Definition __getitem__ (self : t) (index : Z) : outcome item_t :=
  let! h := np_getitem (_h self) index in
  let! r := np_getitem (_r self) index in
  let! t := match _t self with
            | Some ts => let! x := np_getitem ts index in Ret (Some x)
            | None => Ret None
            end in
  let! cand := if String.eqb (_mode self) "normal" then Ret (_cand self)
               else cand_getitem (_cand self) index in
  let! truth := corr_truth (_corr_idx self) in
  let! corr_idx := match _corr_idx self with
                   | Some c =>
                       if truth then
                         let! x := np_getitem (corr_entries c) index in Ret (Some x)
                       else Ret None
                   | None => Ret None
                   end in
  Ret ((h, r, t), cand, corr_idx).

(** [paddle.arange(n)] *)
Definition paddle_arange (n : Z) : list Z :=
  map Z.of_nat (seq 0 (Z.to_nat n)).

(** [paddle.to_tensor(xs)] for a list that may hold [None]: a list with a
    [None] in it is no array of numbers, and is refused. *)
Definition to_tensor_opt (xs : list (option Z)) : outcome (list Z) :=
  omap (λ x, match x with Some v => Ret v | None => Raise ValueError end) xs.

(** A tensor of integers, of one, two or three dimensions. *)
Inductive tensor : Type :=
  | T1 (v : list Z)
  | T2 (m : list (list Z))
  | T3 (c : list (list (list Z))).

(** [np.stack([x[1] for x in data])] on the candidate slots of a batch:
    there must be one at least, and all of one shape. Integers stack to a
    vector, rows of one length to a matrix, tables of one shape to a
    tensor of three dimensions. *)
Definition stack_cands (cands : list cand_t) : outcome tensor :=
  match cands with
  | [] => Raise ValueError
  | CandCount _ :: _ =>
      let! xs := omap (λ c, match c with
                           | CandCount x => Ret x
                           | _ => Raise ValueError
                           end) cands in
      Ret (T1 xs)
  | CandRow _ :: _ =>
      let! rows := omap (λ c, match c with
                             | CandRow row => Ret row
                             | _ => Raise ValueError
                             end) cands in
      let! m := np_stack rows in
      Ret (T2 m)
  | CandRows rows0 :: _ =>
      let! tables := omap (λ c, match c with
                               | CandRows rows => Ret rows
                               | _ => Raise ValueError
                               end) cands in
      if forallb (λ rows, bool_decide (map length rows = map length rows0)) tables
      then Ret (T3 tables)
      else Raise ValueError
  end.

Definition result_t : Type :=
  string * (list Z * list Z * option (list Z) * tensor) * option (list Z).

(** A mode that is neither "wiki" nor "normal" leaves [t] unbound at the
    [return]. *)
Definition collate_fn (self : t) (data : list item_t) : outcome result_t :=
  let mode := _mode self in
  let h := map (λ x : item_t, x.1.1.1.1) data in
  let r := map (λ x : item_t, x.1.1.1.2) data in
  if String.eqb mode "wiki" then
    let! cand := stack_cands (map (λ x : item_t, x.1.2) data) in
    let! truth := corr_truth (_corr_idx self) in
    let! corr_idx :=
      (if truth then
         let! xs := to_tensor_opt (map (λ x : item_t, x.2) data) in
         match xs with [] => Raise ValueError | _ => Ret (Some xs) end
       else Ret None) in
    Ret (mode, (h, r, None, cand), corr_idx)
  else if String.eqb mode "normal" then
    let! t := to_tensor_opt (map (λ x : item_t, x.1.1.2) data) in
    let! cand := match data with
                 | [] => Raise IndexError
                 | x :: _ => match x.1.2 with
                             | CandCount n => Ret (T2 [paddle_arange n])
                             | _ => Raise TypeError
                             end
                 end in
    Ret (mode, (h, r, Some t, cand), None)
  else Raise NameError.

End TestKGDataset.

(** ** [GNNModel] *)

Module GNNModel.

(** [sub in s] for two strings. *)
Fixpoint str_contains (sub s : string) : bool :=
  String.prefix sub s
  || match s with
     | EmptyString => false
     | String _ s' => str_contains sub s'
     end.

(** The name [loss_func] looks up in the loss module:
    [loss_type if "loss" in loss_type else "%s_loss" % loss_type]. *)
Definition loss_type_name (loss_type : string) : string :=
  if negb (str_contains "loss" loss_type) then String.append loss_type "_loss"
  else loss_type.

End GNNModel.

(** ** Vocabulary of the statements *)

(** The ids [0, 1, ..., n - 1]. *)
Definition id_range (n : Z) : list Z := map Z.of_nat (seq 0 (Z.to_nat n)).


(** [x] occurs in one of the arrays of [data]. *)
Definition occurs_in (data : list (list Z)) (x : Z) : Prop :=
  ∃ a, a ∈ data ∧ x ∈ a.

(** [x] is an id of the candidate domain [cand]. *)
Definition in_domain (cand : KGDataset.cand_t) (x : Z) : Prop :=
  match cand with
  | KGDataset.CandInt n => (0 ≤ x < n)%Z
  | KGDataset.CandArr a => x ∈ a
  end.

(** The ids a filter value gives [np.in1d] to compare with: the entries
    of an array, and nothing of a set. *)
Definition compared_ids (f : filter_t) : list Z :=
  match f with
  | FilterArr a => a
  | FilterSet _ => []
  end.

(** A filter lookup with every value replaced by the array of the ids that
    are compared with. *)
Definition compared_lookup (d : KGDataset.filter_map) : KGDataset.filter_map :=
  (λ f, FilterArr (compared_ids f)) <$> d.

(** The ids of a batch that are not in the id array [filter_set], in their
    order. *)
Definition survivors (filter_set : list Z) (batch : list Z) : list Z :=
  filter (λ x, x ∉ filter_set) batch.

(** The index batches of [turns] calls [np.random.randint(0, n, size)] in
    a row from the random state [g], and the state they leave. *)
Fixpoint successive_draws `{RandomState} (turns : nat) (n : Z) (size : nat) (g : rng)
  : list (list Z) * rng :=
  match turns with
  | 0 => ([], g)
  | S turns' =>
      let '(idx, g1) := draw g 0 n size in
      let '(rest, g') := successive_draws turns' n size g1 in
      (idx :: rest, g')
  end.

(** The columns of a batch of triplets. *)
Definition heads (data : list (Z * Z * Z)) : list Z := map (λ x, x.1.1) data.
Definition rels (data : list (Z * Z * Z)) : list Z := map (λ x, x.1.2) data.
Definition tails (data : list (Z * Z * Z)) : list Z := map (λ x, x.2) data.

(** The key under which a triplet's filter set is looked up: the endpoint
    that is kept, and the relation. *)
Definition filter_key (mode : string) (x : Z * Z * Z) : Z * Z :=
  if String.eqb mode "head" then (x.2, x.1.2) else (x.1.1, x.1.2).

(** The entity a reindexed id [y] stands for is none of [fs]. *)
Definition denotes_outside (all_ents fs : list Z) (y : Z) : Prop :=
  ∃ x, np_getitem all_ents y = Ret x ∧ x ∉ fs.

(** The outcome [o] with the label of its batch replaced by [label]. *)
Definition with_label (label : string) (o : outcome KGDataset.batch_t)
  : outcome KGDataset.batch_t :=
  match o with
  | Ret (tensors, all_ents, _) => Ret (tensors, all_ents, label)
  | Raise e => Raise e
  | Spin => Spin
  end.

(** The columns of an evaluation dataset have one entry per relation:
    heads, tails when present, candidate rows outside "normal" mode, and
    correct indices when present and not empty. *)
Definition aligned (self : TestKGDataset.t) : Prop :=
  length (TestKGDataset._h self) = length (TestKGDataset._r self)
  ∧ (∀ ts, TestKGDataset._t self = Some ts →
           length ts = length (TestKGDataset._r self))
  ∧ (TestKGDataset._mode self ≠ "normal" →
     ∃ rows, TestKGDataset._cand self = TestKGDataset.CandRows rows
             ∧ length rows = length (TestKGDataset._r self))
  ∧ (∀ c, TestKGDataset._corr_idx self = Some c →
          TestKGDataset.corr_entries c = []
          ∨ length (TestKGDataset.corr_entries c) = length (TestKGDataset._r self)).

(** A "wiki" evaluation set of two queries with three candidates each,
    whose correct indices are a Python list. *)
Definition wiki_dataset : TestKGDataset.t := {|
  TestKGDataset._num_ents := 9;
  TestKGDataset._mode := "wiki";
  TestKGDataset._h := [4; 5]%Z;
  TestKGDataset._r := [0; 1]%Z;
  TestKGDataset._t := None;
  TestKGDataset._cand := TestKGDataset.CandRows [[1; 2; 3]; [6; 7; 8]]%Z;
  TestKGDataset._corr_idx := Some (TestKGDataset.CorrList [2; 0]%Z)
|}.

(** The same evaluation set with its correct indices in a numpy array. *)
Definition wiki_array_dataset : TestKGDataset.t := {|
  TestKGDataset._num_ents := 9;
  TestKGDataset._mode := "wiki";
  TestKGDataset._h := [4; 5]%Z;
  TestKGDataset._r := [0; 1]%Z;
  TestKGDataset._t := None;
  TestKGDataset._cand := TestKGDataset.CandRows [[1; 2; 3]; [6; 7; 8]]%Z;
  TestKGDataset._corr_idx := Some (TestKGDataset.CorrArr 2 [0]%Z)
|}.

(** ** Example datasets *)

(** A dataset with filtering on and id arrays as filter values: the true
    heads of [(tail 1, relation 0)] are [[0]]. *)
Definition ds_head_filter : KGDataset.t := {|
  KGDataset._triplets := [(0, 0, 1)]%Z;
  KGDataset._num_ents := 4;
  KGDataset._num_negs := 2;
  KGDataset._neg_mode := "full";
  KGDataset._filter_mode := true;
  KGDataset._filter_dict :=
    <["tail" := Some {[ (0, 0)%Z := FilterArr [1%Z] ]}]>
      (<["head" := Some {[ (1, 0)%Z := FilterArr [0%Z] ]}]> ∅);
  KGDataset._step := 0
|}.

(** A dataset with filtering on and Python sets as filter values: both
    lookups map [(1, 0)] to the set [{0}]. *)
Definition ds_set_filter : KGDataset.t := {|
  KGDataset._triplets := [(0, 0, 1)]%Z;
  KGDataset._num_ents := 4;
  KGDataset._num_negs := 1;
  KGDataset._neg_mode := "batch";
  KGDataset._filter_mode := true;
  KGDataset._filter_dict :=
    <["tail" := Some {[ (1, 0)%Z := FilterSet {[ 0%Z ]} ]}]>
      (<["head" := Some {[ (1, 0)%Z := FilterSet {[ 0%Z ]} ]}]> ∅);
  KGDataset._step := 0
|}.

(** A dataset in "batch" mode over 4 entities, filtering off. *)
Definition ds_batch : KGDataset.t := {|
  KGDataset._triplets := [(0, 0, 1); (2, 0, 3)]%Z;
  KGDataset._num_ents := 4;
  KGDataset._num_negs := 2;
  KGDataset._neg_mode := "batch";
  KGDataset._filter_mode := false;
  KGDataset._filter_dict := <["tail" := None]> (<["head" := None]> ∅);
  KGDataset._step := 0
|}.

(** A dataset in "full" mode over 1000 entities, filtering off, and a
    batch of four of its triplets. *)
Definition ds_full : KGDataset.t := {|
  KGDataset._triplets := [(0, 0, 1); (2, 0, 3); (999, 1, 0); (7, 2, 7)]%Z;
  KGDataset._num_ents := 1000;
  KGDataset._num_negs := 3;
  KGDataset._neg_mode := "full";
  KGDataset._filter_mode := false;
  KGDataset._filter_dict := <["tail" := None]> (<["head" := None]> ∅);
  KGDataset._step := 0
|}.

Definition batch_of_four : list (Z * Z * Z) :=
  [(0, 0, 1); (2, 0, 3); (999, 1, 0); (7, 2, 7)]%Z.

(** The dataset after [mixed_collate_fn] has been called on each of
    [batches] in turn. *)
Fixpoint after_mixed_calls `{RandomState} (fuel : nat) (self : KGDataset.t)
    (batches : list (list (Z * Z * Z))) : KGDataset.t :=
  match batches with
  | [] => self
  | data :: rest =>
      after_mixed_calls fuel (KGDataset.mixed_collate_fn fuel self data).1 rest
  end.

(** A "normal" evaluation set of one query whose [candidate] entry is 2,
    and the dataset [__init__] builds from it for a graph of 3 entities. *)
Definition normal_triplets : TestKGDataset.triplets_t := {|
  TestKGDataset.d_mode := Some "normal";
  TestKGDataset.d_h := Some [0%Z];
  TestKGDataset.d_r := Some [0%Z];
  TestKGDataset.d_t := Some [1%Z];
  TestKGDataset.d_candidate := Some (TestKGDataset.CandCount 2);
  TestKGDataset.d_correct_index := None
|}.

Definition normal_dataset : TestKGDataset.t := {|
  TestKGDataset._num_ents := 3;
  TestKGDataset._mode := "normal";
  TestKGDataset._h := [0%Z];
  TestKGDataset._r := [0%Z];
  TestKGDataset._t := Some [1%Z];
  TestKGDataset._cand := TestKGDataset.CandCount 2;
  TestKGDataset._corr_idx := None
|}.

(** * Properties *)

(** ** The model at work *)

Example np_unique_sorts_and_dedups : np_unique [3; 1; 7; 1; 3]%Z = [1; 3; 7]%Z.
Proof. reflexivity. Qed.

Example group_index_maps_positions :
  (let! p := KGDataset.group_index [[3; 1]; [7; 1]]%Z in
   let! known := p.1 [1; 7; 3]%Z in Ret (known, p.1 [2%Z], p.1 [], p.2))
  = Ret ([0; 2; 1]%Z, Raise KeyError, Raise ValueError, [1; 3; 7]%Z).
Proof. reflexivity. Qed.

Example init_without_filter :
  KGDataset.__init__ [(0, 0, 1); (2, 0, 3)]%Z 4 2 "batch" false
    (Some {[ "head" := Some {[ (1, 0)%Z := FilterSet {[ 0%Z ]} ]} ]})
  = Ret ds_batch.
Proof. reflexivity. Qed.

Example init_filter_needs_both_sides :
  KGDataset.__init__ [(0, 0, 1)]%Z 4 2 "batch" true
    (Some {[ "head" := Some {[ (1, 0)%Z := FilterSet {[ 0%Z ]} ]} ]})
  = Raise AssertionError.
Proof. reflexivity. Qed.

(** In "batch" mode the candidates are the entities of the batch, and heads
    and tails are mapped into [[0, 4)]. *)
Example batch_mode_collation :
  KGDataset.head_collate_fn (H := cycle_rng) 0 ds_batch [(0, 0, 1); (2, 0, 3)]%Z 0%Z
  = (Ret (([0; 2]%Z, [0; 0]%Z, [1; 3]%Z, [[0; 1]; [2; 3]]%Z), [0; 1; 2; 3]%Z, "head"), 4%Z).
Proof. vm_compute. reflexivity. Qed.

Example unknown_neg_mode_is_refused :
  (KGDataset._collate_fn (H := cycle_rng) 0
     {| KGDataset._triplets := []; KGDataset._num_ents := 4; KGDataset._num_negs := 2;
        KGDataset._neg_mode := "all"; KGDataset._filter_mode := false;
        KGDataset._filter_dict := ∅; KGDataset._step := 0 |}
     [(0, 0, 1)]%Z "head" None 0%Z).1
  = Raise ValueError.
Proof. reflexivity. Qed.

Example filtered_draws_skip_a_filter_array :
  KGDataset.uniform_sampler (H := cycle_rng) 5 2 (KGDataset.CandArr [10; 11; 12]%Z)
    (Some (FilterArr [11%Z])) 0%Z
  = (Ret [10; 12]%Z, 4%Z).
Proof. vm_compute. reflexivity. Qed.

Example filtered_draws_keep_the_members_of_a_set :
  KGDataset.uniform_sampler (H := cycle_rng) 5 2 (KGDataset.CandArr [10; 11; 12]%Z)
    (Some (FilterSet {[ 11%Z ]})) 0%Z
  = (Ret [10; 11]%Z, 4%Z).
Proof. vm_compute. reflexivity. Qed.

Example filtered_draws_can_starve :
  KGDataset.uniform_sampler (H := stuck_rng 0) 50 3 (KGDataset.CandArr [1; 2]%Z)
    (Some (FilterArr [1%Z])) tt
  = (Spin, tt).
Proof. vm_compute. reflexivity. Qed.

Example wiki_candidates_are_stacked :
  TestKGDataset.collate_fn
    {| TestKGDataset._num_ents := 9; TestKGDataset._mode := "wiki";
       TestKGDataset._h := [4; 5]%Z; TestKGDataset._r := [0; 1]%Z;
       TestKGDataset._t := None;
       TestKGDataset._cand := TestKGDataset.CandRows [[1; 2]; [3; 4]]%Z;
       TestKGDataset._corr_idx := Some (TestKGDataset.CorrList [1; 0]%Z) |}
    [((4, 0, None), TestKGDataset.CandRow [1; 2], Some 1);
     ((5, 1, None), TestKGDataset.CandRow [3; 4], Some 0)]%Z
  = Ret ("wiki", ([4; 5]%Z, [0; 1]%Z, None, TestKGDataset.T2 [[1; 2]; [3; 4]]%Z),
         Some [1; 0]%Z).
Proof. reflexivity. Qed.

Example wiki_scalar_candidates_are_stacked :
  TestKGDataset.collate_fn
    {| TestKGDataset._num_ents := 9; TestKGDataset._mode := "wiki";
       TestKGDataset._h := [4; 5]%Z; TestKGDataset._r := [0; 1]%Z;
       TestKGDataset._t := None;
       TestKGDataset._cand := TestKGDataset.CandRow [7; 8]%Z;
       TestKGDataset._corr_idx := None |}
    [((4, 0, None), TestKGDataset.CandCount 7, None);
     ((5, 1, None), TestKGDataset.CandCount 8, None)]%Z
  = Ret ("wiki", ([4; 5]%Z, [0; 1]%Z, None, TestKGDataset.T1 [7; 8]%Z), None).
Proof. reflexivity. Qed.

Example array_of_correct_indices_has_no_truth_value :
  TestKGDataset.__getitem__ wiki_array_dataset 0 = Raise ValueError.
Proof. reflexivity. Qed.


(** ** Outcome monad *)

Lemma omap_Ret_Forall2 {A B} (f : A -> outcome B) xs ys :
  omap f xs = Ret ys ↔ Forall2 (λ x y, f x = Ret y) xs ys.
Proof.
  revert ys. induction xs as [|x xs IH]; intros ys; simpl.
  - split; [intros [= <-]; constructor | by inversion 1].
  - destruct (f x) as [y| |] eqn:Hx; simpl.
    + destruct (omap f xs) as [ys'| |] eqn:Hxs; simpl.
      * split.
        -- intros [= <-]. constructor; [done | by apply IH].
        -- inversion 1 as [|? y' ? ys'' Hy Hys]; subst.
           apply IH in Hys. congruence.
      * split; [done |]. inversion 1 as [|? ? ? ys'' _ Hys]; subst.
        by apply IH in Hys.
      * split; [done |]. inversion 1 as [|? ? ? ys'' _ Hys]; subst.
        by apply IH in Hys.
    + split; [done |]. inversion 1; congruence.
    + split; [done |]. inversion 1; congruence.
Qed.

Lemma omap_length {A B} (f : A -> outcome B) xs ys :
  omap f xs = Ret ys → length ys = length xs.
Proof. rewrite omap_Ret_Forall2. intros H. symmetry. by eapply Forall2_length. Qed.

Lemma omap_Raise {A B} (f : A -> outcome B) xs e :
  Forall (λ x, f x = Raise e ∨ ∃ y, f x = Ret y) xs →
  Exists (λ x, f x = Raise e) xs →
  omap f xs = Raise e.
Proof.
  induction 1 as [|x xs Hx Hxs IH]; intros Hex; [by inversion Hex|].
  simpl. destruct Hx as [Hx | [y Hy]].
  - by rewrite Hx.
  - rewrite Hy. simpl. inversion Hex as [? ? Hbad | ? ? Hlater]; subst.
    + congruence.
    + by rewrite (IH Hlater).
Qed.

(** ** [np.unique] *)

Lemma keep_changes_elem_of prev aux x :
  x ∈ prev :: keep_changes prev aux ↔ x ∈ prev :: aux.
Proof.
  revert prev. induction aux as [|y aux IH]; intros prev; simpl; [done|].
  destruct (Z.eqb_spec y prev) as [-> | Hne].
  - rewrite IH, !elem_of_cons. naive_solver.
  - rewrite !(elem_of_cons _ x prev), IH. done.
Qed.

Lemma keep_changes_sorted prev aux :
  Sorted Z.le (prev :: aux) →
  StronglySorted Z.lt (prev :: keep_changes prev aux).
Proof.
  revert prev. induction aux as [|y aux IH]; intros prev Hs; simpl.
  - repeat constructor.
  - apply Sorted_inv in Hs as [Hs Hhd]. apply HdRel_inv in Hhd.
    specialize (IH _ Hs).
    destruct (Z.eqb_spec y prev) as [-> | Hne]; [done|].
    apply StronglySorted_cons. split; [|done].
    apply StronglySorted_cons in IH as [Hall _].
    constructor; [lia|].
    eapply Forall_impl; [exact Hall|]. simpl. intros; lia.
Qed.

Lemma keep_changes_length prev aux :
  length (keep_changes prev aux) ≤ length aux.
Proof.
  revert prev. induction aux as [|y aux IH]; intros prev; simpl; [lia|].
  destruct (y =? prev)%Z; simpl; specialize (IH y); lia.
Qed.

Lemma np_unique_elem_of ar x : x ∈ np_unique ar ↔ x ∈ ar.
Proof.
  unfold np_unique. rewrite <- (merge_sort_Permutation Z.le ar) at 2.
  destruct (merge_sort Z.le ar) as [|y aux]; [done|].
  apply keep_changes_elem_of.
Qed.

Lemma np_unique_sorted ar : StronglySorted Z.lt (np_unique ar).
Proof.
  unfold np_unique.
  pose proof (Sorted_merge_sort Z.le ar) as Hs.
  destruct (merge_sort Z.le ar) as [|y aux]; [constructor|].
  by apply keep_changes_sorted.
Qed.

Lemma np_unique_length ar : length (np_unique ar) ≤ length ar.
Proof.
  unfold np_unique.
  rewrite <- (Permutation_length (merge_sort_Permutation Z.le ar)).
  destruct (merge_sort Z.le ar) as [|y aux]; simpl; [lia|].
  pose proof (keep_changes_length y aux). lia.
Qed.

Lemma strictly_sorted_NoDup (l : list Z) : StronglySorted Z.lt l → NoDup l.
Proof.
  induction 1 as [|x l _ IH Hall]; constructor; [|done].
  intros Hin. rewrite Forall_forall in Hall. specialize (Hall _ Hin). lia.
Qed.

(** A strictly increasing array of integers of [[lo, hi)] has at most
    [hi - lo] elements. *)
Lemma strictly_sorted_length_bound (l : list Z) (lo hi : Z) :
  StronglySorted Z.lt l →
  Forall (λ x, (lo ≤ x < hi)%Z) l →
  (Z.of_nat (length l) ≤ Z.max 0 (hi - lo))%Z.
Proof.
  intros Hs. revert lo. induction Hs as [|x l _ IH Hall]; intros lo Hr; simpl.
  - lia.
  - apply Forall_cons in Hr as [Hx Hr].
    assert (Forall (λ y, (x + 1 ≤ y < hi)%Z) l) as Hr'.
    { rewrite Forall_forall in *. intros y Hy.
      specialize (Hall _ Hy). specialize (Hr _ Hy). lia. }
    specialize (IH _ Hr'). lia.
Qed.

Lemma strictly_sorted_ext (l1 l2 : list Z) :
  StronglySorted Z.lt l1 → StronglySorted Z.lt l2 →
  (∀ x, x ∈ l1 ↔ x ∈ l2) → l1 = l2.
Proof.
  intros H1 H2 Hiff.
  apply (StronglySorted_unique_strong Z.lt); [intros; lia | done | done |].
  apply NoDup_Permutation; auto using strictly_sorted_NoDup.
Qed.

Lemma np_unique_ext ar1 ar2 :
  (∀ x, x ∈ ar1 ↔ x ∈ ar2) → np_unique ar1 = np_unique ar2.
Proof.
  intros Hiff. apply strictly_sorted_ext; auto using np_unique_sorted.
  intros x. by rewrite !np_unique_elem_of.
Qed.

(** ** Indexing and dictionaries *)

Lemma np_getitem_lookup (a : list Z) (i : nat) x :
  a !! i = Some x → np_getitem a (Z.of_nat i) = Ret x.
Proof.
  intros Hi. unfold np_getitem. pose proof (lookup_lt_Some _ _ _ Hi) as Hlt.
  replace ((0 <=? Z.of_nat i)%Z) with true by (symmetry; apply Z.leb_le; lia).
  replace ((Z.of_nat i <? Z.of_nat (length a))%Z) with true
    by (symmetry; apply Z.ltb_lt; lia).
  simpl. by rewrite Nat2Z.id, Hi.
Qed.

Lemma np_getitem_in_range (a : list Z) (i : Z) :
  (0 ≤ i < Z.of_nat (length a))%Z → ∃ x, np_getitem a i = Ret x ∧ x ∈ a.
Proof.
  intros Hi. destruct (lookup_lt_is_Some_2 a (Z.to_nat i)) as [x Hx]; [lia|].
  exists x. split; [|by eapply list_elem_of_lookup_2].
  rewrite <- (Z2Nat.id i) by lia. by apply np_getitem_lookup.
Qed.

Lemma py_dict_acc_lookup (pairs : list (Z * Z)) (d : gmap Z Z) x v :
  foldl (λ d kv, <[kv.1 := kv.2]> d) d pairs !! x = Some v →
  (x, v) ∈ pairs ∨ d !! x = Some v.
Proof.
  revert d. induction pairs as [|[k w] pairs IH]; intros d; simpl; [auto|].
  intros Hl. destruct (IH _ Hl) as [Hin | Hd]; [left; by constructor|].
  destruct (decide (k = x)) as [-> | Hne].
  - rewrite lookup_insert_eq in Hd. injection Hd as ->. left. constructor.
  - rewrite lookup_insert_ne in Hd by done. by right.
Qed.

Lemma py_dict_acc_is_Some (pairs : list (Z * Z)) (d : gmap Z Z) x :
  is_Some (foldl (λ d kv, <[kv.1 := kv.2]> d) d pairs !! x) ↔
  x ∈ pairs.*1 ∨ is_Some (d !! x).
Proof.
  revert d. induction pairs as [|[k w] pairs IH]; intros d; simpl.
  - rewrite elem_of_nil. naive_solver.
  - rewrite IH, elem_of_cons. destruct (decide (k = x)) as [-> | Hne].
    + rewrite lookup_insert_eq. naive_solver.
    + rewrite lookup_insert_ne by done. naive_solver.
Qed.

Lemma reindex_dict_lookup uniques x v :
  KGDataset.reindex_dict uniques !! x = Some v →
  ∃ i : nat, v = Z.of_nat i ∧ uniques !! i = Some x.
Proof.
  unfold KGDataset.reindex_dict, py_dict, enumerate. intros Hl.
  apply py_dict_acc_lookup in Hl as [Hin | Hempty]; [|by rewrite lookup_empty in Hempty].
  apply list_elem_of_fmap in Hin as [[j y] [[= -> ->] Hin]].
  apply elem_of_lookup_imap in Hin as (i & z & [= -> ->] & Hi). eauto.
Qed.

Lemma reindex_dict_is_Some uniques x :
  is_Some (KGDataset.reindex_dict uniques !! x) ↔ x ∈ uniques.
Proof.
  unfold KGDataset.reindex_dict, py_dict, enumerate.
  rewrite py_dict_acc_is_Some, lookup_empty, <- list_fmap_compose.
  unfold enumerate. rewrite fmap_imap.
  split.
  - intros [Hin | [? [=]]].
    apply elem_of_lookup_imap in Hin as (i & z & -> & Hi).
    by eapply list_elem_of_lookup_2.
  - intros Hin. left. apply list_elem_of_lookup_1 in Hin as [i Hi].
    apply elem_of_lookup_imap. by exists i, x.
Qed.

(** What the function returned by [group_index] does on one id. *)
Lemma reindex_one uniques x :
  x ∈ uniques →
  ∃ i : nat, dict_getitem (KGDataset.reindex_dict uniques) x = Ret (Z.of_nat i)
             ∧ uniques !! i = Some x.
Proof.
  intros Hin. apply reindex_dict_is_Some in Hin as [v Hv].
  destruct (reindex_dict_lookup _ _ _ Hv) as (i & -> & Hi).
  exists i. unfold dict_getitem. by rewrite Hv.
Qed.

Lemma reindex_absent uniques x :
  x ∉ uniques → dict_getitem (KGDataset.reindex_dict uniques) x = Raise KeyError.
Proof.
  intros Hin. unfold dict_getitem.
  destruct (KGDataset.reindex_dict uniques !! x) as [v|] eqn:Hv; [|done].
  exfalso. apply Hin, reindex_dict_is_Some. eauto.
Qed.

Lemma group_index_unfold data :
  data ≠ [] →
  KGDataset.group_index data =
    Ret (np_vectorize (λ x, dict_getitem (KGDataset.reindex_dict (np_unique (concat data))) x),
         np_unique (concat data)).
Proof. intros Hne. unfold KGDataset.group_index. by destruct data. Qed.

Lemma group_index_Ret data f uniques :
  KGDataset.group_index data = Ret (f, uniques) →
  data ≠ [] ∧ uniques = np_unique (concat data) ∧
  f = np_vectorize (λ x, dict_getitem (KGDataset.reindex_dict uniques) x).
Proof.
  destruct data as [|a data]; [done|].
  rewrite group_index_unfold by done. intros [= <- <-]. done.
Qed.

(** The reindexing function on an array of known ids. *)
Lemma reindex_func_known uniques xs :
  xs ≠ [] → Forall (λ x, x ∈ uniques) xs →
  ∃ ys, np_vectorize (λ x, dict_getitem (KGDataset.reindex_dict uniques) x) xs = Ret ys
        ∧ Forall2 (λ x y, (0 ≤ y < Z.of_nat (length uniques))%Z
                          ∧ np_getitem uniques y = Ret x) xs ys.
Proof.
  intros Hne Hall.
  assert (∃ ys, omap (λ x, dict_getitem (KGDataset.reindex_dict uniques) x) xs = Ret ys
                ∧ Forall2 (λ x y, (0 ≤ y < Z.of_nat (length uniques))%Z
                                  ∧ np_getitem uniques y = Ret x) xs ys) as (ys & Hys & HF).
  { clear Hne. induction Hall as [|x xs Hx _ (ys & Hys & HF)]; simpl.
    - exists []. split; [done | constructor].
    - destruct (reindex_one _ _ Hx) as (i & Hi & Hlk). rewrite Hi, Hys. simpl.
      eexists. split; [done|]. constructor; [|done].
      split; [|by apply np_getitem_lookup].
      apply lookup_lt_Some in Hlk. lia. }
  exists ys. split; [|done]. by destruct xs.
Qed.

(** ** The reindexer *)

Lemma elem_of_concat (data : list (list Z)) x : x ∈ concat data ↔ occurs_in data x.
Proof.
  unfold occurs_in. induction data as [|a data IH]; simpl.
  - split; [by intros ?%elem_of_nil | by intros (? & ?%elem_of_nil & _)].
  - rewrite elem_of_app, IH. split.
    + intros [Hx | (b & Hb & Hx)]; [exists a | exists b]; split; try done; by constructor.
    + intros (b & Hb & Hx). apply elem_of_cons in Hb as [-> | Hb]; eauto.
Qed.

(** C1. For every non-empty list of id arrays [group_index] returns a
    vocabulary and a mapping function: the vocabulary is strictly
    increasing and holds exactly the ids that occur in the arrays; the
    function maps every array of such ids to values of [[0, U)], [U] the
    size of the vocabulary, and the vocabulary indexed by the mapped value
    of an id is that id again. *)
Theorem group_index_round_trip (data : list (list Z)) :
  data ≠ [] →
  ∃ reindex_func uniques,
    KGDataset.group_index data = Ret (reindex_func, uniques)
    ∧ StronglySorted Z.lt uniques
    ∧ (∀ x, x ∈ uniques ↔ occurs_in data x)
    ∧ ∀ xs, xs ≠ [] → Forall (occurs_in data) xs →
        ∃ ys, reindex_func xs = Ret ys
              ∧ Forall2 (λ x y, (0 ≤ y < Z.of_nat (length uniques))%Z
                                ∧ np_getitem uniques y = Ret x) xs ys.
Proof.
  intros Hne. do 2 eexists. split; [by apply group_index_unfold|].
  split; [apply np_unique_sorted|].
  split; [intros x; by rewrite np_unique_elem_of, elem_of_concat|].
  intros xs Hxs Hall. apply reindex_func_known; [done|].
  eapply Forall_impl; [exact Hall|]. intros x Hx.
  by rewrite np_unique_elem_of, elem_of_concat.
Qed.

Lemma group_index_round_trip_witness :
  ∃ reindex_func uniques,
    KGDataset.group_index [[3; 1]; [1; 7]]%Z = Ret (reindex_func, uniques)
    ∧ StronglySorted Z.lt uniques
    ∧ (∀ x, x ∈ uniques ↔ occurs_in [[3; 1]; [1; 7]]%Z x)
    ∧ ∀ xs, xs ≠ [] → Forall (occurs_in [[3; 1]; [1; 7]]%Z) xs →
        ∃ ys, reindex_func xs = Ret ys
              ∧ Forall2 (λ x y, (0 ≤ y < Z.of_nat (length uniques))%Z
                                ∧ np_getitem uniques y = Ret x) xs ys.
Proof. apply (group_index_round_trip [[3; 1]; [1; 7]]%Z). discriminate. Defined.

(** C8. The function returned by [group_index] is defined exactly on the
    ids that occur in the input arrays: it returns on every array of such
    ids, and on an array that holds an id from outside them the lookup
    fails with [KeyError]. The result is determined by the ids alone: two
    inputs with the same ids give the same vocabulary and the same
    function. *)
Theorem group_index_domain (data : list (list Z)) :
  data ≠ [] →
  ∃ reindex_func uniques,
    KGDataset.group_index data = Ret (reindex_func, uniques)
    ∧ (∀ x, (∃ y, reindex_func [x] = Ret [y]) ↔ occurs_in data x)
    ∧ (∀ xs, xs ≠ [] → Forall (occurs_in data) xs →
         ∃ ys, reindex_func xs = Ret ys ∧ length ys = length xs)
    ∧ (∀ xs, Exists (λ x, ¬ occurs_in data x) xs → reindex_func xs = Raise KeyError)
    ∧ (∀ data', data' ≠ [] → (∀ x, occurs_in data' x ↔ occurs_in data x) →
         ∃ reindex_func',
           KGDataset.group_index data' = Ret (reindex_func', uniques)
           ∧ ∀ xs, reindex_func' xs = reindex_func xs).
Proof.
  intros Hne. do 2 eexists. split; [by apply group_index_unfold|].
  assert (∀ x, x ∈ np_unique (concat data) ↔ occurs_in data x) as Hdom.
  { intros x. by rewrite np_unique_elem_of, elem_of_concat. }
  split; [|split; [|split]].
  - intros x. split.
    + intros [y Hy]. simpl in Hy. apply Hdom.
      destruct (decide (x ∈ np_unique (concat data))) as [|Hout]; [done|].
      by rewrite (reindex_absent _ _ Hout) in Hy.
    + intros Hx. apply Hdom in Hx.
      destruct (reindex_one _ _ Hx) as (i & Hi & _).
      exists (Z.of_nat i). simpl. by rewrite Hi.
  - intros xs Hxs Hall.
    destruct (reindex_func_known (np_unique (concat data)) xs) as (ys & Hys & HF);
      [done | by eapply Forall_impl; [exact Hall|]; intros x ?%Hdom |].
    exists ys. split; [done|]. symmetry. by eapply Forall2_length.
  - intros xs Hex. assert (xs ≠ []) as Hxs by (by destruct Hex).
    assert (omap (λ x, dict_getitem (KGDataset.reindex_dict (np_unique (concat data))) x) xs
            = Raise KeyError) as Hom.
    { apply omap_Raise.
      - apply Forall_forall. intros x _.
        destruct (decide (x ∈ np_unique (concat data))) as [Hin | Hout].
        + right. destruct (reindex_one _ _ Hin) as (i & Hi & _). eauto.
        + left. by apply reindex_absent.
      - eapply Exists_impl; [exact Hex|]. intros x Hx. apply reindex_absent.
        by rewrite Hdom. }
    by destruct xs.
  - intros data' Hne' Hsame.
    assert (np_unique (concat data') = np_unique (concat data)) as Heq.
    { apply np_unique_ext. intros x. by rewrite !elem_of_concat. }
    eexists. split; [rewrite group_index_unfold by done; by rewrite Heq|].
    done.
Qed.

Lemma group_index_domain_witness :
  ∃ reindex_func uniques,
    KGDataset.group_index [[5; 2]; [2; 9]]%Z = Ret (reindex_func, uniques)
    ∧ (∀ x, (∃ y, reindex_func [x] = Ret [y]) ↔ occurs_in [[5; 2]; [2; 9]]%Z x)
    ∧ (∀ xs, xs ≠ [] → Forall (occurs_in [[5; 2]; [2; 9]]%Z) xs →
         ∃ ys, reindex_func xs = Ret ys ∧ length ys = length xs)
    ∧ (∀ xs, Exists (λ x, ¬ occurs_in [[5; 2]; [2; 9]]%Z x) xs →
         reindex_func xs = Raise KeyError)
    ∧ (∀ data', data' ≠ [] →
         (∀ x, occurs_in data' x ↔ occurs_in [[5; 2]; [2; 9]]%Z x) →
         ∃ reindex_func',
           KGDataset.group_index data' = Ret (reindex_func', uniques)
           ∧ ∀ xs, reindex_func' xs = reindex_func xs).
Proof. apply (group_index_domain [[5; 2]; [2; 9]]%Z). discriminate. Defined.

(** ** The negative sampler *)

Section sampler_properties.
Context `{RandomState}.

Lemma mbind_Ret {A B} (m : M A) (k : A → M B) g b g' :
  mbind m k g = (Ret b, g') →
  ∃ a g1, m g = (Ret a, g1) ∧ k a g1 = (Ret b, g').
Proof.
  unfold mbind. destruct (m g) as [[a| |] g1]; intros Hk; try discriminate.
  by exists a, g1.
Qed.

Lemma mbind_step {A B} (m : M A) (k : A → M B) g a g1 :
  m g = (Ret a, g1) → mbind m k g = k a g1.
Proof. unfold mbind. by intros ->. Qed.

Lemma randint_Ret low high size g xs g' :
  np_random_randint low high size g = (Ret xs, g') →
  length xs = size ∧ Forall (λ x, (low ≤ x < high)%Z) xs.
Proof.
  unfold np_random_randint. destruct size as [|size]; simpl.
  - intros [= <- <-]. split; [done | constructor].
  - destruct (Z.ltb_spec low high) as [Hlt | Hge]; [|done].
    pose proof (draw_length g low high (S size)) as Hlen.
    pose proof (draw_range g low high (S size) Hlt) as Hrange.
    destruct (draw g low high (S size)) as [ys g1]. intros [= <- <-]. done.
Qed.

Lemma randint_returns low high size g :
  (low < high)%Z ∨ size = 0 →
  ∃ xs g', np_random_randint low high size g = (Ret xs, g').
Proof.
  unfold np_random_randint. destruct size as [|size]; simpl; [by eauto|].
  intros [Hlt | [=]]. destruct (Z.ltb_spec low high); [|lia].
  destruct (draw g low high (S size)) as [ys g1]. eauto.
Qed.

Lemma randint_refused low high size g :
  (high ≤ low)%Z → size ≠ 0 →
  np_random_randint low high size g = (Raise ValueError, g).
Proof.
  unfold np_random_randint. intros Hge Hsize.
  destruct size as [|size]; [done|]. simpl.
  by destruct (Z.ltb_spec low high); [lia|].
Qed.

Lemma randint_draw low high size g :
  (low < high)%Z → size ≠ 0 →
  ∃ g', np_random_randint low high size g = (Ret (draw g low high size).1, g').
Proof.
  unfold np_random_randint. intros Hlt Hsize.
  destruct size as [|size]; [done|]. simpl.
  destruct (Z.ltb_spec low high); [|lia].
  destruct (draw g low high (S size)) as [ys g1]. eauto.
Qed.

Lemma np_take_in_range (a idx : list Z) :
  Forall (λ i, (0 ≤ i < Z.of_nat (length a))%Z) idx →
  ∃ ids, np_take a idx = Ret ids ∧ length ids = length idx ∧ Forall (λ x, x ∈ a) ids
         ∧ Forall2 (λ i x, a !! Z.to_nat i = Some x) idx ids.
Proof.
  unfold np_take. induction 1 as [|i idx Hi _ (ids & Hids & Hlen & Hin & Hat)]; simpl.
  - exists []. repeat split; constructor.
  - destruct (np_getitem_in_range a i Hi) as (x & Hx & Hxin).
    rewrite Hx, Hids. simpl. exists (x :: ids).
    repeat split; [simpl; by rewrite Hlen | by constructor |].
    constructor; [|done].
    unfold np_getitem in Hx.
    replace ((0 <=? i)%Z) with true in Hx by (symmetry; apply Z.leb_le; lia).
    replace ((i <? Z.of_nat (length a))%Z) with true in Hx
      by (symmetry; apply Z.ltb_lt; lia).
    simpl in Hx. destruct (a !! Z.to_nat i); congruence.
Qed.

(** The ids that get through [new_e[np.in1d(new_e, filter_set, invert=True)]]. *)
Lemma survivors_filter (new_e : list Z) (filter_set : filter_t) :
  np_mask new_e (np_in1d new_e filter_set true)
  = survivors (compared_ids filter_set) new_e.
Proof.
  unfold survivors. destruct filter_set as [s | a]; cbn [compared_ids].
  - induction new_e as [|x new_e IH]; [done|].
    change (np_in1d (x :: new_e) (FilterSet s) true)
      with (true :: np_in1d new_e (FilterSet s) true).
    rewrite filter_cons, decide_True by apply not_elem_of_nil.
    cbn [np_mask]. by rewrite IH.
  - induction new_e as [|x new_e IH]; [done|].
    change (np_in1d (x :: new_e) (FilterArr a) true)
      with (xorb true (existsb (Z.eqb x) a) :: np_in1d new_e (FilterArr a) true).
    rewrite filter_cons.
    destruct (existsb (Z.eqb x) a) eqn:Hex; cbn [xorb np_mask]; rewrite IH.
    + rewrite decide_False; [done|]. intros Hnot. apply Hnot.
      apply existsb_exists in Hex as (y & Hy & ->%Z.eqb_eq). by apply list_elem_of_In.
    + rewrite decide_True; [done|]. intros Hin%list_elem_of_In.
      assert (existsb (Z.eqb x) a = true) as Hcontra; [|congruence].
      apply existsb_exists. exists x. split; [done | apply Z.eqb_refl].
Qed.

Lemma survivors_all_filtered fs ids :
  Forall (λ x, x ∈ fs) ids → survivors fs ids = [].
Proof.
  unfold survivors. induction 1 as [|x ids Hx _ IH]; [done|].
  rewrite filter_cons, decide_False by (intros Hnot; by apply Hnot). done.
Qed.

Lemma survivors_spec fs ids x :
  x ∈ survivors fs ids ↔ x ∈ ids ∧ x ∉ fs.
Proof. unfold survivors. rewrite list_elem_of_filter. naive_solver. Qed.

Lemma through_cand_in_range cand idx :
  Forall (λ i, (0 ≤ i < KGDataset.n_cand_of cand)%Z) idx →
  ∃ ids, KGDataset.through_cand (KGDataset.e_cand_of cand) idx = Ret ids
         ∧ length ids = length idx ∧ Forall (in_domain cand) ids.
Proof.
  destruct cand as [n | a]; simpl; intros Hidx.
  - exists idx. done.
  - destruct (np_take_in_range a idx Hidx) as (ids & Hids & Hlen & Hin & _). eauto.
Qed.

Lemma sampler_loop_exit fuel k n e fs acc num :
  k ≤ num → KGDataset.sampler_loop fuel k n e fs acc num = mret acc.
Proof.
  intros Hge. destruct fuel; simpl; by destruct (Nat.ltb_spec num k); [lia|].
Qed.

(** One turn of the loop, when the draw and the indexing succeed. *)
Lemma sampler_loop_turn fuel k n e fs acc num g idx g1 ids :
  num < k →
  np_random_randint 0 n (2 * k) g = (Ret idx, g1) →
  KGDataset.through_cand e idx = Ret ids →
  KGDataset.sampler_loop (S fuel) k n e fs acc num g =
  KGDataset.sampler_loop fuel k n e fs (acc ++ [survivors (compared_ids fs) ids])
    (num + length (survivors (compared_ids fs) ids)) g1.
Proof.
  intros Hlt Hdraw Hids. simpl. destruct (Nat.ltb_spec num k); [|lia].
  rewrite (mbind_step _ _ _ _ _ Hdraw).
  unfold lift at 1. unfold mbind at 1. rewrite Hids.
  by rewrite survivors_filter.
Qed.

(** A run of the loop that returns: the batches it drew. *)
Lemma sampler_loop_Ret cand fuel k fs acc num g l g' :
  KGDataset.sampler_loop fuel k (KGDataset.n_cand_of cand) (KGDataset.e_cand_of cand)
    fs acc num g = (Ret l, g') →
  ∃ batches,
    l = acc ++ (survivors (compared_ids fs) <$> batches)
    ∧ Forall (λ b, length b = 2 * k ∧ Forall (in_domain cand) b) batches
    ∧ k ≤ num + length (concat (survivors (compared_ids fs) <$> batches))
    ∧ ∀ i, i < length batches →
        num + length (concat (survivors (compared_ids fs) <$> take i batches)) < k.
Proof.
  revert acc num g. induction fuel as [|fuel IH]; intros acc num g.
  - simpl. destruct (Nat.ltb_spec num k) as [Hlt | Hge]; [done|].
    intros [= <- <-]. exists []. simpl. rewrite app_nil_r.
    repeat split; [constructor | lia | intros; lia].
  - destruct (Nat.ltb_spec num k) as [Hlt | Hge].
    + intros Hrun. pose proof Hrun as Hrun'. simpl in Hrun'.
      destruct (Nat.ltb_spec num k); [|lia].
      apply mbind_Ret in Hrun' as (idx & g1 & Hdraw & Hrest).
      apply mbind_Ret in Hrest as (ids & g2 & Hids & _).
      unfold lift in Hids. injection Hids as Hids <-.
      rewrite (sampler_loop_turn _ _ _ _ _ _ _ _ _ _ _ Hlt Hdraw Hids) in Hrun.
      apply IH in Hrun as (batches & -> & Hall & Hk & Hbefore).
      apply randint_Ret in Hdraw as [Hlen Hrange].
      destruct (through_cand_in_range cand idx) as (ids' & Hids' & Hlen' & Hdom);
        [eapply Forall_impl; [exact Hrange|]; simpl; intros; lia|].
      assert (ids' = ids) as -> by congruence.
      exists (ids :: batches). rewrite fmap_cons, concat_cons, length_app.
      split; [by rewrite <- app_assoc|].
      split; [constructor; [split; [lia | done] | done]|].
      split; [lia|].
      intros [|i] Hi; [simpl; lia|].
      rewrite firstn_cons, fmap_cons, concat_cons, length_app.
      rewrite length_cons in Hi. specialize (Hbefore i ltac:(lia)). lia.
    + rewrite sampler_loop_exit by done. intros [= <- <-].
      exists []. simpl. rewrite app_nil_r.
      repeat split; [constructor | lia | intros; lia].
Qed.

(** When no drawn batch lets an id through, a turn changes nothing but
    the random state, and the loop is still running whatever the fuel. *)
Lemma sampler_loop_starves cand fuel k fs acc num g :
  num < k → (0 < KGDataset.n_cand_of cand)%Z →
  (∀ g0 ids, KGDataset.through_cand (KGDataset.e_cand_of cand)
               (draw g0 0 (KGDataset.n_cand_of cand) (2 * k)).1 = Ret ids →
             survivors (compared_ids fs) ids = []) →
  (KGDataset.sampler_loop fuel k (KGDataset.n_cand_of cand) (KGDataset.e_cand_of cand)
     fs acc num g).1 = Spin.
Proof.
  intros Hlt Hn Hnone. revert acc g. induction fuel as [|fuel IH]; intros acc g.
  - simpl. by destruct (Nat.ltb_spec num k); [|lia].
  - destruct (randint_draw 0 (KGDataset.n_cand_of cand) (2 * k) g) as (g1 & Hdraw);
      [lia | lia |].
    pose proof Hdraw as [_ Hrange]%randint_Ret.
    destruct (through_cand_in_range cand (draw g 0 (KGDataset.n_cand_of cand) (2 * k)).1)
      as (ids & Hids & _ & _);
      [eapply Forall_impl; [exact Hrange|]; simpl; intros; lia|].
    rewrite (sampler_loop_turn _ _ _ _ _ _ _ _ _ _ _ Hlt Hdraw Hids).
    rewrite (Hnone _ _ Hids). simpl. rewrite Nat.add_0_r. apply IH.
Qed.

Lemma all_filtered_no_survivor cand k fs :
  (∀ x, in_domain cand x → x ∈ compared_ids fs) →
  (0 < KGDataset.n_cand_of cand)%Z →
  ∀ g0 ids, KGDataset.through_cand (KGDataset.e_cand_of cand)
              (draw g0 0 (KGDataset.n_cand_of cand) (2 * k)).1 = Ret ids →
            survivors (compared_ids fs) ids = [].
Proof.
  intros Hall Hn g0 ids Hids.
  destruct (through_cand_in_range cand (draw g0 0 (KGDataset.n_cand_of cand) (2 * k)).1)
    as (ids' & Hids' & _ & Hdom).
  { eapply Forall_impl; [by apply draw_range|]. simpl. intros; lia. }
  assert (ids' = ids) as -> by congruence.
  apply survivors_all_filtered. eapply Forall_impl; [exact Hdom|]. exact Hall.
Qed.

(** The loop returns within [k - num] turns when every draw lets at least
    one id through. *)
Lemma sampler_loop_progress cand fuel k fs acc num g :
  (0 < KGDataset.n_cand_of cand)%Z →
  (∀ g0 ids, KGDataset.through_cand (KGDataset.e_cand_of cand)
               (draw g0 0 (KGDataset.n_cand_of cand) (2 * k)).1 = Ret ids →
             survivors (compared_ids fs) ids ≠ []) →
  k - num ≤ fuel →
  ∃ l g', KGDataset.sampler_loop fuel k (KGDataset.n_cand_of cand)
            (KGDataset.e_cand_of cand) fs acc num g = (Ret l, g')
          ∧ (num < k → l ≠ []).
Proof.
  intros Hn Hprog. revert acc num g.
  induction fuel as [|fuel IH]; intros acc num g Hfuel.
  - rewrite sampler_loop_exit by lia. exists acc, g. split; [done|].
    intros Hk. lia.
  - destruct (Nat.ltb_spec num k) as [Hlt | Hge].
    + destruct (randint_draw 0 (KGDataset.n_cand_of cand) (2 * k) g) as (g1 & Hdraw);
        [lia | lia |].
      pose proof Hdraw as [_ Hrange]%randint_Ret.
      destruct (through_cand_in_range cand (draw g 0 (KGDataset.n_cand_of cand) (2 * k)).1)
        as (ids & Hids & _ & _);
        [eapply Forall_impl; [exact Hrange|]; simpl; intros; lia|].
      rewrite (sampler_loop_turn _ _ _ _ _ _ _ _ _ _ _ Hlt Hdraw Hids).
      pose proof (Hprog _ _ Hids) as Hsome.
      assert (0 < length (survivors (compared_ids fs) ids)) as Hpos
        by (destruct (survivors (compared_ids fs) ids); [done | simpl; lia]).
      destruct (IH (acc ++ [survivors (compared_ids fs) ids]) (num + length (survivors (compared_ids fs) ids)) g1)
        as (l & g' & Hl & _); [lia|].
      exists l, g'. split; [done|]. intros _.
      apply sampler_loop_Ret in Hl as (batches & -> & _). by destruct acc.
    + rewrite sampler_loop_exit by lia. exists acc, g. split; [done|]. lia.
Qed.

Lemma mbind_Spin {A B} (m : M A) (k : A → M B) g :
  (m g).1 = Spin → (mbind m k g).1 = Spin.
Proof. unfold mbind. destruct (m g) as [[a| |] g1]; simpl; by intros. Qed.

Lemma uniform_sampler_spins cand fuel k fs g :
  0 < k → (0 < KGDataset.n_cand_of cand)%Z →
  (∀ g0 ids, KGDataset.through_cand (KGDataset.e_cand_of cand)
               (draw g0 0 (KGDataset.n_cand_of cand) (2 * k)).1 = Ret ids →
             survivors (compared_ids fs) ids = []) →
  (KGDataset.uniform_sampler fuel k cand (Some fs) g).1 = Spin.
Proof.
  intros Hk Hn Hnone. unfold KGDataset.uniform_sampler.
  apply mbind_Spin. by apply sampler_loop_starves.
Qed.

Lemma uniform_sampler_returns cand fuel k fs g :
  0 < k → (0 < KGDataset.n_cand_of cand)%Z →
  (∀ g0 ids, KGDataset.through_cand (KGDataset.e_cand_of cand)
               (draw g0 0 (KGDataset.n_cand_of cand) (2 * k)).1 = Ret ids →
             survivors (compared_ids fs) ids ≠ []) →
  k ≤ fuel →
  ∃ out g', KGDataset.uniform_sampler fuel k cand (Some fs) g = (Ret out, g').
Proof.
  intros Hk Hn Hprog Hfuel. unfold KGDataset.uniform_sampler.
  destruct (sampler_loop_progress cand fuel k fs [] 0 g Hn Hprog) as (l & g' & Hl & Hne);
    [lia|].
  rewrite (mbind_step _ _ _ _ _ Hl).
  specialize (Hne Hk). destruct l as [|b l]; [done|].
  unfold lift, mbind, mret. simpl. eauto.
Qed.

(** With something to draw from, the filtered branch has no failure of
    its own: it returns or is still looping. *)
Lemma sampler_loop_no_raise cand fuel k fs acc num g :
  (0 < KGDataset.n_cand_of cand)%Z →
  (KGDataset.sampler_loop fuel k (KGDataset.n_cand_of cand) (KGDataset.e_cand_of cand)
     fs acc num g).1 = Spin
  ∨ ∃ l g', KGDataset.sampler_loop fuel k (KGDataset.n_cand_of cand)
              (KGDataset.e_cand_of cand) fs acc num g = (Ret l, g')
            ∧ (num < k ∨ acc ≠ [] → l ≠ []).
Proof.
  intros Hn. revert acc num g. induction fuel as [|fuel IH]; intros acc num g.
  - destruct (Nat.ltb_spec num k) as [Hlt | Hge].
    + left. simpl. by destruct (Nat.ltb_spec num k); [|lia].
    + right. rewrite sampler_loop_exit by done. exists acc, g. split; [done|].
      intros [? | ?]; [lia | done].
  - destruct (Nat.ltb_spec num k) as [Hlt | Hge].
    + destruct (randint_draw 0 (KGDataset.n_cand_of cand) (2 * k) g) as (g1 & Hdraw);
        [lia | lia |].
      pose proof Hdraw as [_ Hrange]%randint_Ret.
      destruct (through_cand_in_range cand (draw g 0 (KGDataset.n_cand_of cand) (2 * k)).1)
        as (ids & Hids & _ & _);
        [eapply Forall_impl; [exact Hrange|]; simpl; intros; lia|].
      rewrite (sampler_loop_turn _ _ _ _ _ _ _ _ _ _ _ Hlt Hdraw Hids).
      destruct (IH (acc ++ [survivors (compared_ids fs) ids]) (num + length (survivors (compared_ids fs) ids)) g1)
        as [Hspin | (l & g' & Hl & Hne)]; [by left|].
      right. exists l, g'. split; [done|]. intros _. apply Hne. right. by destruct acc.
    + right. rewrite sampler_loop_exit by done. exists acc, g. split; [done|].
      intros [? | ?]; [lia | done].
Qed.

Lemma uniform_sampler_no_raise cand fuel k fs g :
  0 < k → (0 < KGDataset.n_cand_of cand)%Z →
  (KGDataset.uniform_sampler fuel k cand (Some fs) g).1 = Spin
  ∨ ∃ out, (KGDataset.uniform_sampler fuel k cand (Some fs) g).1 = Ret out.
Proof.
  intros Hk Hn. unfold KGDataset.uniform_sampler.
  destruct (sampler_loop_no_raise cand fuel k fs [] 0 g Hn) as [Hspin | (l & g' & Hl & Hne)].
  - left. by apply mbind_Spin.
  - right. rewrite (mbind_step _ _ _ _ _ Hl).
    destruct l as [|b l]; [by destruct Hne; [left|]|].
    unfold lift, mbind, mret. simpl. eauto.
Qed.

End sampler_properties.

(** A filter value counts through the ids it gives [np.in1d] to compare
    with, and through nothing else. *)
Lemma sampler_loop_compared `{RandomState} fuel k n e f acc num g :
  KGDataset.sampler_loop fuel k n e f acc num g
  = KGDataset.sampler_loop fuel k n e (FilterArr (compared_ids f)) acc num g.
Proof.
  revert acc num g. induction fuel as [|fuel IH]; intros acc num g; [done|].
  cbn [KGDataset.sampler_loop]. destruct (num <? k); [|done].
  unfold mbind at 1 3.
  destruct (np_random_randint 0 n (2 * k) g) as [[idx| |] g1]; [|done..].
  unfold mbind, lift. destruct (KGDataset.through_cand e idx) as [ids| |]; [|done..].
  rewrite !survivors_filter. cbn [compared_ids]. apply IH.
Qed.

Lemma uniform_sampler_compared `{RandomState} fuel k cand f g :
  KGDataset.uniform_sampler fuel k cand (Some f) g
  = KGDataset.uniform_sampler fuel k cand (Some (FilterArr (compared_ids f))) g.
Proof.
  unfold KGDataset.uniform_sampler, mbind. by rewrite sampler_loop_compared.
Qed.

(** A run of the filtered branch that returns. *)
Lemma sampler_filtered_Ret `{RandomState} fuel k cand fs g out g' :
  KGDataset.uniform_sampler fuel k cand (Some fs) g = (Ret out, g') →
  length out = k
  ∧ Forall (λ x, x ∉ compared_ids fs) out
  ∧ Forall (in_domain cand) out
  ∧ ∃ batches,
      Forall (λ b, length b = 2 * k ∧ Forall (in_domain cand) b) batches
      ∧ (∀ i, i < length batches →
           length (concat (survivors (compared_ids fs) <$> take i batches)) < k)
      ∧ k ≤ length (concat (survivors (compared_ids fs) <$> batches))
      ∧ out = take k (concat (survivors (compared_ids fs) <$> batches)).
Proof.
  unfold KGDataset.uniform_sampler. intros Hrun.
  apply mbind_Ret in Hrun as (l & g1 & Hloop & Hrest).
  apply mbind_Ret in Hrest as (new_e & g2 & Hcat & Hout).
  unfold mret in Hout. injection Hout as <- <-.
  unfold lift in Hcat. injection Hcat as Hcat <-.
  apply sampler_loop_Ret in Hloop as (batches & -> & Hall & Hk & Hbefore).
  simpl in Hk, Hbefore. rewrite app_nil_l in Hcat.
  assert (new_e = concat (survivors (compared_ids fs) <$> batches)) as ->.
  { unfold np_concatenate in Hcat.
    destruct (survivors (compared_ids fs) <$> batches); [done | congruence]. }
  assert (∀ x, x ∈ concat (survivors (compared_ids fs) <$> batches) →
               in_domain cand x ∧ x ∉ compared_ids fs) as Hin.
  { intros x (s & Hs & Hx)%elem_of_concat.
    apply list_elem_of_fmap in Hs as (b & -> & Hb).
    apply survivors_spec in Hx as [Hx Hout].
    rewrite Forall_forall in Hall. destruct (Hall _ Hb) as [_ Hdom].
    rewrite Forall_forall in Hdom. auto. }
  assert (∀ x, x ∈ take k (concat (survivors (compared_ids fs) <$> batches)) →
               in_domain cand x ∧ x ∉ compared_ids fs) as Hout.
  { intros x (i & Hx%list_elem_of_lookup_2 & _)%elem_of_take. by apply Hin. }
  split; [rewrite length_take; lia|].
  split; [|split].
  - apply Forall_forall. intros x Hx. by apply Hout.
  - apply Forall_forall. intros x Hx. by apply Hout.
  - exists batches. done.
Qed.

Lemma survivors_none_filtered fs ids :
  Forall (λ x, x ∉ fs) ids → survivors fs ids = ids.
Proof.
  unfold survivors. induction 1 as [|x ids Hx _ IH]; [done|].
  by rewrite filter_cons, decide_True, IH.
Qed.

(** When none of the candidates is compared with, the filtered branch
    needs one turn: it draws one batch of [2k] indices and returns the
    first [k] candidates of that batch. *)
Lemma sampler_one_turn `{RandomState} fuel k cand f g :
  0 < k → (0 < KGDataset.n_cand_of cand)%Z →
  (∀ x, in_domain cand x → x ∉ compared_ids f) →
  1 ≤ fuel →
  ∃ idx ids g',
    np_random_randint 0 (KGDataset.n_cand_of cand) (2 * k) g = (Ret idx, g')
    ∧ KGDataset.through_cand (KGDataset.e_cand_of cand) idx = Ret ids
    ∧ length ids = 2 * k
    ∧ Forall (in_domain cand) ids
    ∧ KGDataset.uniform_sampler fuel k cand (Some f) g = (Ret (take k ids), g').
Proof.
  intros Hk Hn Hfree Hfuel. destruct fuel as [|fuel]; [lia|].
  destruct (randint_draw 0 (KGDataset.n_cand_of cand) (2 * k) g) as (g' & Hdraw);
    [lia | lia |].
  pose proof Hdraw as [Hlen Hrange]%randint_Ret.
  destruct (through_cand_in_range cand (draw g 0 (KGDataset.n_cand_of cand) (2 * k)).1)
    as (ids & Hids & Hlen' & Hdom);
    [eapply Forall_impl; [exact Hrange|]; simpl; intros; lia|].
  exists (draw g 0 (KGDataset.n_cand_of cand) (2 * k)).1, ids, g'.
  split; [done|]. split; [done|]. split; [lia|]. split; [done|].
  unfold KGDataset.uniform_sampler.
  assert (KGDataset.sampler_loop (S fuel) k (KGDataset.n_cand_of cand)
            (KGDataset.e_cand_of cand) f [] 0 g = (Ret [ids], g')) as Hloop.
  { rewrite (sampler_loop_turn _ _ _ _ _ _ _ _ _ _ _ Hk Hdraw Hids).
    rewrite survivors_none_filtered
      by (eapply Forall_impl; [exact Hdom|]; exact Hfree).
    rewrite sampler_loop_exit; [done|]. lia. }
  rewrite (mbind_step _ _ _ _ _ Hloop). unfold lift, mbind, mret. simpl.
  by rewrite app_nil_r.
Qed.

(** C2, where the code parts from it. A filter set that is a Python [set],
    the type the docstring gives it, filters nothing: [np.in1d] looks at
    none of its members, so the call is the call with an empty filter
    array. For [k ≥ 1] and a non-empty domain it takes one turn and
    returns the first [k] candidates of the one batch of [2k] it drew,
    members of the set among them: with the candidates [0, 1] and the set
    [{0, 1}] the id returned for [k = 1] is in the set, whatever is drawn. *)
Theorem uniform_sampler_set_filter_ignored :
  (∀ (R : RandomState) fuel k cand (s : gset Z) g,
     KGDataset.uniform_sampler fuel k cand (Some (FilterSet s)) g
     = KGDataset.uniform_sampler fuel k cand (Some (FilterArr [])) g)
  ∧ (∀ (R : RandomState) fuel k cand (s : gset Z) g,
       0 < k → (0 < KGDataset.n_cand_of cand)%Z → 1 ≤ fuel →
       ∃ idx ids g',
         np_random_randint 0 (KGDataset.n_cand_of cand) (2 * k) g = (Ret idx, g')
         ∧ KGDataset.through_cand (KGDataset.e_cand_of cand) idx = Ret ids
         ∧ KGDataset.uniform_sampler fuel k cand (Some (FilterSet s)) g
           = (Ret (take k ids), g'))
  ∧ (∀ (R : RandomState) fuel g, 1 ≤ fuel →
       ∃ x g',
         KGDataset.uniform_sampler fuel 1 (KGDataset.CandArr [0; 1]%Z)
           (Some (FilterSet {[ 0%Z; 1%Z ]})) g = (Ret [x], g')
         ∧ x ∈ ({[ 0%Z; 1%Z ]} : gset Z))
  ∧ KGDataset.uniform_sampler (H := cycle_rng) 1 1 (KGDataset.CandArr [0; 1]%Z)
      (Some (FilterSet {[ 0%Z; 1%Z ]})) 0%Z = (Ret [0%Z], 2%Z).
Proof.
  split; [|split; [|split]].
  - intros R fuel k cand s g. apply (uniform_sampler_compared fuel k cand (FilterSet s)).
  - intros R fuel k cand s g Hk Hn Hfuel.
    destruct (sampler_one_turn fuel k cand (FilterSet s) g Hk Hn)
      as (idx & ids & g' & Hdraw & Hids & _ & _ & Hrun); [|done|].
    { intros x _. apply not_elem_of_nil. }
    by exists idx, ids, g'.
  - intros R fuel g Hfuel.
    destruct (sampler_one_turn fuel 1 (KGDataset.CandArr [0; 1]%Z)
                (FilterSet {[ 0%Z; 1%Z ]}) g)
      as (idx & ids & g' & _ & _ & Hlen & Hdom & Hrun); [lia | simpl; lia | | done |].
    { intros x _. apply not_elem_of_nil. }
    destruct ids as [|x [|y ids]]; [done | done |].
    exists x, g'. split; [done|].
    apply Forall_cons in Hdom as [Hx _]. simpl in Hx.
    apply elem_of_cons in Hx as [-> | Hx]; [set_solver|].
    apply elem_of_cons in Hx as [-> | Hx]; [set_solver|]. by apply elem_of_nil in Hx.
  - vm_compute. reflexivity.
Qed.

(** What [stuck_rng] draws: the same index every time. The index of a
    candidate makes the sampler see that candidate only. *)
Lemma np_take_replicate (a : list Z) (j : nat) x size :
  a !! j = Some x → np_take a (replicate size (Z.of_nat j)) = Ret (replicate size x).
Proof.
  intros Hj. unfold np_take. induction size as [|size IH]; simpl; [done|].
  by rewrite (np_getitem_lookup _ _ _ Hj), IH.
Qed.

Lemma stuck_rng_hits cand x :
  in_domain cand x →
  ∃ j, (0 < KGDataset.n_cand_of cand)%Z
       ∧ ∀ size, KGDataset.through_cand (KGDataset.e_cand_of cand)
                   (replicate size (0 + j `mod` (KGDataset.n_cand_of cand - 0))%Z)
                 = Ret (replicate size x).
Proof.
  destruct cand as [n | a]; simpl.
  - intros Hx. exists x. split; [lia|]. intros size.
    by rewrite Z.sub_0_r, Z.mod_small by lia.
  - intros [j Hj]%list_elem_of_lookup_1. exists (Z.of_nat j).
    pose proof (lookup_lt_Some _ _ _ Hj) as Hlt. split; [lia|]. intros size.
    rewrite Z.sub_0_r, Z.mod_small by lia. by apply np_take_replicate.
Qed.

Lemma survivors_replicate_out fs size x :
  x ∉ fs → survivors fs (replicate size x) = replicate size x.
Proof.
  intros Hx. unfold survivors. induction size as [|size IH]; [done|].
  simpl. by rewrite filter_cons, decide_True, IH.
Qed.

Lemma survivors_replicate_in fs size x :
  x ∈ fs → survivors fs (replicate size x) = [].
Proof.
  intros Hx. apply survivors_all_filtered. by apply Forall_replicate.
Qed.

(** With nothing to draw from, the first draw of the loop is refused. *)
Lemma uniform_sampler_empty_domain `{RandomState} fuel k cand fs g :
  0 < k → (KGDataset.n_cand_of cand ≤ 0)%Z →
  KGDataset.uniform_sampler (S fuel) k cand (Some fs) g = (Raise ValueError, g).
Proof.
  intros Hk Hn. unfold KGDataset.uniform_sampler. simpl.
  destruct (Nat.ltb_spec 0 k); [|lia].
  unfold mbind at 2. unfold mbind at 1.
  rewrite (randint_refused 0 (KGDataset.n_cand_of cand) _ g) by lia.
  done.
Qed.

(** C5, where the code parts from it. Take [k ≥ 1], a candidate domain
    that is not empty, and as filter set a Python [set], the type the
    docstring gives it, that holds every candidate. The call does not
    spin: after one turn of its loop it returns [k] ids, each of them a
    candidate and a member of the set. *)
Theorem uniform_sampler_set_filter_returns `{RandomState} fuel k cand (s : gset Z) g :
  0 < k → (0 < KGDataset.n_cand_of cand)%Z → 1 ≤ fuel →
  (∀ x, in_domain cand x → x ∈ s) →
  ∃ out g',
    KGDataset.uniform_sampler fuel k cand (Some (FilterSet s)) g = (Ret out, g')
    ∧ (KGDataset.uniform_sampler fuel k cand (Some (FilterSet s)) g).1 ≠ Spin
    ∧ length out = k
    ∧ Forall (λ x, in_domain cand x ∧ x ∈ s) out.
Proof.
  intros Hk Hn Hfuel Hall.
  destruct (sampler_one_turn fuel k cand (FilterSet s) g Hk Hn)
    as (idx & ids & g' & _ & _ & Hlen & Hdom & Hrun); [|done|].
  { intros x _. apply not_elem_of_nil. }
  exists (take k ids), g'. rewrite Hrun. split; [done|]. split; [done|].
  split; [rewrite length_take; lia|].
  apply Forall_take. eapply Forall_impl; [exact Hdom|]. simpl. auto.
Qed.

Lemma uniform_sampler_set_filter_returns_witness :
  ∃ out g',
    KGDataset.uniform_sampler (H := cycle_rng) 1 2 (KGDataset.CandArr [5; 6]%Z)
      (Some (FilterSet {[ 5%Z; 6%Z ]})) 0%Z = (Ret out, g')
    ∧ (KGDataset.uniform_sampler (H := cycle_rng) 1 2 (KGDataset.CandArr [5; 6]%Z)
         (Some (FilterSet {[ 5%Z; 6%Z ]})) 0%Z).1 ≠ Spin
    ∧ length out = 2
    ∧ Forall (λ x, in_domain (KGDataset.CandArr [5; 6]%Z) x
                   ∧ x ∈ ({[ 5%Z; 6%Z ]} : gset Z)) out.
Proof.
  apply (uniform_sampler_set_filter_returns (H := cycle_rng) 1 2
           (KGDataset.CandArr [5; 6]%Z) {[ 5%Z; 6%Z ]} 0%Z); [lia | simpl; lia | lia |].
  simpl. intros x Hx.
  apply elem_of_cons in Hx as [-> | Hx]; [set_solver|].
  apply elem_of_cons in Hx as [-> | Hx]; [set_solver|]. by apply elem_of_nil in Hx.
Defined.

(** A run of the unfiltered branch that returns. *)
Lemma sampler_unfiltered_Ret `{RandomState} fuel k cand g out g' :
  KGDataset.uniform_sampler fuel k cand None g = (Ret out, g') →
  length out = k
  ∧ Forall (in_domain cand) out
  ∧ ∃ idx,
      np_random_randint 0 (KGDataset.n_cand_of cand) k g = (Ret idx, g')
      ∧ length idx = k
      ∧ Forall (λ i, (0 ≤ i < KGDataset.n_cand_of cand)%Z) idx
      ∧ KGDataset.through_cand (KGDataset.e_cand_of cand) idx = Ret out.
Proof.
  intros Hrun. unfold KGDataset.uniform_sampler in Hrun.
  apply mbind_Ret in Hrun as (idx & g1 & Hdraw & Hout).
  unfold lift in Hout. injection Hout as Hout <-.
  pose proof Hdraw as [Hlen Hrange]%randint_Ret.
  destruct (through_cand_in_range cand idx) as (ids & Hids & Hlen' & Hdom);
    [eapply Forall_impl; [exact Hrange|]; simpl; intros; lia|].
  assert (ids = out) as -> by congruence.
  split; [lia|]. split; [done|]. exists idx. done.
Qed.

Lemma sampler_unfiltered_returns `{RandomState} fuel k cand g :
  (0 < KGDataset.n_cand_of cand)%Z →
  ∃ out g', KGDataset.uniform_sampler fuel k cand None g = (Ret out, g').
Proof.
  intros Hn. unfold KGDataset.uniform_sampler.
  destruct (randint_returns 0 (KGDataset.n_cand_of cand) k g) as (idx & g1 & Hdraw);
    [by left|].
  rewrite (mbind_step _ _ _ _ _ Hdraw).
  apply randint_Ret in Hdraw as [_ Hrange].
  destruct (through_cand_in_range cand idx) as (ids & Hids & _);
    [eapply Forall_impl; [exact Hrange|]; simpl; intros; lia|].
  unfold lift. rewrite Hids. eauto.
Qed.

(** C6. A call of the sampler without a filter set never enters a loop.
    An array it returns has exactly [k] ids; it is the array of [k]
    indices drawn from [[0, n)], read through the candidate sequence when
    there is one, so every id is a candidate. The call returns whenever the
    domain is not empty. Nothing is excluded: for any candidate there are
    draws that return it [k] times over. *)
Theorem uniform_sampler_unfiltered (fuel k : nat) (cand : KGDataset.cand_t) :
  (∀ (R : RandomState) g,
     (∀ out g', KGDataset.uniform_sampler fuel k cand None g = (Ret out, g') →
        length out = k
        ∧ Forall (in_domain cand) out
        ∧ ∃ idx,
            np_random_randint 0 (KGDataset.n_cand_of cand) k g = (Ret idx, g')
            ∧ length idx = k
            ∧ Forall (λ i, (0 ≤ i < KGDataset.n_cand_of cand)%Z) idx
            ∧ KGDataset.through_cand (KGDataset.e_cand_of cand) idx = Ret out)
     ∧ (KGDataset.uniform_sampler fuel k cand None g).1 ≠ Spin
     ∧ ((0 < KGDataset.n_cand_of cand)%Z →
        ∃ out g', KGDataset.uniform_sampler fuel k cand None g = (Ret out, g')))
  ∧ (∀ x, in_domain cand x →
       ∃ (R : RandomState) g g',
         KGDataset.uniform_sampler fuel k cand None g = (Ret (replicate k x), g')).
Proof.
  split.
  - intros R g. split; [|split].
    + intros out g'. apply sampler_unfiltered_Ret.
    + unfold KGDataset.uniform_sampler, mbind, lift.
      destruct (np_random_randint 0 (KGDataset.n_cand_of cand) k g) as [[idx| |] g1] eqn:Hdraw;
        simpl; [| done |].
      * destruct cand as [n | a]; simpl; [done|].
        apply randint_Ret in Hdraw as [_ Hrange].
        destruct (np_take_in_range a idx) as (ids & -> & _); [|done].
        eapply Forall_impl; [exact Hrange|]. simpl. intros; lia.
      * unfold np_random_randint in Hdraw. destruct (k =? 0); [done|].
        destruct (0 <? KGDataset.n_cand_of cand)%Z; [|done].
        by destruct (draw g 0 (KGDataset.n_cand_of cand) k).
    + apply sampler_unfiltered_returns.
  - intros x Hx. destruct (stuck_rng_hits cand x Hx) as (j & Hn & Hj).
    exists (stuck_rng j), tt, tt. unfold KGDataset.uniform_sampler.
    destruct k as [|k].
    + unfold mbind, lift. simpl. specialize (Hj 0). simpl in Hj. by rewrite Hj.
    + destruct (@randint_draw (stuck_rng j) 0 (KGDataset.n_cand_of cand) (S k) tt)
        as ([] & Hdraw); [lia | lia |].
      rewrite (mbind_step _ _ _ _ _ Hdraw). unfold lift.
      cbn [draw stuck_rng fst]. by rewrite Hj.
Qed.

Lemma uniform_sampler_unfiltered_witness :
  ∃ out g',
    KGDataset.uniform_sampler (H := cycle_rng) 0 3 (KGDataset.CandArr [4; 8; 9]%Z) None 7%Z
    = (Ret out, g').
Proof.
  apply (uniform_sampler_unfiltered 0 3 (KGDataset.CandArr [4; 8; 9]%Z)).
  simpl. lia.
Defined.

(** ** Collation *)

Section collate_properties.
Context `{RandomState}.

Lemma mmap_Ret {A B} (f : A → M B) xs g ys g' :
  mmap f xs g = (Ret ys, g') →
  Forall2 (λ x y, ∃ g1 g2, f x g1 = (Ret y, g2)) xs ys.
Proof.
  revert g ys g'. induction xs as [|x xs IH]; intros g ys g'; simpl.
  - unfold mret. intros [= <- <-]. constructor.
  - intros Hrun. apply mbind_Ret in Hrun as (y & g1 & Hy & Hrest).
    apply mbind_Ret in Hrest as (ys' & g2 & Hys & Hret).
    unfold mret in Hret. injection Hret as <- <-.
    constructor; [eauto | by eapply IH].
Qed.

Lemma mmap_returns {A B} (f : A → M B) (P : A → B → Prop) xs g :
  Forall (λ x, ∀ g0, ∃ y g1, f x g0 = (Ret y, g1) ∧ P x y) xs →
  ∃ ys g', mmap f xs g = (Ret ys, g') ∧ Forall2 P xs ys.
Proof.
  intros Hall. revert g. induction Hall as [|x xs Hx _ IH]; intros g; simpl.
  - exists [], g. split; [done | constructor].
  - destruct (Hx g) as (y & g1 & Hy & HP). destruct (IH g1) as (ys & g' & Hys & HF).
    rewrite (mbind_step _ _ _ _ _ Hy), (mbind_step _ _ _ _ _ Hys).
    exists (y :: ys), g'. split; [done | by constructor].
Qed.

Lemma mmap_ext {A B} (f f' : A → M B) xs g :
  (∀ x g0, f x g0 = f' x g0) → mmap f xs g = mmap f' xs g.
Proof.
  intros Hext. revert g. induction xs as [|x xs IH]; intros g; simpl; [done|].
  unfold mbind. rewrite Hext. destruct (f' x g) as [[y| |] g1]; [|done..].
  by rewrite IH.
Qed.

(** Both loops of [sample_negatives] are one loop over [filter_key]. *)
Lemma sample_negatives_unfold fuel self data mode fl_set cand g :
  KGDataset.sample_negatives fuel self data mode fl_set cand g =
  mmap (λ x, let* fl_set_i := lift (KGDataset.filter_for fl_set (filter_key mode x)) in
             KGDataset.uniform_sampler fuel (KGDataset._num_negs self) cand fl_set_i)
       data g.
Proof.
  unfold KGDataset.sample_negatives, filter_key.
  destruct (String.eqb mode "head"); apply mmap_ext; by intros [[hi ri] ti] g0.
Qed.

Lemma sampler_row fuel k cand fl_set_i g row g' :
  KGDataset.uniform_sampler fuel k cand fl_set_i g = (Ret row, g') →
  length row = k ∧ Forall (in_domain cand) row
  ∧ ∀ f, fl_set_i = Some f → Forall (λ x, x ∉ compared_ids f) row.
Proof.
  destruct fl_set_i as [fs|]; intros Hrun.
  - apply sampler_filtered_Ret in Hrun as (Hlen & Hout & Hdom & _).
    repeat split; [done.. |]. by intros ? [= <-].
  - apply sampler_unfiltered_Ret in Hrun as (Hlen & Hdom & _).
    repeat split; done.
Qed.

(** The rows of negatives of a sampling pass that returns. *)
Lemma sample_negatives_Ret fuel self data mode fl_set cand g neg_ents g' :
  KGDataset.sample_negatives fuel self data mode fl_set cand g = (Ret neg_ents, g') →
  Forall2 (λ x row,
             length row = KGDataset._num_negs self
             ∧ Forall (in_domain cand) row
             ∧ ∃ fl_set_i,
                 KGDataset.filter_for fl_set (filter_key mode x) = Ret fl_set_i
                 ∧ ∀ f, fl_set_i = Some f → Forall (λ y, y ∉ compared_ids f) row)
          data neg_ents.
Proof.
  rewrite sample_negatives_unfold. intros Hrun%mmap_Ret.
  eapply Forall2_impl; [exact Hrun|]. simpl.
  intros x row (g1 & g2 & Hx).
  apply mbind_Ret in Hx as (fl_set_i & g3 & Hfl & Hrow).
  unfold lift in Hfl. injection Hfl as Hfl <-.
  apply sampler_row in Hrow as (Hlen & Hdom & Hout). eauto 10.
Qed.

Lemma lift_Ret {A} (o : outcome A) g a g' :
  lift o g = (Ret a, g') → o = Ret a ∧ g' = g.
Proof. unfold lift. by intros [= -> ->]. Qed.

Lemma mbind_lift_Ret {A B} (o : outcome A) (k : A → M B) g b g' :
  mbind (lift o) k g = (Ret b, g') → ∃ a, o = Ret a ∧ k a g = (Ret b, g').
Proof. intros (a & g1 & [-> ->]%lift_Ret & Hk)%mbind_Ret. eauto. Qed.

Lemma mbind_lift_step {A B} (o : outcome A) (k : A → M B) g a :
  o = Ret a → mbind (lift o) k g = k a g.
Proof. by intros ->. Qed.

Lemma np_stack_Ret rows rows' : np_stack rows = Ret rows' → rows' = rows ∧ rows ≠ [].
Proof.
  unfold np_stack. destruct rows as [|r0 rows]; [done|].
  destruct (forallb _ _); [|done]. by intros [= <-].
Qed.

Lemma np_stack_same_length rows k :
  rows ≠ [] → Forall (λ r, length r = k) rows → np_stack rows = Ret rows.
Proof.
  intros Hne Hall. unfold np_stack. destruct rows as [|r0 rows]; [done|].
  assert (forallb (λ r, length r =? length r0) (r0 :: rows) = true) as ->; [|done].
  apply forallb_forall. intros r Hr%list_elem_of_In. apply Nat.eqb_eq.
  rewrite Forall_forall in Hall. rewrite (Hall r Hr). symmetry. apply Hall. constructor.
Qed.

Lemma reindex_batch_Ret reindex_func h r t neg_ents all_ents mode out :
  KGDataset.reindex_batch reindex_func h r t neg_ents all_ents mode = Ret out →
  ∃ h' t' rows,
    reindex_func h = Ret h' ∧ reindex_func t = Ret t'
    ∧ omap reindex_func neg_ents = Ret rows ∧ rows ≠ []
    ∧ out = ((h', r, t', rows), all_ents, mode).
Proof.
  unfold KGDataset.reindex_batch.
  destruct (reindex_func h) as [h'| |]; [|done..]. simpl.
  destruct (reindex_func t) as [t'| |]; [|done..]. simpl.
  destruct (omap reindex_func neg_ents) as [rows| |]; [|done..]. simpl.
  destruct (np_stack rows) as [rows'| |] eqn:Hst; [|done..]. simpl.
  apply np_stack_Ret in Hst as [-> Hne]. intros [= <-]. eauto 10.
Qed.

Lemma unpack_columns_Ret data h r t :
  KGDataset.unpack_columns data = Ret (h, r, t) →
  data ≠ [] ∧ h = heads data ∧ r = rels data ∧ t = tails data.
Proof.
  unfold KGDataset.unpack_columns. destruct data; [done|]. by intros [= <- <- <-].
Qed.

(** A collation that returns: the candidate pool it sampled from, the
    rows it sampled, and the [group_index] call that gave its vocabulary. *)
Lemma collate_Ret fuel self data mode fl_set g out g' :
  KGDataset._collate_fn fuel self data mode fl_set g = (Ret out, g') →
  data ≠ []
  ∧ ∃ cand reindex_func all_ents neg_ents,
      KGDataset.sample_negatives fuel self data mode fl_set cand g = (Ret neg_ents, g')
      ∧ ((KGDataset._neg_mode self = "batch" ∧ cand = KGDataset.CandArr all_ents
          ∧ KGDataset.group_index [heads data; tails data] = Ret (reindex_func, all_ents))
         ∨ (KGDataset._neg_mode self = "full"
            ∧ cand = KGDataset.CandInt (KGDataset._num_ents self)
            ∧ KGDataset.group_index [heads data; tails data; concat neg_ents]
              = Ret (reindex_func, all_ents)))
      ∧ KGDataset.reindex_batch reindex_func (heads data) (rels data) (tails data)
          neg_ents all_ents mode = Ret out.
Proof.
  unfold KGDataset._collate_fn. intros Hrun.
  apply mbind_lift_Ret in Hrun as ([[h r] t] & Hcols & Hrun).
  apply unpack_columns_Ret in Hcols as (Hne & -> & -> & ->). split; [done|].
  destruct (String.eqb_spec (KGDataset._neg_mode self) "batch") as [Hbatch | _].
  - apply mbind_lift_Ret in Hrun as ([reindex_func all_ents] & Hgi & Hrun).
    apply mbind_Ret in Hrun as (neg_ents & g1 & Hneg & Hrun).
    apply lift_Ret in Hrun as [Hout ->].
    exists (KGDataset.CandArr all_ents), reindex_func, all_ents, neg_ents. eauto 10.
  - destruct (String.eqb_spec (KGDataset._neg_mode self) "full") as [Hfull | _].
    + apply mbind_Ret in Hrun as (neg_ents & g1 & Hneg & Hrun).
      apply mbind_lift_Ret in Hrun as (negs & Hcat & Hrun).
      apply mbind_lift_Ret in Hrun as ([reindex_func all_ents] & Hgi & Hrun).
      apply lift_Ret in Hrun as [Hout ->].
      assert (negs = concat neg_ents) as ->.
      { unfold np_concatenate in Hcat. destruct neg_ents; [done | congruence]. }
      exists (KGDataset.CandInt (KGDataset._num_ents self)), reindex_func, all_ents, neg_ents.
      eauto 10.
    + by apply lift_Ret in Hrun as [? _].
Qed.

Lemma Forall2_chain {A B C} (P : A → B → Prop) (Q : B → C → Prop)
    (R : A → C → Prop) xs ys zs :
  (∀ x y z, P x y → Q y z → R x z) →
  Forall2 P xs ys → Forall2 Q ys zs → Forall2 R xs zs.
Proof.
  intros HPQ HP. revert zs. induction HP as [|x y xs ys Hxy _ IH]; intros zs HQ.
  - inversion HQ. constructor.
  - inversion HQ as [|? z ? zs' Hyz Hrest]; subst. constructor; eauto.
Qed.

(** What the reindexing function returned, read back through the
    vocabulary. *)
Lemma reindex_func_Ret uniques xs ys :
  np_vectorize (λ x, dict_getitem (KGDataset.reindex_dict uniques) x) xs = Ret ys →
  Forall2 (λ x y, np_getitem uniques y = Ret x) xs ys.
Proof.
  intros Hrun.
  assert (omap (λ x, dict_getitem (KGDataset.reindex_dict uniques) x) xs = Ret ys) as Hom
    by (by destruct xs).
  apply omap_Ret_Forall2 in Hom. eapply Forall2_impl; [exact Hom|]. simpl.
  intros x y Hxy. unfold dict_getitem in Hxy.
  destruct (KGDataset.reindex_dict uniques !! x) as [v|] eqn:Hv; [|done].
  injection Hxy as ->. apply reindex_dict_lookup in Hv as (i & -> & Hi).
  by apply np_getitem_lookup.
Qed.

Lemma filter_for_found (d : KGDataset.filter_map) key f fl_set_i :
  d !! key = Some f →
  KGDataset.filter_for (Some d) key = Ret fl_set_i → fl_set_i = Some f.
Proof.
  intros Hkey. unfold KGDataset.filter_for. case_bool_decide as Hempty.
  - subst d. by rewrite lookup_empty in Hkey.
  - unfold dict_getitem. rewrite Hkey. simpl. by intros [= <-].
Qed.

(** A collation that returns, under a filter lookup [d]: whatever a row
    of negatives stands for is none of the ids its triplet's filter value
    gives to compare with. *)
Lemma collate_respects_filter fuel self data mode d g h r t negs all_ents label g' :
  KGDataset._collate_fn fuel self data mode (Some d) g
    = (Ret ((h, r, t, negs), all_ents, label), g') →
  label = mode
  ∧ Forall2 (λ x row, ∀ f, d !! filter_key mode x = Some f →
                           Forall (denotes_outside all_ents (compared_ids f)) row)
            data negs.
Proof.
  intros (Hne & cand & reindex_func & all_ents' & neg_ents & Hneg & Hgi & Hout)%collate_Ret.
  apply reindex_batch_Ret in Hout as (h' & t' & rows & _ & _ & Hrows & _ & Hout).
  injection Hout as -> -> -> -> -> ->. split; [done|].
  assert (reindex_func
          = np_vectorize (λ x, dict_getitem (KGDataset.reindex_dict all_ents') x)) as ->.
  { destruct Hgi as [(_ & _ & Hgi) | (_ & _ & Hgi)];
      by apply group_index_Ret in Hgi as (_ & _ & ->). }
  apply sample_negatives_Ret in Hneg. apply omap_Ret_Forall2 in Hrows.
  eapply Forall2_chain; [|exact Hneg|exact Hrows]. simpl.
  intros x raw row (_ & _ & fl_set_i & Hfl & Hraw) Hrow%reindex_func_Ret fs Hkey.
  specialize (Hraw fs (filter_for_found _ _ _ _ Hkey Hfl)).
  apply Forall_forall. intros y [j Hj]%list_elem_of_lookup_1.
  destruct (Forall2_lookup_r _ _ _ _ _ Hrow Hj) as (x0 & Hx0 & Hback).
  exists x0. split; [done|].
  rewrite Forall_forall in Hraw. apply Hraw. by eapply list_elem_of_lookup_2.
Qed.

Lemma length_concat_rows (rows : list (list Z)) k :
  Forall (λ row, length row = k) rows → length (concat rows) = length rows * k.
Proof.
  induction 1 as [|row rows Hrow _ IH]; simpl; [done|].
  rewrite length_app, IH, Hrow. lia.
Qed.

Lemma omap_returns {A B} (f : A → outcome B) (P : A → B → Prop) xs :
  Forall (λ x, ∃ y, f x = Ret y ∧ P x y) xs →
  ∃ ys, omap f xs = Ret ys ∧ Forall2 P xs ys.
Proof.
  induction 1 as [|x xs (y & Hy & HP) _ (ys & Hys & HF)]; simpl.
  - exists []. split; [done | constructor].
  - rewrite Hy, Hys. simpl. exists (y :: ys). split; [done | by constructor].
Qed.

(** The raw rows of a full-mode collation and the vocabulary built from
    them. *)
Lemma collate_full_Ret fuel self data mode fl_set g out g' :
  KGDataset._neg_mode self = "full" →
  KGDataset._collate_fn fuel self data mode fl_set g = (Ret out, g') →
  ∃ reindex_func neg_ents,
    Forall2 (λ x row, length row = KGDataset._num_negs self
                      ∧ Forall (λ y, (0 ≤ y < KGDataset._num_ents self)%Z) row)
            data neg_ents
    ∧ KGDataset.group_index [heads data; tails data; concat neg_ents]
      = Ret (reindex_func, out.1.2)
    ∧ reindex_func (heads data) = Ret out.1.1.1.1.1
    ∧ reindex_func (tails data) = Ret out.1.1.1.2
    ∧ omap reindex_func neg_ents = Ret out.1.1.2
    ∧ out.1.2 = np_unique (heads data ++ tails data ++ concat neg_ents).
Proof.
  intros Hfull (Hne & cand & reindex_func & all_ents & neg_ents & Hneg & Hgi & Hout)%collate_Ret.
  apply reindex_batch_Ret in Hout as (h' & t' & rows & Hh & Ht & Hrows & _ & ->). simpl.
  destruct Hgi as [(Hbatch & _) | (_ & -> & Hgi)]; [congruence|].
  exists reindex_func, neg_ents. split; [|do 4 (split; [done|])].
  - apply sample_negatives_Ret in Hneg. eapply Forall2_impl; [exact Hneg|]. simpl.
    intros x row (Hlen & Hdom & _). done.
  - apply group_index_Ret in Hgi as (_ & -> & _). simpl. by rewrite app_nil_r.
Qed.

Lemma full_vocabulary_bounds (data : list (Z * Z * Z)) (neg_ents : list (list Z)) k N :
  Forall (λ x, (0 ≤ x.1.1 < N)%Z ∧ (0 ≤ x.2 < N)%Z) data →
  Forall2 (λ x row, length row = k ∧ Forall (λ y, (0 ≤ y < N)%Z) row) data neg_ents →
  length (np_unique (heads data ++ tails data ++ concat neg_ents)) ≤ length data * (2 + k)
  ∧ (Z.of_nat (length (np_unique (heads data ++ tails data ++ concat neg_ents))) ≤ Z.max 0 N)%Z.
Proof.
  intros Hdata Hneg. split.
  - etrans; [apply np_unique_length|].
    rewrite !length_app. unfold heads, tails. rewrite !length_map.
    rewrite (length_concat_rows neg_ents k).
    + rewrite <- (Forall2_length _ _ _ Hneg). lia.
    + apply (Forall2_Forall_r _ (λ row, length row = k) _ _ Hneg).
      apply Forall_true. by intros x row [Hlen _].
  - rewrite <- (Z.sub_0_r N) at 1.
    apply strictly_sorted_length_bound; [apply np_unique_sorted|].
    apply Forall_forall. intros y Hy. apply (proj1 (np_unique_elem_of _ _)) in Hy.
    rewrite Forall_forall in Hdata.
    apply elem_of_app in Hy as [Hy | Hy]; [|apply elem_of_app in Hy as [Hy | Hy]].
    + apply list_elem_of_fmap in Hy as (x & -> & Hx). by apply Hdata.
    + apply list_elem_of_fmap in Hy as (x & -> & Hx). by apply Hdata.
    + apply elem_of_concat in Hy as (row & Hrow & Hy).
      apply list_elem_of_lookup_1 in Hrow as [j Hj].
      destruct (Forall2_lookup_r _ _ _ _ _ Hneg Hj) as (x & _ & _ & Hall).
      rewrite Forall_forall in Hall. by apply Hall.
Qed.

Lemma filter_for_off fl_set key :
  fl_set = None ∨ fl_set = Some ∅ → KGDataset.filter_for fl_set key = Ret None.
Proof. intros [-> | ->]; [done|]. unfold KGDataset.filter_for. by case_bool_decide. Qed.

(** Without a filter lookup the sampling pass returns, one row of
    [num_negs] candidates per triplet. *)
Lemma sample_negatives_off_returns fuel self data mode fl_set cand g :
  fl_set = None ∨ fl_set = Some ∅ →
  (0 < KGDataset.n_cand_of cand)%Z →
  ∃ neg_ents g',
    KGDataset.sample_negatives fuel self data mode fl_set cand g = (Ret neg_ents, g')
    ∧ Forall2 (λ x row, length row = KGDataset._num_negs self
                        ∧ Forall (in_domain cand) row) data neg_ents.
Proof.
  intros Hoff Hn. rewrite sample_negatives_unfold. apply mmap_returns.
  apply Forall_true. intros x g0.
  rewrite (filter_for_off _ _ Hoff). unfold mbind at 1, lift at 1.
  destruct (sampler_unfiltered_returns fuel (KGDataset._num_negs self) cand g0 Hn)
    as (row & g1 & Hrow).
  exists row, g1. split; [done|].
  by apply sampler_unfiltered_Ret in Hrow as (Hlen & Hdom & _).
Qed.

(** Reindexing a batch whose ids are all in the vocabulary. *)
Lemma reindex_batch_returns uniques h r t neg_ents mode k :
  h ≠ [] → t ≠ [] → neg_ents ≠ [] → 0 < k →
  Forall (λ x, x ∈ uniques) h → Forall (λ x, x ∈ uniques) t →
  Forall (λ row, length row = k ∧ Forall (λ x, x ∈ uniques) row) neg_ents →
  ∃ out, KGDataset.reindex_batch
           (np_vectorize (λ x, dict_getitem (KGDataset.reindex_dict uniques) x))
           h r t neg_ents uniques mode = Ret out.
Proof.
  intros Hh Ht Hnegs Hk Hhin Htin Hrows. unfold KGDataset.reindex_batch.
  destruct (reindex_func_known uniques h Hh Hhin) as (h' & -> & _).
  destruct (reindex_func_known uniques t Ht Htin) as (t' & -> & _). simpl.
  destruct (omap_returns
              (np_vectorize (λ x, dict_getitem (KGDataset.reindex_dict uniques) x))
              (λ row row', length row' = k) neg_ents) as (rows & -> & Hlens).
  { eapply Forall_impl; [exact Hrows|]. simpl. intros row [Hlen Hin].
    destruct (reindex_func_known uniques row) as (row' & Hrow' & HF);
      [by destruct row; [simpl in Hlen; lia|] | done |].
    exists row'. split; [done|]. rewrite <- (Forall2_length _ _ _ HF). done. }
  simpl. rewrite (np_stack_same_length rows k).
  - simpl. eauto.
  - apply Forall2_length in Hlens. destruct neg_ents, rows; done.
  - apply (Forall2_Forall_r _ _ _ _ Hlens). apply Forall_true. by intros.
Qed.

Lemma collate_full_off_returns fuel self data mode fl_set g :
  KGDataset._neg_mode self = "full" →
  data ≠ [] → 0 < KGDataset._num_negs self → (0 < KGDataset._num_ents self)%Z →
  fl_set = None ∨ fl_set = Some ∅ →
  ∃ out g', KGDataset._collate_fn fuel self data mode fl_set g = (Ret out, g').
Proof.
  intros Hfull Hne Hk HN Hoff. unfold KGDataset._collate_fn.
  assert (KGDataset.unpack_columns data = Ret (heads data, rels data, tails data)) as Hcols
    by (by destruct data).
  rewrite (mbind_lift_step _ _ _ _ Hcols). cbv beta iota. rewrite Hfull.
  change (String.eqb "full" "batch") with false.
  change (String.eqb "full" "full") with true. cbv iota.
  destruct (sample_negatives_off_returns fuel self data mode fl_set
              (KGDataset.CandInt (KGDataset._num_ents self)) g Hoff HN)
    as (neg_ents & g' & Hneg & Hrows).
  rewrite (mbind_step _ _ _ _ _ Hneg).
  assert (neg_ents ≠ []) as Hnegs.
  { apply Forall2_length in Hrows. destruct data, neg_ents; done. }
  assert (np_concatenate neg_ents = Ret (concat neg_ents)) as Hcat by (by destruct neg_ents).
  rewrite (mbind_lift_step _ _ _ _ Hcat).
  rewrite (mbind_lift_step _ _ _ _
             (group_index_unfold [heads data; tails data; concat neg_ents] ltac:(done))).
  cbv beta iota.
  assert (∀ x, (x ∈ heads data ∨ x ∈ tails data ∨ x ∈ concat neg_ents) →
               x ∈ np_unique (concat [heads data; tails data; concat neg_ents])) as Hin.
  { intros x Hx. apply np_unique_elem_of. simpl. rewrite app_nil_r, !elem_of_app. tauto. }
  destruct (reindex_batch_returns
              (np_unique (concat [heads data; tails data; concat neg_ents]))
              (heads data) (rels data) (tails data) neg_ents mode
              (KGDataset._num_negs self)) as (out & Hout).
  - unfold heads. by destruct data.
  - unfold tails. by destruct data.
  - done.
  - done.
  - apply Forall_forall. auto.
  - apply Forall_forall. auto.
  - apply Forall_forall. intros row Hrow.
    pose proof Hrow as [j Hj]%list_elem_of_lookup_1.
    destruct (Forall2_lookup_r _ _ _ _ _ Hrows Hj) as (x & _ & Hlen & _).
    split; [done|]. apply Forall_forall. intros y Hy.
    apply Hin. right. right. apply elem_of_concat. by exists row.
  - unfold lift. rewrite Hout. eauto.
Qed.

End collate_properties.

(** A collation depends on the filter lookup through the sampling pass
    only. *)
Lemma collate_fn_ext `{RandomState} fuel self data mode fl_set fl_set' g :
  (∀ cand g0,
     KGDataset.sample_negatives fuel self data mode fl_set cand g0
     = KGDataset.sample_negatives fuel self data mode fl_set' cand g0) →
  KGDataset._collate_fn fuel self data mode fl_set g
  = KGDataset._collate_fn fuel self data mode fl_set' g.
Proof.
  intros Hsame. unfold KGDataset._collate_fn, mbind, lift.
  destruct (KGDataset.unpack_columns data) as [[[h r] t]| |]; [|done..].
  destruct (String.eqb (KGDataset._neg_mode self) "batch").
  - destruct (KGDataset.group_index [h; t]) as [[reindex_func all_ents]| |]; [|done..].
    by rewrite Hsame.
  - destruct (String.eqb (KGDataset._neg_mode self) "full"); [|done]. by rewrite Hsame.
Qed.

Lemma filter_for_compared (d : KGDataset.filter_map) key :
  KGDataset.filter_for (Some (compared_lookup d)) key
  = let! fl_set_i := KGDataset.filter_for (Some d) key in
    Ret ((λ f, FilterArr (compared_ids f)) <$> fl_set_i).
Proof.
  unfold KGDataset.filter_for, compared_lookup, dict_getitem.
  rewrite lookup_fmap.
  destruct (decide (d = ∅)) as [-> | Hne].
  - rewrite fmap_empty. by rewrite !bool_decide_eq_true_2.
  - rewrite (bool_decide_eq_false_2 (d = ∅)) by done.
    rewrite bool_decide_eq_false_2 by (by rewrite fmap_empty_iff).
    by destruct (d !! key).
Qed.

(** The members of the sets of a filter lookup play no part in a
    collation. *)
Lemma collate_compared `{RandomState} (fuel : nat) (self : KGDataset.t)
    (data : list (Z * Z * Z)) (mode : string) (d : KGDataset.filter_map) (g : rng) :
  KGDataset._collate_fn fuel self data mode (Some d) g
  = KGDataset._collate_fn fuel self data mode (Some (compared_lookup d)) g.
Proof.
  apply collate_fn_ext. intros cand g0. rewrite !sample_negatives_unfold.
  apply mmap_ext. intros x g1. rewrite filter_for_compared.
  unfold mbind, lift.
  destruct (KGDataset.filter_for (Some d) (filter_key mode x)) as [[f|]| |]; [|done..].
  apply uniform_sampler_compared.
Qed.

(** C3, where the code parts from it. Head corruption looks the filter
    value up under ["head"] at the key (tail, relation); when that value is
    a Python [set], the type the docstring gives it, none of its members
    is kept out of the negatives: a collation under a lookup is the
    collation under the lookup with every set replaced by an empty array.
    In [ds_set_filter] both [filter_dict['head'][(1, 0)]] and
    [filter_dict['tail'][(1, 0)]] are the set [{0}], and head corruption
    of the triplet [(0, 0, 1)] returns a negative that stands for entity
    [0]. *)
Theorem head_corruption_set_filter_ignored :
  (∀ (R : RandomState) (fuel : nat) (self : KGDataset.t) (data : list (Z * Z * Z))
     (mode : string) (d : KGDataset.filter_map) (g : rng),
     KGDataset._collate_fn fuel self data mode (Some d) g
     = KGDataset._collate_fn fuel self data mode (Some (compared_lookup d)) g)
  ∧ KGDataset._filter_dict ds_set_filter !! "head"
    = Some (Some {[ (1, 0)%Z := FilterSet {[ 0%Z ]} ]})
  ∧ KGDataset._filter_dict ds_set_filter !! "tail"
    = Some (Some {[ (1, 0)%Z := FilterSet {[ 0%Z ]} ]})
  ∧ KGDataset.head_collate_fn (H := stuck_rng 0) 1 ds_set_filter [(0, 0, 1)%Z] tt
    = (Ret (([0%Z], [0%Z], [1%Z], [[0%Z]]), [0; 1]%Z, "head"), tt)
  ∧ np_getitem [0; 1]%Z 0 = Ret 0%Z.
Proof.
  split; [intros; apply collate_compared|].
  split; [reflexivity|]. split; [reflexivity|]. split; [|reflexivity].
  vm_compute. reflexivity.
Qed.

(** C7. In "full" mode, with every head and tail of the batch in
    [[0, num_ents)]: a collation that returns has run [group_index] over
    the heads, the tails and all sampled negatives together, its heads,
    tails and negatives are the images under the function so obtained, and
    its vocabulary has at most [B * (2 + num_negs)] ids and at most
    [num_ents] ids, [B] the number of triplets. Without a filter lookup the collation
    of a non-empty batch does return, provided [num_negs] is positive. *)
Theorem full_mode_vocabulary `{RandomState} fuel self data mode fl_set g :
  KGDataset._neg_mode self = "full" →
  Forall (λ x, (0 ≤ x.1.1 < KGDataset._num_ents self)%Z
               ∧ (0 ≤ x.2 < KGDataset._num_ents self)%Z) data →
  (∀ out g',
     KGDataset._collate_fn fuel self data mode fl_set g = (Ret out, g') →
     (∃ reindex_func neg_ents,
        Forall2 (λ x row, length row = KGDataset._num_negs self) data neg_ents
        ∧ KGDataset.group_index [heads data; tails data; concat neg_ents]
          = Ret (reindex_func, out.1.2)
        ∧ reindex_func (heads data) = Ret out.1.1.1.1.1
        ∧ reindex_func (tails data) = Ret out.1.1.1.2
        ∧ omap reindex_func neg_ents = Ret out.1.1.2)
     ∧ length out.1.2 ≤ length data * (2 + KGDataset._num_negs self)
     ∧ (Z.of_nat (length out.1.2) ≤ KGDataset._num_ents self)%Z)
  ∧ (data ≠ [] → 0 < KGDataset._num_negs self →
     fl_set = None ∨ fl_set = Some ∅ →
     ∃ out g', KGDataset._collate_fn fuel self data mode fl_set g = (Ret out, g')).
Proof.
  intros Hfull Hdata. split.
  - intros out g' Hrun. pose proof Hrun as [Hne _]%collate_Ret.
    destruct (collate_full_Ret _ _ _ _ _ _ _ _ Hfull Hrun)
      as (reindex_func & neg_ents & Hrows & Hgi & Hh & Ht & Hnegs & Hvoc).
    destruct (full_vocabulary_bounds data neg_ents (KGDataset._num_negs self)
                (KGDataset._num_ents self) Hdata Hrows) as [Hsize Hents].
    rewrite <- Hvoc in Hsize, Hents. split; [|split; [done|]].
    + exists reindex_func, neg_ents. split; [|done].
      eapply Forall2_impl; [exact Hrows|]. simpl. by intros x row [Hlen _].
    + destruct data as [|x data]; [done|]. apply Forall_cons in Hdata as [[Hx _] _]. lia.
  - intros Hne Hk Hoff. apply collate_full_off_returns; try done.
    destruct data as [|x data]; [done|]. apply Forall_cons in Hdata as [[Hx _] _]. lia.
Qed.

Lemma full_mode_vocabulary_witness :
  ∃ out g',
    KGDataset._collate_fn (H := cycle_rng) 0 ds_full batch_of_four "tail" None 5%Z
    = (Ret out, g')
    ∧ length out.1.2 ≤ 4 * (2 + 3)
    ∧ (Z.of_nat (length out.1.2) ≤ 1000)%Z.
Proof.
  destruct (full_mode_vocabulary (H := cycle_rng) 0 ds_full batch_of_four "tail" None 5%Z)
    as [Hsize Hreturns].
  - reflexivity.
  - unfold batch_of_four, ds_full. simpl.
    repeat (apply List.Forall_cons; [simpl; lia|]). apply List.Forall_nil.
  - destruct Hreturns as (out & g' & Hrun); [done | simpl; lia | by left |].
    exists out, g'. split; [done|].
    destruct (Hsize out g' Hrun) as (_ & Hb & Hn). split; [exact Hb | exact Hn].
Defined.

(** ** The alternation of [mixed_collate_fn] *)

Lemma step_parity (n : nat) : (Z.of_nat n `mod` 2 =? 0)%Z = Nat.even n.
Proof.
  assert ((Z.of_nat n `mod` 2 =? 0)%Z = Nat.even n
          ∧ (Z.of_nat (S n) `mod` 2 =? 0)%Z = Nat.even (S n)) as [Hn _]; [|done].
  induction n as [|n [IH0 IH1]]; [done|]. split; [done|].
  replace (Z.of_nat (S (S n))) with (Z.of_nat n + 1 * 2)%Z by lia.
  rewrite Z_mod_plus_full. exact IH0.
Qed.

Lemma init_step triplets num_ents num_negs neg_mode filter_mode filter_dict self :
  KGDataset.__init__ triplets num_ents num_negs neg_mode filter_mode filter_dict = Ret self →
  KGDataset._step self = 0%Z.
Proof.
  unfold KGDataset.__init__. intros Hinit.
  destruct (negb filter_mode); simpl in Hinit; [by injection Hinit as <-|].
  destruct filter_dict as [fd|]; [|done].
  repeat (case_match; try done); simpl in Hinit; by injection Hinit as <-.
Qed.

Lemma after_mixed_calls_step `{RandomState} fuel self batches :
  KGDataset._step (after_mixed_calls fuel self batches)
  = (KGDataset._step self + Z.of_nat (length batches))%Z.
Proof.
  revert self. induction batches as [|data rest IH]; intros self; simpl; [lia|].
  rewrite IH. simpl. lia.
Qed.

Lemma collate_label `{RandomState} fuel self data mode fl_set g out g' :
  KGDataset._collate_fn fuel self data mode fl_set g = (Ret out, g') → out.2 = mode.
Proof.
  intros (_ & cand & reindex_func & all_ents & neg_ents & _ & _ & Hout)%collate_Ret.
  by apply reindex_batch_Ret in Hout as (h' & t' & rows & _ & _ & _ & _ & ->).
Qed.

(** C4. On a dataset fresh from [__init__], the [n]-th call of
    [mixed_collate_fn] leaves the counter at [n] and is the tail
    collation when [n] is odd and the head collation when [n] is even, on
    the dataset with the counter already advanced; when it returns, its
    label says so. The first call corrupts tails. *)
Theorem mixed_collate_alternates `{RandomState} fuel
    triplets num_ents num_negs neg_mode filter_mode filter_dict self
    (earlier : list (list (Z * Z * Z))) (data : list (Z * Z * Z)) :
  KGDataset.__init__ triplets num_ents num_negs neg_mode filter_mode filter_dict = Ret self →
  let n := S (length earlier) in
  let call := KGDataset.mixed_collate_fn fuel (after_mixed_calls fuel self earlier) data in
  KGDataset._step call.1 = Z.of_nat n
  ∧ (∀ g, call.2 g = if Nat.odd n
                     then KGDataset.tail_collate_fn fuel call.1 data g
                     else KGDataset.head_collate_fn fuel call.1 data g)
  ∧ (∀ g out g', call.2 g = (Ret out, g') →
                 out.2 = if Nat.odd n then "tail" else "head").
Proof.
  intros Hinit n call.
  assert (KGDataset._step call.1 = Z.of_nat n) as Hstep.
  { subst call n. simpl. rewrite after_mixed_calls_step, (init_step _ _ _ _ _ _ _ Hinit). lia. }
  assert (∀ g, call.2 g = if Nat.odd n
                          then KGDataset.tail_collate_fn fuel call.1 data g
                          else KGDataset.head_collate_fn fuel call.1 data g) as Hside.
  { intros g. unfold Nat.odd. rewrite <- step_parity, <- Hstep. subst call. simpl.
    by destruct (_ =? 0)%Z. }
  split; [done|]. split; [done|].
  intros g out g' Hrun. rewrite Hside in Hrun.
  destruct (Nat.odd n).
  - unfold KGDataset.tail_collate_fn in Hrun.
    apply mbind_Ret in Hrun as (fl_set & g1 & _ & Hrun). by apply collate_label in Hrun.
  - unfold KGDataset.head_collate_fn in Hrun.
    apply mbind_Ret in Hrun as (fl_set & g1 & _ & Hrun). by apply collate_label in Hrun.
Qed.

Lemma mixed_collate_alternates_witness :
  let n := S (length [batch_of_four; batch_of_four]) in
  let call := KGDataset.mixed_collate_fn (H := cycle_rng) 0
                (after_mixed_calls (H := cycle_rng) 0 ds_full [batch_of_four; batch_of_four])
                batch_of_four in
  KGDataset._step call.1 = Z.of_nat n
  ∧ (∀ g, call.2 g = if Nat.odd n
                     then KGDataset.tail_collate_fn (H := cycle_rng) 0 call.1 batch_of_four g
                     else KGDataset.head_collate_fn (H := cycle_rng) 0 call.1 batch_of_four g)
  ∧ (∀ g out g', call.2 g = (Ret out, g') →
                 out.2 = if Nat.odd n then "tail" else "head").
Proof.
  apply (mixed_collate_alternates (H := cycle_rng) 0 batch_of_four 1000 3 "full"
           false None ds_full [batch_of_four; batch_of_four] batch_of_four).
  reflexivity.
Defined.

(** ** Filtering switched off *)

Lemma after_mixed_calls_fields `{RandomState} fuel self batches :
  KGDataset._filter_dict (after_mixed_calls fuel self batches) = KGDataset._filter_dict self
  ∧ KGDataset._num_negs (after_mixed_calls fuel self batches) = KGDataset._num_negs self.
Proof.
  revert self. induction batches as [|data rest IH]; intros self; [done|].
  change (after_mixed_calls fuel self (data :: rest))
    with (after_mixed_calls fuel (KGDataset.mixed_collate_fn fuel self data).1 rest).
  destruct (IH (KGDataset.mixed_collate_fn fuel self data).1) as [-> ->]. done.
Qed.

(** C10. With [filter_mode] false the [filter_dict] argument plays no
    part: [__init__] returns, and stores [{'head': None, 'tail': None}]
    whatever was passed. On that dataset, also after any number of mixed
    collations, the head, tail and mixed collations hand [None] to
    [_collate_fn], and every call of the sampler is the unfiltered draw of
    [num_negs] indices. *)
Theorem filter_mode_off_ignores_filter_dict `{RandomState}
    triplets num_ents num_negs neg_mode filter_dict :
  ∃ self,
    KGDataset.__init__ triplets num_ents num_negs neg_mode false filter_dict = Ret self
    ∧ KGDataset.__init__ triplets num_ents num_negs neg_mode false None = Ret self
    ∧ KGDataset._filter_dict self = <["tail" := None]> (<["head" := None]> ∅)
    ∧ ∀ fuel earlier data g,
        let self' := after_mixed_calls fuel self earlier in
        KGDataset.head_collate_fn fuel self' data g
          = KGDataset._collate_fn fuel self' data "head" None g
        ∧ KGDataset.tail_collate_fn fuel self' data g
          = KGDataset._collate_fn fuel self' data "tail" None g
        ∧ (let call := KGDataset.mixed_collate_fn fuel self' data in
           call.2 g = KGDataset._collate_fn fuel call.1 data
                        (if (KGDataset._step call.1 `mod` 2 =? 0)%Z then "head" else "tail")
                        None g)
        ∧ ∀ mode cand,
            KGDataset.sample_negatives fuel self' data mode None cand g
            = mmap (λ _, let* new_e := np_random_randint 0 (KGDataset.n_cand_of cand) num_negs in
                         lift (KGDataset.through_cand (KGDataset.e_cand_of cand) new_e))
                   data g.
Proof.
  eexists. split; [reflexivity|]. split; [reflexivity|]. split; [reflexivity|].
  intros fuel earlier data g self'.
  assert (KGDataset._filter_dict self' = <["tail" := None]> (<["head" := None]> ∅)
          ∧ KGDataset._num_negs self' = num_negs) as [Hfd Hk].
  { subst self'. by destruct (after_mixed_calls_fields fuel
      {| KGDataset._triplets := triplets; KGDataset._num_ents := num_ents;
         KGDataset._num_negs := num_negs; KGDataset._neg_mode := neg_mode;
         KGDataset._filter_mode := false;
         KGDataset._filter_dict := <["tail" := None]> (<["head" := None]> ∅);
         KGDataset._step := 0 |} earlier) as [-> ->]. }
  assert (∀ self0 side, KGDataset._filter_dict self0 = KGDataset._filter_dict self' →
            side = "head" ∨ side = "tail" →
            KGDataset.side_filter self0 side g = (Ret None, g)) as Hside.
  { intros self0 side Heq Hwhich. unfold KGDataset.side_filter, lift, dict_getitem.
    rewrite Heq, Hfd. by destruct Hwhich as [-> | ->]. }
  split; [|split; [|split]].
  - unfold KGDataset.head_collate_fn.
    by rewrite (mbind_step _ _ _ _ _ (Hside self' "head" eq_refl (or_introl eq_refl))).
  - unfold KGDataset.tail_collate_fn.
    by rewrite (mbind_step _ _ _ _ _ (Hside self' "tail" eq_refl (or_intror eq_refl))).
  - simpl. destruct (_ =? 0)%Z.
    + by rewrite (mbind_step _ _ _ _ _ (Hside _ "head" eq_refl (or_introl eq_refl))).
    + by rewrite (mbind_step _ _ _ _ _ (Hside _ "tail" eq_refl (or_intror eq_refl))).
  - intros mode cand. rewrite sample_negatives_unfold. apply mmap_ext.
    intros x g0. by rewrite Hk.
Qed.

(** ** The evaluation dataset *)

Lemma getitem_normal self ts index item :
  TestKGDataset._mode self = "normal" →
  TestKGDataset._t self = Some ts →
  TestKGDataset.__getitem__ self index = Ret item →
  ∃ h r t corr_idx,
    item = ((h, r, Some t), TestKGDataset._cand self, corr_idx)
    ∧ np_getitem (TestKGDataset._h self) index = Ret h
    ∧ np_getitem (TestKGDataset._r self) index = Ret r
    ∧ np_getitem ts index = Ret t.
Proof.
  intros Hmode Ht. unfold TestKGDataset.__getitem__. rewrite Hmode, Ht.
  destruct (np_getitem (TestKGDataset._h self) index) as [h| |]; [|done..].
  destruct (np_getitem (TestKGDataset._r self) index) as [r| |]; [|done..].
  destruct (np_getitem ts index) as [t| |]; [|done..]. simpl.
  destruct (TestKGDataset.corr_truth (TestKGDataset._corr_idx self)) as [truth| |];
    [|done..]. simpl.
  destruct (TestKGDataset._corr_idx self) as [c|]; simpl.
  - destruct truth.
    + destruct (np_getitem (TestKGDataset.corr_entries c) index) as [x| |]; [|done..].
      simpl. intros [= <-]. eauto 10.
    + intros [= <-]. eauto 10.
  - intros [= <-]. eauto 10.
Qed.

(** The columns of a batch of items fetched in "normal" mode. *)
Lemma items_normal self ts idxs data :
  TestKGDataset._mode self = "normal" →
  TestKGDataset._t self = Some ts →
  omap (TestKGDataset.__getitem__ self) idxs = Ret data →
  Forall (λ x : TestKGDataset.item_t, x.1.2 = TestKGDataset._cand self) data
  ∧ omap (np_getitem (TestKGDataset._h self)) idxs
    = Ret (map (λ x : TestKGDataset.item_t, x.1.1.1.1) data)
  ∧ omap (np_getitem (TestKGDataset._r self)) idxs
    = Ret (map (λ x : TestKGDataset.item_t, x.1.1.1.2) data)
  ∧ ∃ ts', omap (np_getitem ts) idxs = Ret ts'
           ∧ TestKGDataset.to_tensor_opt (map (λ x : TestKGDataset.item_t, x.1.1.2) data)
             = Ret ts'.
Proof.
  intros Hmode Ht. revert data. induction idxs as [|i idxs IH]; intros data; simpl.
  - intros [= <-]. repeat split; [constructor|]. by exists [].
  - destruct (TestKGDataset.__getitem__ self i) as [item| |] eqn:Hitem; [|done..]. simpl.
    destruct (omap (TestKGDataset.__getitem__ self) idxs) as [items| |]; [|done..]. simpl.
    intros [= <-]. destruct (IH items eq_refl) as (Hcand & Hh & Hr & ts' & Hts & Htens).
    destruct (getitem_normal _ _ _ _ Hmode Ht Hitem) as (h & r & t & corr & -> & Hi & Hj & Hk).
    rewrite Hi, Hj, Hk, Hh, Hr, Hts. simpl.
    split; [by constructor|]. split; [done|]. split; [done|].
    exists (t :: ts'). split; [done|].
    unfold TestKGDataset.to_tensor_opt in *. simpl. by rewrite Htens.
Qed.

Lemma paddle_arange_lookup (n i : Z) :
  (0 ≤ i < n)%Z → TestKGDataset.paddle_arange n !! Z.to_nat i = Some i.
Proof.
  intros Hi. unfold TestKGDataset.paddle_arange.
  rewrite list_lookup_fmap, lookup_seq_lt by lia. simpl. f_equal. lia.
Qed.

(** C9, as the code has it. In "normal" mode, for a dataset that carries
    tails and whose [candidate] entry is a count [c > 0], the collation of
    the items of a non-empty list of indices returns the label "normal",
    the heads, relations and tails at those indices, one candidate row
    holding [0, 1, ..., c - 1], and no correct index. The row is built
    from the count carried by the first item; no item stores the row. *)
Theorem normal_collate_candidates triplets num_ents self ts c idxs data :
  TestKGDataset.__init__ triplets num_ents = Ret self →
  TestKGDataset._mode self = "normal" →
  TestKGDataset._t self = Some ts →
  TestKGDataset._cand self = TestKGDataset.CandCount c →
  (0 < c)%Z →
  idxs ≠ [] →
  omap (TestKGDataset.__getitem__ self) idxs = Ret data →
  ∃ hs rs ts',
    TestKGDataset.collate_fn self data
      = Ret ("normal",
             (hs, rs, Some ts', TestKGDataset.T2 [TestKGDataset.paddle_arange c]), None)
    ∧ omap (np_getitem (TestKGDataset._h self)) idxs = Ret hs
    ∧ omap (np_getitem (TestKGDataset._r self)) idxs = Ret rs
    ∧ omap (np_getitem ts) idxs = Ret ts'
    ∧ Z.of_nat (length (TestKGDataset.paddle_arange c)) = c
    ∧ (∀ i, (0 ≤ i < c)%Z → TestKGDataset.paddle_arange c !! Z.to_nat i = Some i)
    ∧ Forall (λ x : TestKGDataset.item_t, x.1.2 = TestKGDataset.CandCount c) data.
Proof.
  intros _ Hmode Ht Hcand Hc Hidxs Hdata.
  destruct (items_normal _ _ _ _ Hmode Ht Hdata) as (Hitems & Hh & Hr & ts' & Hts & Htens).
  rewrite Hcand in Hitems.
  exists (map (λ x : TestKGDataset.item_t, x.1.1.1.1) data),
         (map (λ x : TestKGDataset.item_t, x.1.1.1.2) data), ts'.
  split; [|split; [done|split; [done|split; [done|split; [|split; [|done]]]]]].
  - unfold TestKGDataset.collate_fn. rewrite Hmode.
    change (String.eqb "normal" "wiki") with false.
    change (String.eqb "normal" "normal") with true. cbv iota.
    rewrite Htens. simpl.
    destruct data as [|x data].
    { apply omap_length in Hdata. by destruct idxs. }
    apply Forall_cons in Hitems as [-> _]. done.
  - unfold TestKGDataset.paddle_arange. rewrite length_map, length_seq. lia.
  - intros i Hi. by apply paddle_arange_lookup.
Qed.

Lemma normal_collate_candidates_witness :
  ∃ hs rs ts',
    TestKGDataset.collate_fn normal_dataset
      [((0%Z, 0%Z, Some 1%Z), TestKGDataset.CandCount 2, None)]
    = Ret ("normal",
           (hs, rs, Some ts', TestKGDataset.T2 [TestKGDataset.paddle_arange 2]), None).
Proof.
  destruct (normal_collate_candidates normal_triplets 3 normal_dataset
              [1%Z] 2 [0%Z]
              [((0%Z, 0%Z, Some 1%Z), TestKGDataset.CandCount 2, None)])
    as (hs & rs & ts' & Hrun & _).
  - reflexivity.
  - reflexivity.
  - reflexivity.
  - reflexivity.
  - lia.
  - discriminate.
  - reflexivity.
  - by exists hs, rs, ts'.
Defined.

(** The candidate row of C9 is not tied to [num_ents]: [normal_triplets]
    has [candidate = 2], and the dataset built from it for 3 entities
    collates to the row [0, 1]. *)
Lemma normal_collate_num_ents_counterexample :
  ¬ (∀ triplets num_ents self idxs data res,
       TestKGDataset.__init__ triplets num_ents = Ret self →
       TestKGDataset._mode self = "normal" →
       idxs ≠ [] →
       omap (TestKGDataset.__getitem__ self) idxs = Ret data →
       TestKGDataset.collate_fn self data = Ret res →
       res.1.2.2 = TestKGDataset.T2 [TestKGDataset.paddle_arange num_ents]).
Proof.
  intros Hgen.
  specialize (Hgen normal_triplets 3%Z normal_dataset
    [0%Z] [((0%Z, 0%Z, Some 1%Z), TestKGDataset.CandCount 2, None)]
    ("normal", ([0%Z], [0%Z], Some [1%Z], TestKGDataset.T2 [[0; 1]%Z]), None)
    eq_refl eq_refl ltac:(done) eq_refl eq_refl).
  vm_compute in Hgen. discriminate.
Qed.

(** * Further properties of the module *)

(** ** Indexing a dataset *)

Lemma list_getitem_lookup {A} (l : list A) (i : nat) x :
  l !! i = Some x → list_getitem l (Z.of_nat i) = Ret x.
Proof.
  intros Hi. unfold list_getitem. pose proof (lookup_lt_Some _ _ _ Hi) as Hlt.
  destruct (Z.ltb_spec (Z.of_nat i) 0); [lia|].
  destruct (Z.leb_spec 0 (Z.of_nat i)); [|lia].
  destruct (Z.ltb_spec (Z.of_nat i) (Z.of_nat (length l))); [|lia].
  simpl. by rewrite Nat2Z.id, Hi.
Qed.

Lemma list_getitem_from_end {A} (l : list A) (i : nat) x :
  l !! i = Some x → list_getitem l (Z.of_nat i - Z.of_nat (length l)) = Ret x.
Proof.
  intros Hi. unfold list_getitem. pose proof (lookup_lt_Some _ _ _ Hi) as Hlt.
  destruct (Z.ltb_spec (Z.of_nat i - Z.of_nat (length l)) 0); [|lia].
  replace (Z.of_nat (length l) + (Z.of_nat i - Z.of_nat (length l)))%Z
    with (Z.of_nat i) by lia.
  destruct (Z.leb_spec 0 (Z.of_nat i)); [|lia].
  destruct (Z.ltb_spec (Z.of_nat i) (Z.of_nat (length l))); [|lia].
  simpl. by rewrite Nat2Z.id, Hi.
Qed.

Lemma list_getitem_out_of_range {A} (l : list A) (i : Z) :
  (i < - Z.of_nat (length l) ∨ Z.of_nat (length l) ≤ i)%Z →
  list_getitem l i = Raise IndexError.
Proof.
  intros Hi. unfold list_getitem.
  destruct (Z.ltb_spec i 0).
  - destruct (Z.leb_spec 0 (Z.of_nat (length l) + i)); [lia | done].
  - destruct (Z.leb_spec 0 i); [|lia].
    destruct (Z.ltb_spec i (Z.of_nat (length l))); [lia | done].
Qed.

Lemma omap_range {A} (f : Z → outcome A) (l : list A) (start : nat) :
  (∀ i x, l !! i = Some x → f (Z.of_nat (start + i)) = Ret x) →
  omap f (map Z.of_nat (seq start (length l))) = Ret l.
Proof.
  revert start. induction l as [|x l IH]; intros start Hf; [done|].
  simpl. rewrite <- (Nat.add_0_r start) at 1. rewrite (Hf 0 x eq_refl). simpl.
  rewrite (IH (S start)); [done|].
  intros i y Hi. replace (S start + i) with (start + S i) by lia. by apply Hf.
Qed.

(** X1. [KGDataset.__getitem__] serves every index of [range(len(self))]
    with the triplet at that position, and the same triplet again at the
    index minus the length; any index outside [-len, len) raises
    [IndexError]. Reading the indices [0 .. len - 1] in order gives back
    the triplets the dataset was built from. *)
Theorem kg_dataset_indexing (self : KGDataset.t) :
  (∀ i : nat, i < KGDataset.__len__ self →
     ∃ x, KGDataset._triplets self !! i = Some x
          ∧ KGDataset.__getitem__ self (Z.of_nat i) = Ret x
          ∧ KGDataset.__getitem__ self (Z.of_nat i - Z.of_nat (KGDataset.__len__ self))
            = Ret x)
  ∧ (∀ index, (index < - Z.of_nat (KGDataset.__len__ self)
               ∨ Z.of_nat (KGDataset.__len__ self) ≤ index)%Z →
       KGDataset.__getitem__ self index = Raise IndexError)
  ∧ omap (KGDataset.__getitem__ self)
      (map Z.of_nat (seq 0 (KGDataset.__len__ self)))
    = Ret (KGDataset._triplets self).
Proof.
  unfold KGDataset.__len__, KGDataset.__getitem__. split; [|split].
  - intros i Hi. destruct (lookup_lt_is_Some_2 _ _ Hi) as [[[h r] t] Hx].
    exists (h, r, t). split; [done|].
    by rewrite (list_getitem_lookup _ _ _ Hx), (list_getitem_from_end _ _ _ Hx).
  - intros index Hout. by rewrite list_getitem_out_of_range.
  - apply omap_range. intros i [[h r] t] Hx. simpl.
    by rewrite (list_getitem_lookup _ _ _ Hx).
Qed.

(** ** Order and compactness of the reindexing *)

Lemma strictly_sorted_lookup_lt (l : list Z) (a b : nat) x y :
  StronglySorted Z.lt l → l !! a = Some x → l !! b = Some y →
  a < b → (x < y)%Z.
Proof.
  intros Hs. revert a b. induction Hs as [|z l _ IH Hall]; intros a b Ha Hb Hab.
  - by rewrite lookup_nil in Ha.
  - destruct b as [|b]; [lia|]. simpl in Hb. destruct a as [|a].
    + injection Ha as ->. rewrite Forall_forall in Hall. apply Hall.
      by apply (list_elem_of_lookup_2 l b).
    + simpl in Ha. apply (IH a b); [done | done | lia].
Qed.

Lemma strictly_sorted_lookup_iff (l : list Z) (a b : nat) x y :
  StronglySorted Z.lt l → l !! a = Some x → l !! b = Some y →
  (a < b ↔ (x < y)%Z).
Proof.
  intros Hs Ha Hb. split; [by apply (strictly_sorted_lookup_lt l a b)|].
  intros Hxy. destruct (Nat.lt_trichotomy a b) as [Hlt | [-> | Hgt]]; [done | |].
  - rewrite Ha in Hb. injection Hb as ->. lia.
  - pose proof (strictly_sorted_lookup_lt l b a y x Hs Hb Ha Hgt). lia.
Qed.

(** The function of [group_index] on one id, read backwards. *)
Lemma reindex_single_Ret uniques x i :
  np_vectorize (λ x, dict_getitem (KGDataset.reindex_dict uniques) x) [x] = Ret [i] →
  ∃ a : nat, i = Z.of_nat a ∧ uniques !! a = Some x.
Proof.
  simpl. unfold dict_getitem.
  destruct (KGDataset.reindex_dict uniques !! x) as [v|] eqn:Hv; [|done].
  simpl. intros [= <-]. by apply reindex_dict_lookup.
Qed.

Lemma reindex_single_at uniques (a : nat) x :
  StronglySorted Z.lt uniques → uniques !! a = Some x →
  np_vectorize (λ x, dict_getitem (KGDataset.reindex_dict uniques) x) [x]
  = Ret [Z.of_nat a].
Proof.
  intros Hs Ha.
  destruct (reindex_one uniques x) as (b & Hb & Hlk); [by eapply list_elem_of_lookup_2|].
  assert (a = b) as ->.
  { eapply NoDup_lookup; [by apply strictly_sorted_NoDup | exact Ha | exact Hlk]. }
  simpl. by rewrite Hb.
Qed.

(** X12. The mapping returned by [group_index] is the rank in the sorted
    vocabulary: it is strictly increasing (so two different ids never
    share a local id), every local id of [[0, U)] is the image of an id of
    the input, and [U] is at most the number of ids passed in. *)
Theorem group_index_is_rank (data : list (list Z)) :
  data ≠ [] →
  ∃ reindex_func uniques,
    KGDataset.group_index data = Ret (reindex_func, uniques)
    ∧ (∀ x y i j, reindex_func [x] = Ret [i] → reindex_func [y] = Ret [j] →
         ((x < y)%Z ↔ (i < j)%Z))
    ∧ (∀ i, (0 ≤ i < Z.of_nat (length uniques))%Z →
         ∃ x, occurs_in data x ∧ reindex_func [x] = Ret [i])
    ∧ length uniques ≤ length (concat data).
Proof.
  intros Hne. do 2 eexists. split; [by apply group_index_unfold|].
  pose proof (np_unique_sorted (concat data)) as Hs.
  split; [|split].
  - intros x y i j (a & -> & Ha)%reindex_single_Ret (b & -> & Hb)%reindex_single_Ret.
    rewrite <- (strictly_sorted_lookup_iff _ a b x y Hs Ha Hb). lia.
  - intros i Hi. destruct (lookup_lt_is_Some_2 (np_unique (concat data)) (Z.to_nat i))
      as [x Hx]; [lia|].
    exists x. split.
    + apply elem_of_concat, np_unique_elem_of. by eapply list_elem_of_lookup_2.
    + rewrite (reindex_single_at _ _ _ Hs Hx). do 2 f_equal. lia.
  - apply np_unique_length.
Qed.

Lemma group_index_is_rank_witness :
  ∃ reindex_func uniques,
    KGDataset.group_index [[40; 7]; [7; 12]]%Z = Ret (reindex_func, uniques)
    ∧ (∀ x y i j, reindex_func [x] = Ret [i] → reindex_func [y] = Ret [j] →
         ((x < y)%Z ↔ (i < j)%Z))
    ∧ (∀ i, (0 ≤ i < Z.of_nat (length uniques))%Z →
         ∃ x, occurs_in [[40; 7]; [7; 12]]%Z x ∧ reindex_func [x] = Ret [i])
    ∧ length uniques ≤ length (concat [[40; 7]; [7; 12]]%Z).
Proof. apply (group_index_is_rank [[40; 7]; [7; 12]]%Z). discriminate. Defined.

(** ** More on the sampler *)

(** X11. When no candidate belongs to the filter array (the empty filter
    array included), the filtered branch needs one turn only: for [k ≥ 1]
    and a non-empty domain it draws one batch of [2k] indices and returns
    the first [k] candidates of that batch, whatever the random state. *)
Theorem uniform_sampler_one_turn `{RandomState} fuel k cand (fs : list Z) g :
  0 < k → (0 < KGDataset.n_cand_of cand)%Z →
  (∀ x, in_domain cand x → x ∉ fs) →
  1 ≤ fuel →
  ∃ idx ids g',
    np_random_randint 0 (KGDataset.n_cand_of cand) (2 * k) g = (Ret idx, g')
    ∧ KGDataset.through_cand (KGDataset.e_cand_of cand) idx = Ret ids
    ∧ KGDataset.uniform_sampler fuel k cand (Some (FilterArr fs)) g
      = (Ret (take k ids), g').
Proof.
  intros Hk Hn Hfree Hfuel.
  destruct (sampler_one_turn fuel k cand (FilterArr fs) g Hk Hn Hfree Hfuel)
    as (idx & ids & g' & Hdraw & Hids & _ & _ & Hrun).
  by exists idx, ids, g'.
Qed.

Lemma uniform_sampler_one_turn_witness :
  ∃ idx ids g',
    np_random_randint (H := cycle_rng) 0 3 (2 * 2) 5%Z = (Ret idx, g')
    ∧ KGDataset.through_cand (Some [10; 11; 12]%Z) idx = Ret ids
    ∧ KGDataset.uniform_sampler (H := cycle_rng) 1 2 (KGDataset.CandArr [10; 11; 12]%Z)
        (Some (FilterArr [])) 5%Z = (Ret (take 2 ids), g').
Proof.
  apply (uniform_sampler_one_turn (H := cycle_rng) 1 2
           (KGDataset.CandArr [10; 11; 12]%Z) [] 5%Z); [lia | simpl; lia | | lia].
  intros x _. apply not_elem_of_nil.
Defined.

Lemma randint_Ret_draw `{RandomState} low high size g xs g' :
  np_random_randint low high size g = (Ret xs, g') → size ≠ 0 →
  draw g low high size = (xs, g').
Proof.
  unfold np_random_randint. intros Hrun Hsize.
  destruct size as [|size]; [done|]. simpl in Hrun.
  destruct (low <? high)%Z; [|done].
  destruct (draw g low high (S size)) as [ys g1]. by injection Hrun as <- <-.
Qed.

Lemma successive_draws_length `{RandomState} turns n size g :
  length (successive_draws turns n size g).1 = turns.
Proof.
  revert g. induction turns as [|turns IH]; intros g; [done|].
  cbn [successive_draws]. destruct (draw g 0 n size) as [idx g1].
  specialize (IH g1). destruct (successive_draws turns n size g1) as [rest g2].
  simpl in *. by rewrite IH.
Qed.

(** A run of the loop that returns, tied to the draws it made. *)
Lemma sampler_loop_draws `{RandomState} cand fuel k f acc num g l g' :
  KGDataset.sampler_loop fuel k (KGDataset.n_cand_of cand) (KGDataset.e_cand_of cand)
    f acc num g = (Ret l, g') →
  ∃ turns idxs batches,
    turns ≤ fuel
    ∧ successive_draws turns (KGDataset.n_cand_of cand) (2 * k) g = (idxs, g')
    ∧ omap (KGDataset.through_cand (KGDataset.e_cand_of cand)) idxs = Ret batches
    ∧ l = acc ++ (survivors (compared_ids f) <$> batches)
    ∧ k ≤ num + length (concat (survivors (compared_ids f) <$> batches))
    ∧ ∀ i, i < length batches →
        num + length (concat (survivors (compared_ids f) <$> take i batches)) < k.
Proof.
  revert acc num g. induction fuel as [|fuel IH]; intros acc num g.
  - simpl. destruct (Nat.ltb_spec num k) as [Hlt | Hge]; [done|].
    intros [= <- <-]. exists 0, [], []. simpl. rewrite app_nil_r.
    repeat split; [lia | lia | intros; lia].
  - destruct (Nat.ltb_spec num k) as [Hlt | Hge].
    + intros Hrun. pose proof Hrun as Hrun'. simpl in Hrun'.
      destruct (Nat.ltb_spec num k); [|lia].
      apply mbind_Ret in Hrun' as (idx & g1 & Hdraw & Hrest).
      apply mbind_Ret in Hrest as (ids & g2 & Hids & _).
      unfold lift in Hids. injection Hids as Hids <-.
      rewrite (sampler_loop_turn _ _ _ _ _ _ _ _ _ _ _ Hlt Hdraw Hids) in Hrun.
      apply IH in Hrun as (turns & idxs & batches & Hturns & Hdraws & Hthrough
                           & -> & Hk & Hbefore).
      apply randint_Ret_draw in Hdraw; [|lia].
      change (k + (k + 0)) with (2 * k) in Hdraw.
      exists (S turns), (idx :: idxs), (ids :: batches).
      split; [lia|]. split; [by cbn [successive_draws]; rewrite Hdraw, Hdraws|].
      split; [by cbn [omap]; rewrite Hids, Hthrough|].
      rewrite fmap_cons, concat_cons, length_app.
      split; [by rewrite <- app_assoc|]. split; [lia|].
      intros [|i] Hi; [simpl; lia|].
      rewrite firstn_cons, fmap_cons, concat_cons, length_app.
      rewrite length_cons in Hi. specialize (Hbefore i ltac:(lia)). lia.
    + rewrite sampler_loop_exit by done. intros [= <- <-].
      exists 0, [], []. simpl. rewrite app_nil_r.
      repeat split; [lia | lia | intros; lia].
Qed.

(** X19. A call of the sampler with a filter array that returns. The
    array returned has exactly [k] ids, none of them in the filter array,
    all of them candidates. It is made from the draws themselves: the
    loop called [np.random.randint(0, n, 2k)] some number of times in a
    row, starting from the random state of the call and leaving the state
    the call leaves; each batch of indices was read through the candidate
    sequence and stripped of the ids of the filter array; the loop went
    on as long as the batches before had fewer than [k] survivors; and the
    result is the first [k] survivors in the order drawn. *)
Theorem uniform_sampler_array_filtered `{RandomState} fuel k cand (fs : list Z) g out g' :
  KGDataset.uniform_sampler fuel k cand (Some (FilterArr fs)) g = (Ret out, g') →
  length out = k
  ∧ Forall (λ x, x ∉ fs) out
  ∧ Forall (in_domain cand) out
  ∧ ∃ turns idxs batches,
      turns ≤ fuel
      ∧ successive_draws turns (KGDataset.n_cand_of cand) (2 * k) g = (idxs, g')
      ∧ omap (KGDataset.through_cand (KGDataset.e_cand_of cand)) idxs = Ret batches
      ∧ length batches = turns
      ∧ (∀ i, i < turns →
           length (concat (survivors fs <$> take i batches)) < k)
      ∧ k ≤ length (concat (survivors fs <$> batches))
      ∧ out = take k (concat (survivors fs <$> batches)).
Proof.
  intros Hrun.
  destruct (sampler_filtered_Ret _ _ _ _ _ _ _ Hrun) as (Hlen & Hout & Hdom & _).
  split; [done|]. split; [done|]. split; [done|].
  unfold KGDataset.uniform_sampler in Hrun.
  apply mbind_Ret in Hrun as (l & g1 & Hloop & Hrest).
  apply mbind_Ret in Hrest as (new_e & g2 & Hcat & Hret).
  unfold mret in Hret. injection Hret as <- <-.
  unfold lift in Hcat. injection Hcat as Hcat <-.
  apply sampler_loop_draws in Hloop
    as (turns & idxs & batches & Hturns & Hdraws & Hthrough & -> & Hk & Hbefore).
  cbn [compared_ids] in *. simpl in Hk, Hbefore. rewrite app_nil_l in Hcat.
  assert (new_e = concat (survivors fs <$> batches)) as ->.
  { unfold np_concatenate in Hcat. destruct (survivors fs <$> batches); [done | congruence]. }
  assert (length batches = turns) as Hlenb.
  { apply omap_length in Hthrough. rewrite Hthrough.
    by rewrite <- (successive_draws_length turns (KGDataset.n_cand_of cand) (2 * k) g),
         Hdraws. }
  exists turns, idxs, batches. rewrite Hlenb in Hbefore. done.
Qed.

Lemma uniform_sampler_array_filtered_witness :
  length [10; 10; 10]%Z = 3
  ∧ Forall (λ x, x ∉ [11; 12]%Z) [10; 10; 10]%Z
  ∧ Forall (in_domain (KGDataset.CandArr [10; 11; 12]%Z)) [10; 10; 10]%Z
  ∧ ∃ turns idxs batches,
      turns ≤ 5
      ∧ successive_draws (H := cycle_rng) turns 3 (2 * 3) 0%Z = (idxs, 12%Z)
      ∧ omap (KGDataset.through_cand (Some [10; 11; 12]%Z)) idxs = Ret batches
      ∧ length batches = turns
      ∧ (∀ i, i < turns →
           length (concat (survivors [11; 12]%Z <$> take i batches)) < 3)
      ∧ 3 ≤ length (concat (survivors [11; 12]%Z <$> batches))
      ∧ [10; 10; 10]%Z = take 3 (concat (survivors [11; 12]%Z <$> batches)).
Proof.
  apply (uniform_sampler_array_filtered (H := cycle_rng) 5 3
           (KGDataset.CandArr [10; 11; 12]%Z) [11; 12]%Z 0%Z [10; 10; 10]%Z 12%Z).
  vm_compute. reflexivity.
Defined.

(** X20. The loop of the filtered branch under a filter array. Take
    [k ≥ 1] and a candidate domain that is not empty. If every candidate
    is in the filter array, the call is still inside its loop after any
    number of turns, whatever is drawn: it neither returns nor raises. If
    a candidate outside the filter array exists, a turn can make progress:
    there are draws with which the call returns after one turn, and it
    returns within [k] turns whenever every drawn batch lets an id
    through. Nothing bounds the number of turns: if a candidate inside the
    filter array exists too, there are draws with which the call never
    leaves the loop. In no case does the call raise. *)
Theorem uniform_sampler_array_starvation (k : nat) (cand : KGDataset.cand_t) (fs : list Z) :
  0 < k → (0 < KGDataset.n_cand_of cand)%Z →
  ((∀ x, in_domain cand x → x ∈ fs) →
     ∀ (R : RandomState) fuel g,
       (KGDataset.uniform_sampler fuel k cand (Some (FilterArr fs)) g).1 = Spin)
  ∧ (∀ x, in_domain cand x → x ∉ fs →
       (∃ (R : RandomState) g, ∀ fuel, 1 ≤ fuel →
          ∃ out g', KGDataset.uniform_sampler fuel k cand (Some (FilterArr fs)) g
                    = (Ret out, g'))
       ∧ (∀ (R : RandomState),
            (∀ g0 ids, KGDataset.through_cand (KGDataset.e_cand_of cand)
                         (draw g0 0 (KGDataset.n_cand_of cand) (2 * k)).1 = Ret ids →
                       survivors fs ids ≠ []) →
            ∀ fuel g, k ≤ fuel →
              ∃ out g', KGDataset.uniform_sampler fuel k cand (Some (FilterArr fs)) g
                        = (Ret out, g')))
  ∧ (∀ x, in_domain cand x → x ∈ fs →
       ∃ (R : RandomState) g, ∀ fuel,
         (KGDataset.uniform_sampler fuel k cand (Some (FilterArr fs)) g).1 = Spin)
  ∧ (∀ (R : RandomState) fuel g,
       (KGDataset.uniform_sampler fuel k cand (Some (FilterArr fs)) g).1 = Spin
       ∨ ∃ out, (KGDataset.uniform_sampler fuel k cand (Some (FilterArr fs)) g).1 = Ret out).
Proof.
  intros Hk Hn. split; [|split; [|split]]; [| | |intros; by apply uniform_sampler_no_raise].
  - intros Hall R fuel g. apply uniform_sampler_spins; [done | done |].
    by apply (all_filtered_no_survivor cand k (FilterArr fs)).
  - intros x Hx Hout. split.
    + destruct (stuck_rng_hits cand x Hx) as (j & _ & Hj).
      exists (stuck_rng j), tt. intros fuel Hfuel.
      destruct fuel as [|fuel]; [lia|].
      unfold KGDataset.uniform_sampler.
      assert (KGDataset.sampler_loop (H := stuck_rng j) (S fuel) k
                (KGDataset.n_cand_of cand) (KGDataset.e_cand_of cand) (FilterArr fs) [] 0 tt
              = (Ret [replicate (2 * k) x], tt)) as Hloop.
      { destruct (@randint_draw (stuck_rng j) 0 (KGDataset.n_cand_of cand) (2 * k) tt)
          as ([] & Hdraw); [lia | lia |].
        rewrite (sampler_loop_turn _ _ _ _ _ _ _ _ _ _ _ Hk Hdraw (Hj (2 * k))).
        cbn [compared_ids]. rewrite survivors_replicate_out by done.
        rewrite sampler_loop_exit; [done|]. rewrite length_replicate. lia. }
      rewrite (mbind_step _ _ _ _ _ Hloop). unfold lift, mbind, mret. simpl. eauto.
    + intros R Hprog fuel g Hfuel. by apply uniform_sampler_returns.
  - intros x Hx Hin. destruct (stuck_rng_hits cand x Hx) as (j & _ & Hj).
    exists (stuck_rng j), tt. intros fuel.
    apply uniform_sampler_spins; [done | done |].
    intros g0 ids Hids. simpl in Hids. rewrite Hj in Hids. injection Hids as <-.
    by apply survivors_replicate_in.
Qed.

Lemma uniform_sampler_array_starvation_witness :
  (KGDataset.uniform_sampler (H := cycle_rng) 9 2 (KGDataset.CandArr [5; 6]%Z)
     (Some (FilterArr [5; 6; 7]%Z)) 0%Z).1 = Spin
  ∧ ∃ out g',
      KGDataset.uniform_sampler (H := cycle_rng) 9 2 (KGDataset.CandArr [5; 6]%Z)
        (Some (FilterArr [7]%Z)) 0%Z = (Ret out, g').
Proof.
  split.
  - apply (uniform_sampler_array_starvation 2 (KGDataset.CandArr [5; 6]%Z) [5; 6; 7]%Z);
      [lia | simpl; lia |].
    simpl. intros x Hx. apply list_elem_of_In. apply list_elem_of_In in Hx.
    simpl in *. tauto.
  - vm_compute. eauto.
Defined.

Lemma id_range_length n : Z.of_nat (length (id_range n)) = Z.max 0 n.
Proof. unfold id_range. rewrite length_map, length_seq. lia. Qed.

Lemma np_take_id_range n idx :
  Forall (λ i, (0 ≤ i < n)%Z) idx → np_take (id_range n) idx = Ret idx.
Proof.
  unfold np_take. induction 1 as [|i idx Hi _ IH]; simpl; [done|].
  rewrite <- (Z2Nat.id i) at 1 by lia.
  rewrite (np_getitem_lookup (id_range n) (Z.to_nat i) i), IH; [done|].
  unfold id_range. rewrite list_lookup_fmap, lookup_seq_lt by lia. simpl. f_equal. lia.
Qed.

(** A draw below [len(range(n))] followed by code that agrees on indices
    of [[0, n)] is a draw below [n] followed by that code. *)
Lemma randint_id_range_bind `{RandomState} {B} n size (K1 K2 : list Z → M B) g :
  (∀ idx g1, Forall (λ i, (0 ≤ i < n)%Z) idx → K1 idx g1 = K2 idx g1) →
  mbind (np_random_randint 0 (Z.of_nat (length (id_range n))) size) K1 g
  = mbind (np_random_randint 0 n size) K2 g.
Proof.
  intros Hagree. rewrite id_range_length. unfold mbind, np_random_randint.
  destruct (size =? 0); [by apply Hagree|].
  destruct (Z.ltb_spec 0 n) as [Hpos | Hneg].
  - rewrite Z.max_r by lia. destruct (Z.ltb_spec 0 n); [|lia].
    pose proof (draw_range g 0 n size Hpos) as Hrange.
    destruct (draw g 0 n size) as [idx g1]. by apply Hagree.
  - rewrite Z.max_l by lia. by destruct (Z.ltb_spec 0 0); [lia|].
Qed.

Lemma sampler_loop_id_range `{RandomState} n fuel k fs acc num g :
  KGDataset.sampler_loop fuel k (Z.of_nat (length (id_range n))) (Some (id_range n))
    fs acc num g
  = KGDataset.sampler_loop fuel k n None fs acc num g.
Proof.
  revert acc num g. induction fuel as [|fuel IH]; intros acc num g; [done|].
  simpl. destruct (num <? k); [|done].
  apply randint_id_range_bind. intros idx g1 Hidx.
  unfold mbind, lift, KGDataset.through_cand.
  rewrite (np_take_id_range n idx Hidx). apply IH.
Qed.

(** X10. Handing the sampler the explicit candidate array [0, ..., n - 1]
    is the same as handing it the size [n]: with or without a filter set,
    both calls give the same outcome and leave the same random state. *)
Theorem uniform_sampler_size_or_range `{RandomState} n fuel k filter_set g :
  KGDataset.uniform_sampler fuel k (KGDataset.CandArr (id_range n)) filter_set g
  = KGDataset.uniform_sampler fuel k (KGDataset.CandInt n) filter_set g.
Proof.
  unfold KGDataset.uniform_sampler. simpl. destruct filter_set as [fs|].
  - unfold mbind. by rewrite sampler_loop_id_range.
  - apply randint_id_range_bind. intros idx g1 Hidx.
    unfold lift. simpl. by rewrite (np_take_id_range n idx Hidx).
Qed.

(** ** More on the collation *)

Lemma reindex_func_Ret_range uniques xs ys :
  np_vectorize (λ x, dict_getitem (KGDataset.reindex_dict uniques) x) xs = Ret ys →
  Forall2 (λ x y, (0 ≤ y < Z.of_nat (length uniques))%Z
                  ∧ np_getitem uniques y = Ret x) xs ys.
Proof.
  intros Hrun.
  assert (omap (λ x, dict_getitem (KGDataset.reindex_dict uniques) x) xs = Ret ys) as Hom
    by (by destruct xs).
  apply omap_Ret_Forall2 in Hom. eapply Forall2_impl; [exact Hom|]. simpl.
  intros x y Hxy. unfold dict_getitem in Hxy.
  destruct (KGDataset.reindex_dict uniques !! x) as [v|] eqn:Hv; [|done].
  injection Hxy as ->. apply reindex_dict_lookup in Hv as (i & -> & Hi).
  split; [|by apply np_getitem_lookup].
  apply lookup_lt_Some in Hi. lia.
Qed.

(** The parts of a collation that returns, with the reindexing function
    written out. *)
Lemma collate_parts `{RandomState} fuel self data mode fl_set g
    h r t negs all_ents label g' :
  KGDataset._collate_fn fuel self data mode fl_set g
    = (Ret ((h, r, t, negs), all_ents, label), g') →
  ∃ cand neg_ents,
    label = mode ∧ r = rels data
    ∧ KGDataset.sample_negatives fuel self data mode fl_set cand g = (Ret neg_ents, g')
    ∧ ((KGDataset._neg_mode self = "batch" ∧ cand = KGDataset.CandArr all_ents
        ∧ all_ents = np_unique (heads data ++ tails data))
       ∨ (KGDataset._neg_mode self = "full"
          ∧ cand = KGDataset.CandInt (KGDataset._num_ents self)
          ∧ all_ents = np_unique (heads data ++ tails data ++ concat neg_ents)))
    ∧ np_vectorize (λ x, dict_getitem (KGDataset.reindex_dict all_ents) x) (heads data)
      = Ret h
    ∧ np_vectorize (λ x, dict_getitem (KGDataset.reindex_dict all_ents) x) (tails data)
      = Ret t
    ∧ omap (np_vectorize (λ x, dict_getitem (KGDataset.reindex_dict all_ents) x)) neg_ents
      = Ret negs.
Proof.
  intros (Hne & cand & reindex_func & all_ents' & neg_ents & Hneg & Hgi & Hout)%collate_Ret.
  apply reindex_batch_Ret in Hout as (h' & t' & rows & Hh & Ht & Hrows & _ & Hout).
  injection Hout as -> -> -> -> -> ->.
  exists cand, neg_ents. split; [done|]. split; [done|]. split; [done|].
  destruct Hgi as [(Hmode & -> & Hgi) | (Hmode & -> & Hgi)];
    apply group_index_Ret in Hgi as (_ & Hvoc & ->); simpl in Hvoc;
    rewrite app_nil_r in Hvoc.
  - split; [left; done|]. done.
  - split; [right; done|]. done.
Qed.

(** X4. A collation that returns loses nothing: the relations come back
    unchanged, the vocabulary is strictly increasing, every returned head,
    tail and negative is an index of [[0, U)] into the vocabulary, and the
    vocabulary at the returned head (tail) of a triplet is the triplet's
    own head (tail). There is one row of [num_negs] negatives per
    triplet. *)
Theorem collate_is_lossless `{RandomState} fuel self data mode fl_set g
    h r t negs all_ents label g' :
  KGDataset._collate_fn fuel self data mode fl_set g
    = (Ret ((h, r, t, negs), all_ents, label), g') →
  r = rels data
  ∧ StronglySorted Z.lt all_ents
  ∧ Forall2 (λ x y, (0 ≤ y < Z.of_nat (length all_ents))%Z
                    ∧ np_getitem all_ents y = Ret x) (heads data) h
  ∧ Forall2 (λ x y, (0 ≤ y < Z.of_nat (length all_ents))%Z
                    ∧ np_getitem all_ents y = Ret x) (tails data) t
  ∧ Forall2 (λ x row, length row = KGDataset._num_negs self
                      ∧ Forall (λ y, (0 ≤ y < Z.of_nat (length all_ents))%Z) row)
            data negs.
Proof.
  intros (cand & neg_ents & _ & -> & Hneg & Hvoc & Hh & Ht & Hrows)%collate_parts.
  split; [done|]. split.
  { destruct Hvoc as [(_ & _ & ->) | (_ & _ & ->)]; apply np_unique_sorted. }
  split; [by apply reindex_func_Ret_range|]. split; [by apply reindex_func_Ret_range|].
  apply sample_negatives_Ret in Hneg. apply omap_Ret_Forall2 in Hrows.
  eapply Forall2_chain; [|exact Hneg|exact Hrows]. simpl.
  intros x raw row (Hlen & _) Hrow%reindex_func_Ret_range. split.
  - rewrite <- Hlen. symmetry. by eapply Forall2_length.
  - apply (Forall2_Forall_r _ _ _ _ Hrow). apply Forall_true. by intros ? ? [? _].
Qed.

Lemma collate_is_lossless_witness :
  [0; 0]%Z = rels [(0, 0, 1); (2, 0, 3)]%Z
  ∧ StronglySorted Z.lt [0; 1; 2; 3]%Z
  ∧ Forall2 (λ x y, (0 ≤ y < Z.of_nat (length [0; 1; 2; 3]%Z))%Z
                    ∧ np_getitem [0; 1; 2; 3]%Z y = Ret x)
            (heads [(0, 0, 1); (2, 0, 3)]%Z) [0; 2]%Z
  ∧ Forall2 (λ x y, (0 ≤ y < Z.of_nat (length [0; 1; 2; 3]%Z))%Z
                    ∧ np_getitem [0; 1; 2; 3]%Z y = Ret x)
            (tails [(0, 0, 1); (2, 0, 3)]%Z) [1; 3]%Z
  ∧ Forall2 (λ x row, length row = KGDataset._num_negs ds_batch
                      ∧ Forall (λ y, (0 ≤ y < Z.of_nat (length [0; 1; 2; 3]%Z))%Z) row)
            [(0, 0, 1); (2, 0, 3)]%Z [[0; 1]; [2; 3]]%Z.
Proof.
  apply (collate_is_lossless (H := cycle_rng) 0 ds_batch [(0, 0, 1); (2, 0, 3)]%Z
           "head" None 0%Z [0; 2]%Z [0; 0]%Z [1; 3]%Z [[0; 1]; [2; 3]]%Z
           [0; 1; 2; 3]%Z "head" 4%Z).
  vm_compute. reflexivity.
Defined.

Lemma collate_batch_off_returns `{RandomState} fuel self data mode fl_set g :
  KGDataset._neg_mode self = "batch" →
  data ≠ [] → 0 < KGDataset._num_negs self →
  fl_set = None ∨ fl_set = Some ∅ →
  ∃ out g', KGDataset._collate_fn fuel self data mode fl_set g = (Ret out, g').
Proof.
  intros Hbatch Hne Hk Hoff. unfold KGDataset._collate_fn.
  assert (KGDataset.unpack_columns data = Ret (heads data, rels data, tails data)) as Hcols
    by (by destruct data).
  rewrite (mbind_lift_step _ _ _ _ Hcols). cbv beta iota. rewrite Hbatch.
  change (String.eqb "batch" "batch") with true. cbv iota.
  rewrite (mbind_lift_step _ _ _ _
             (group_index_unfold [heads data; tails data] ltac:(done))).
  cbv beta iota zeta.
  set (uniques := np_unique (concat [heads data; tails data])).
  assert (∀ x, x ∈ heads data ∨ x ∈ tails data → x ∈ uniques) as Hin.
  { intros x Hx. apply np_unique_elem_of. simpl. rewrite app_nil_r, elem_of_app. tauto. }
  assert ((0 < KGDataset.n_cand_of (KGDataset.CandArr uniques))%Z) as Hn.
  { simpl. destruct data as [|x data]; [done|].
    assert (x.1.1 ∈ uniques) as Hx by (apply Hin; left; unfold heads; simpl; constructor).
    destruct uniques; [by apply elem_of_nil in Hx | simpl; lia]. }
  destruct (sample_negatives_off_returns fuel self data mode fl_set
              (KGDataset.CandArr uniques) g Hoff Hn) as (neg_ents & g' & Hneg & Hrows).
  rewrite (mbind_step _ _ _ _ _ Hneg).
  destruct (reindex_batch_returns uniques (heads data) (rels data) (tails data)
              neg_ents mode (KGDataset._num_negs self)) as (out & Hout).
  - unfold heads. by destruct data.
  - unfold tails. by destruct data.
  - apply Forall2_length in Hrows. destruct data, neg_ents; done.
  - done.
  - apply Forall_forall. auto.
  - apply Forall_forall. auto.
  - apply (Forall2_Forall_r _ _ _ _ Hrows). apply Forall_true.
    intros x row [Hlen Hdom]. done.
  - unfold lift. rewrite Hout. eauto.
Qed.

(** X5. In "batch" mode the candidate pool is the batch itself. A
    collation that returns has as vocabulary the sorted distinct heads and
    tails of the batch, at most [2B] ids, whatever was drawn; and every
    negative it returns stands for a head or a tail of the batch. Without
    a filter lookup the collation of a non-empty batch returns, provided
    [num_negs] is positive. *)
Theorem batch_mode_pool `{RandomState} fuel self data mode fl_set g :
  KGDataset._neg_mode self = "batch" →
  (∀ h r t negs all_ents label g',
     KGDataset._collate_fn fuel self data mode fl_set g
       = (Ret ((h, r, t, negs), all_ents, label), g') →
     all_ents = np_unique (heads data ++ tails data)
     ∧ length all_ents ≤ 2 * length data
     ∧ Forall (Forall (λ y, ∃ x, np_getitem all_ents y = Ret x
                                 ∧ (x ∈ heads data ∨ x ∈ tails data))) negs)
  ∧ (data ≠ [] → 0 < KGDataset._num_negs self →
     fl_set = None ∨ fl_set = Some ∅ →
     ∃ out g', KGDataset._collate_fn fuel self data mode fl_set g = (Ret out, g')).
Proof.
  intros Hbatch. split; [|by apply collate_batch_off_returns].
  intros h r t negs all_ents label g'
    (cand & neg_ents & _ & _ & Hneg & Hvoc & _ & _ & Hrows)%collate_parts.
  destruct Hvoc as [(_ & -> & Hvoc) | (Hfull & _)]; [|congruence].
  split; [done|]. split.
  - rewrite Hvoc. etrans; [apply np_unique_length|].
    rewrite length_app. unfold heads, tails. rewrite !length_map. lia.
  - apply sample_negatives_Ret in Hneg. apply omap_Ret_Forall2 in Hrows.
    assert (Forall2 (λ (x : Z * Z * Z) row,
                       Forall (λ y, ∃ x, np_getitem all_ents y = Ret x
                                         ∧ (x ∈ heads data ∨ x ∈ tails data)) row)
                    data negs) as Hall.
    { eapply Forall2_chain; [|exact Hneg|exact Hrows]. simpl.
      intros x raw row (_ & Hdom & _) Hrow%reindex_func_Ret.
      apply Forall_forall. intros y [j Hj]%list_elem_of_lookup_1.
      destruct (Forall2_lookup_r _ _ _ _ _ Hrow Hj) as (x0 & Hx0 & Hback).
      exists x0. split; [done|].
      rewrite Forall_forall in Hdom.
      assert (x0 ∈ all_ents) as Hx by (apply Hdom; by eapply list_elem_of_lookup_2).
      rewrite Hvoc in Hx. apply (proj1 (np_unique_elem_of _ _)) in Hx.
      by apply elem_of_app. }
    apply (Forall2_Forall_r _ _ _ _ Hall). apply Forall_true. by intros.
Qed.

Lemma batch_mode_pool_witness :
  ∃ out g',
    KGDataset._collate_fn (H := cycle_rng) 0 ds_batch [(0, 0, 1); (2, 0, 3)]%Z
      "tail" None 3%Z = (Ret out, g').
Proof.
  apply (batch_mode_pool (H := cycle_rng) 0 ds_batch [(0, 0, 1); (2, 0, 3)]%Z
           "tail" None 3%Z); [reflexivity | discriminate | simpl; lia | by left].
Defined.

(** X3. Tail corruption reads the filter lookup stored under ["tail"], at
    the key (head, relation) of each triplet. When the value found there
    is an array of ids (not a Python [set], of which no member is compared
    with) and [tail_collate_fn] returns, its label is "tail" and no
    negative of the triplet stands for an entity of that array. *)
Theorem tail_corruption_filtered `{RandomState} fuel self data d g
    h r t negs all_ents label g' :
  KGDataset._filter_dict self !! "tail" = Some (Some d) →
  KGDataset.tail_collate_fn fuel self data g
    = (Ret ((h, r, t, negs), all_ents, label), g') →
  label = "tail"
  ∧ Forall2 (λ x row, ∀ fs, d !! (x.1.1, x.1.2) = Some (FilterArr fs) →
                            Forall (denotes_outside all_ents fs) row) data negs.
Proof.
  intros Hd Hrun. unfold KGDataset.tail_collate_fn, KGDataset.side_filter in Hrun.
  apply mbind_lift_Ret in Hrun as (fl_set & Hside & Hrun).
  unfold dict_getitem in Hside. rewrite Hd in Hside. injection Hside as <-.
  apply collate_respects_filter in Hrun as [-> Hrows]. split; [done|].
  eapply Forall2_impl; [exact Hrows|]. simpl. intros x row Hrow fs Hfs.
  exact (Hrow _ Hfs).
Qed.

Lemma tail_corruption_filtered_witness :
  "tail" = "tail"
  ∧ Forall2 (λ x row, ∀ fs, ({[ (0, 0)%Z := FilterArr [1%Z] ]} : KGDataset.filter_map)
                              !! (x.1.1, x.1.2) = Some (FilterArr fs) →
                            Forall (denotes_outside [0; 1; 2]%Z fs) row)
            [(0, 0, 1)%Z] [[0; 2]%Z].
Proof.
  apply (tail_corruption_filtered (H := cycle_rng) 5 ds_head_filter [(0, 0, 1)%Z]
           {[ (0, 0)%Z := FilterArr [1%Z] ]} 0%Z [0%Z] [0%Z] [1%Z] [[0; 2]%Z]
           [0; 1; 2]%Z "tail" 4%Z).
  - reflexivity.
  - vm_compute. reflexivity.
Defined.

(** X18. Head corruption reads the filter lookup stored under ["head"], at
    the key (tail, relation) of each triplet; the lookup under ["tail"] is
    not read. When the value found there is an array of ids (not a Python
    [set]) and [head_collate_fn] returns, its label is "head" and no
    negative of the triplet stands for an entity of that array: with
    [filter_dict['head'][(1, 0)]] the array [[0]], the negatives sampled
    for the triplet [(0, 0, 1)] never stand for entity [0]. *)
Theorem head_corruption_array_filtered `{RandomState} fuel self data d g
    h r t negs all_ents label g' :
  KGDataset._filter_dict self !! "head" = Some (Some d) →
  KGDataset.head_collate_fn fuel self data g
    = (Ret ((h, r, t, negs), all_ents, label), g') →
  label = "head"
  ∧ Forall2 (λ x row, ∀ fs, d !! (x.2, x.1.2) = Some (FilterArr fs) →
                            Forall (denotes_outside all_ents fs) row) data negs.
Proof.
  intros Hd Hrun. unfold KGDataset.head_collate_fn, KGDataset.side_filter in Hrun.
  apply mbind_lift_Ret in Hrun as (fl_set & Hside & Hrun).
  unfold dict_getitem in Hside. rewrite Hd in Hside. injection Hside as <-.
  apply collate_respects_filter in Hrun as [-> Hrows]. split; [done|].
  eapply Forall2_impl; [exact Hrows|]. simpl. intros x row Hrow fs Hfs.
  exact (Hrow _ Hfs).
Qed.

Lemma head_corruption_array_filtered_witness :
  "head" = "head"
  ∧ Forall2 (λ x row, ∀ fs, ({[ (1, 0)%Z := FilterArr [0%Z] ]} : KGDataset.filter_map)
                              !! (x.2, x.1.2) = Some (FilterArr fs) →
                            Forall (denotes_outside [0; 1; 2]%Z fs) row)
            [(0, 0, 1)%Z] [[1; 2]%Z].
Proof.
  apply (head_corruption_array_filtered (H := cycle_rng) 5 ds_head_filter [(0, 0, 1)%Z]
           {[ (1, 0)%Z := FilterArr [0%Z] ]} 0%Z [0%Z] [0%Z] [1%Z] [[1; 2]%Z]
           [0; 1; 2]%Z "head" 4%Z).
  - reflexivity.
  - vm_compute. reflexivity.
Defined.

Lemma sample_negatives_off_any_mode `{RandomState} fuel self data mode mode' fl_set cand g :
  fl_set = None ∨ fl_set = Some ∅ →
  KGDataset.sample_negatives fuel self data mode fl_set cand g
  = KGDataset.sample_negatives fuel self data mode' fl_set cand g.
Proof.
  intros Hoff. rewrite !sample_negatives_unfold. apply mmap_ext. intros x g0.
  by rewrite !(filter_for_off _ _ Hoff).
Qed.

Lemma reindex_batch_relabel reindex_func h r t neg_ents all_ents mode mode' :
  KGDataset.reindex_batch reindex_func h r t neg_ents all_ents mode'
  = with_label mode' (KGDataset.reindex_batch reindex_func h r t neg_ents all_ents mode).
Proof.
  unfold KGDataset.reindex_batch.
  destruct (reindex_func h) as [h'| |]; [|done..]. simpl.
  destruct (reindex_func t) as [t'| |]; [|done..]. simpl.
  destruct (omap reindex_func neg_ents) as [rows| |]; [|done..]. simpl.
  by destruct (np_stack rows) as [rows'| |].
Qed.

(** Without a filter lookup the corruption side only labels the batch. *)
Lemma collate_off_relabel `{RandomState} fuel self data mode mode' fl_set g :
  fl_set = None ∨ fl_set = Some ∅ →
  KGDataset._collate_fn fuel self data mode' fl_set g
  = (with_label mode' (KGDataset._collate_fn fuel self data mode fl_set g).1,
     (KGDataset._collate_fn fuel self data mode fl_set g).2).
Proof.
  intros Hoff. unfold KGDataset._collate_fn, mbind, lift.
  destruct (KGDataset.unpack_columns data) as [[[h r] t]| |]; [|done..].
  destruct (String.eqb (KGDataset._neg_mode self) "batch").
  - destruct (KGDataset.group_index [h; t]) as [[reindex_func all_ents]| |]; [|done..].
    rewrite (sample_negatives_off_any_mode _ _ _ mode' mode _ _ _ Hoff).
    destruct (KGDataset.sample_negatives fuel self data mode fl_set
                (KGDataset.CandArr all_ents) g) as [[neg_ents| |] g1]; [|done..].
    simpl. by rewrite (reindex_batch_relabel _ _ _ _ _ _ mode mode').
  - destruct (String.eqb (KGDataset._neg_mode self) "full"); [|done].
    rewrite (sample_negatives_off_any_mode _ _ _ mode' mode _ _ _ Hoff).
    destruct (KGDataset.sample_negatives fuel self data mode fl_set
                (KGDataset.CandInt (KGDataset._num_ents self)) g)
      as [[neg_ents| |] g1]; [|done..].
    destruct (np_concatenate neg_ents) as [negs| |]; [|done..].
    destruct (KGDataset.group_index [h; t; negs]) as [[reindex_func all_ents]| |];
      [|done..].
    simpl. by rewrite (reindex_batch_relabel _ _ _ _ _ _ mode mode').
Qed.

(** What [__init__] leaves in the dataset it returns. *)
Lemma init_fields triplets num_ents num_negs neg_mode filter_mode filter_dict self :
  KGDataset.__init__ triplets num_ents num_negs neg_mode filter_mode filter_dict = Ret self →
  KGDataset._neg_mode self = neg_mode
  ∧ KGDataset._num_negs self = num_negs
  ∧ KGDataset._num_ents self = num_ents
  ∧ KGDataset._triplets self = triplets
  ∧ (if filter_mode then Some (KGDataset._filter_dict self) = filter_dict
     else KGDataset._filter_dict self = <["tail" := None]> (<["head" := None]> ∅))
  ∧ is_Some (KGDataset._filter_dict self !! "head")
  ∧ is_Some (KGDataset._filter_dict self !! "tail").
Proof.
  unfold KGDataset.__init__. destruct filter_mode; simpl.
  - destruct filter_dict as [fd|]; [|done].
    case_bool_decide as Hh; simpl; [|done]. case_bool_decide as Ht; simpl; [|done].
    intros [= <-]. simpl. done.
  - intros [= <-]. simpl. repeat split; by eexists.
Qed.

Lemma side_collate `{RandomState} fuel self data g fh ft :
  KGDataset._filter_dict self !! "head" = Some fh →
  KGDataset._filter_dict self !! "tail" = Some ft →
  KGDataset.head_collate_fn fuel self data g
    = KGDataset._collate_fn fuel self data "head" fh g
  ∧ KGDataset.tail_collate_fn fuel self data g
    = KGDataset._collate_fn fuel self data "tail" ft g.
Proof.
  intros Hh Ht.
  unfold KGDataset.head_collate_fn, KGDataset.tail_collate_fn, KGDataset.side_filter,
    dict_getitem.
  rewrite Hh, Ht. done.
Qed.

(** X9. On a dataset built with [filter_mode] false the corruption side
    changes nothing but the label: from the same random state
    [tail_collate_fn] gives the outcome of [head_collate_fn] with the
    label "tail" in place of "head", and leaves the same random state. *)
Theorem unfiltered_side_only_labels `{RandomState}
    triplets num_ents num_negs neg_mode filter_dict self fuel data g :
  KGDataset.__init__ triplets num_ents num_negs neg_mode false filter_dict = Ret self →
  KGDataset.tail_collate_fn fuel self data g
  = (with_label "tail" (KGDataset.head_collate_fn fuel self data g).1,
     (KGDataset.head_collate_fn fuel self data g).2).
Proof.
  intros (_ & _ & _ & _ & Hfd & _)%init_fields.
  destruct (side_collate fuel self data g None None) as [-> ->];
    [by rewrite Hfd | by rewrite Hfd |].
  apply collate_off_relabel. by left.
Qed.

Lemma unfiltered_side_only_labels_witness :
  KGDataset.tail_collate_fn (H := cycle_rng) 0 ds_batch [(0, 0, 1); (2, 0, 3)]%Z 0%Z
  = (with_label "tail"
       (KGDataset.head_collate_fn (H := cycle_rng) 0 ds_batch
          [(0, 0, 1); (2, 0, 3)]%Z 0%Z).1,
     (KGDataset.head_collate_fn (H := cycle_rng) 0 ds_batch
        [(0, 0, 1); (2, 0, 3)]%Z 0%Z).2).
Proof.
  apply (unfiltered_side_only_labels (H := cycle_rng) [(0, 0, 1); (2, 0, 3)]%Z 4 2
           "batch" None ds_batch 0 [(0, 0, 1); (2, 0, 3)]%Z 0%Z).
  reflexivity.
Defined.

Lemma collate_unsupported_mode `{RandomState} fuel self data mode fl_set g :
  KGDataset._neg_mode self ≠ "batch" → KGDataset._neg_mode self ≠ "full" →
  KGDataset._collate_fn fuel self data mode fl_set g = (Raise ValueError, g).
Proof.
  intros Hb Hf. unfold KGDataset._collate_fn, mbind, lift.
  destruct (KGDataset.unpack_columns data) as [[[h r] t]| |] eqn:Hcols.
  - destruct (String.eqb_spec (KGDataset._neg_mode self) "batch"); [done|].
    by destruct (String.eqb_spec (KGDataset._neg_mode self) "full").
  - unfold KGDataset.unpack_columns in Hcols.
    destruct data; [by injection Hcols as <- | done].
  - unfold KGDataset.unpack_columns in Hcols. by destruct data.
Qed.

(** X6. [__init__] does not look at [neg_mode]: a dataset with a mode other
    than "batch" and "full" is built without complaint, and the mistake
    shows at collation time only. Every head, tail or mixed collation of
    such a dataset raises [ValueError], on any batch, before anything is
    drawn. *)
Theorem unsupported_neg_mode_surfaces_late `{RandomState}
    triplets num_ents num_negs neg_mode filter_mode filter_dict self fuel data g :
  KGDataset.__init__ triplets num_ents num_negs neg_mode filter_mode filter_dict = Ret self →
  neg_mode ≠ "batch" → neg_mode ≠ "full" →
  KGDataset.head_collate_fn fuel self data g = (Raise ValueError, g)
  ∧ KGDataset.tail_collate_fn fuel self data g = (Raise ValueError, g)
  ∧ (KGDataset.mixed_collate_fn fuel self data).2 g = (Raise ValueError, g).
Proof.
  intros (Hmode & _ & _ & _ & _ & [fh Hh] & [ft Ht])%init_fields Hb Hf.
  rewrite <- Hmode in Hb, Hf.
  destruct (side_collate fuel self data g fh ft Hh Ht) as [-> ->].
  split; [by apply collate_unsupported_mode|].
  split; [by apply collate_unsupported_mode|].
  simpl. unfold KGDataset.side_filter, dict_getitem. simpl. rewrite Hh, Ht.
  destruct (_ =? 0)%Z; by apply collate_unsupported_mode.
Qed.

Lemma unsupported_neg_mode_surfaces_late_witness :
  KGDataset.head_collate_fn (H := cycle_rng) 3 (KGDataset.Build_t [(0, 0, 1)]%Z 4 2 "all"
      false (<["tail" := None]> (<["head" := None]> ∅)) 0) [(0, 0, 1)]%Z 0%Z
    = (Raise ValueError, 0%Z)
  ∧ KGDataset.tail_collate_fn (H := cycle_rng) 3 (KGDataset.Build_t [(0, 0, 1)]%Z 4 2 "all"
      false (<["tail" := None]> (<["head" := None]> ∅)) 0) [(0, 0, 1)]%Z 0%Z
    = (Raise ValueError, 0%Z)
  ∧ (KGDataset.mixed_collate_fn (H := cycle_rng) 3 (KGDataset.Build_t [(0, 0, 1)]%Z 4 2
      "all" false (<["tail" := None]> (<["head" := None]> ∅)) 0) [(0, 0, 1)]%Z).2 0%Z
    = (Raise ValueError, 0%Z).
Proof.
  apply (unsupported_neg_mode_surfaces_late (H := cycle_rng) [(0, 0, 1)]%Z 4 2 "all"
           false None); [reflexivity | discriminate | discriminate].
Defined.

(** X2. With [filter_mode] true, [__init__] returns exactly when the
    filter dictionary is given and has both a "head" and a "tail" entry;
    otherwise it fails with [AssertionError]. The dictionary is stored as
    it is, the call counter starts at 0, and the head and tail collations
    of the dataset then run [_collate_fn] with the dictionary's own
    entries, so their first lookup cannot fail. *)
Theorem init_with_filter `{RandomState} triplets num_ents num_negs neg_mode filter_dict :
  (∀ fd fh ft,
     filter_dict = Some fd → fd !! "head" = Some fh → fd !! "tail" = Some ft →
     ∃ self,
       KGDataset.__init__ triplets num_ents num_negs neg_mode true filter_dict = Ret self
       ∧ KGDataset._filter_dict self = fd
       ∧ KGDataset._step self = 0%Z
       ∧ ∀ fuel data g,
           KGDataset.head_collate_fn fuel self data g
             = KGDataset._collate_fn fuel self data "head" fh g
           ∧ KGDataset.tail_collate_fn fuel self data g
             = KGDataset._collate_fn fuel self data "tail" ft g)
  ∧ (filter_dict = None
     ∨ (∃ fd, filter_dict = Some fd ∧ (fd !! "head" = None ∨ fd !! "tail" = None)) →
     KGDataset.__init__ triplets num_ents num_negs neg_mode true filter_dict
     = Raise AssertionError).
Proof.
  split.
  - intros fd fh ft -> Hh Ht. unfold KGDataset.__init__. simpl.
    rewrite !bool_decide_eq_true_2 by (by eexists). simpl.
    eexists. split; [done|]. split; [done|]. split; [done|].
    intros fuel data g. by apply side_collate.
  - intros [-> | (fd & -> & [Hh | Ht])]; unfold KGDataset.__init__; simpl; [done | |].
    + rewrite (bool_decide_eq_false_2 (is_Some (fd !! "head")));
        [done | rewrite Hh; by intros [? ?]].
    + destruct (bool_decide (is_Some (fd !! "head"))); simpl; [|done].
      rewrite (bool_decide_eq_false_2 (is_Some (fd !! "tail")));
        [done | rewrite Ht; by intros [? ?]].
Qed.

Lemma collate_empty_filter `{RandomState} fuel self data mode g :
  KGDataset._collate_fn fuel self data mode (Some ∅) g
  = KGDataset._collate_fn fuel self data mode None g.
Proof.
  assert (∀ cand g0,
            KGDataset.sample_negatives fuel self data mode (Some ∅) cand g0
            = KGDataset.sample_negatives fuel self data mode None cand g0) as Hsame.
  { intros cand g0. rewrite !sample_negatives_unfold. apply mmap_ext. intros x g1.
    rewrite (filter_for_off (Some ∅)) by (by right).
    by rewrite (filter_for_off None) by (by left). }
  unfold KGDataset._collate_fn, mbind, lift.
  destruct (KGDataset.unpack_columns data) as [[[h r] t]| |]; [|done..].
  destruct (String.eqb (KGDataset._neg_mode self) "batch").
  - destruct (KGDataset.group_index [h; t]) as [[reindex_func all_ents]| |]; [|done..].
    by rewrite Hsame.
  - destruct (String.eqb (KGDataset._neg_mode self) "full"); [|done]. by rewrite Hsame.
Qed.

Lemma sample_negatives_missing_key `{RandomState} (fuel : nat) (self : KGDataset.t)
    (x : Z * Z * Z) (rest : list (Z * Z * Z)) (mode : string)
    (d : KGDataset.filter_map) (cand : KGDataset.cand_t) (g : rng) :
  d ≠ ∅ → d !! filter_key mode x = None →
  KGDataset.sample_negatives fuel self (x :: rest) mode (Some d) cand g
  = (Raise KeyError, g).
Proof.
  intros Hd Hkey. rewrite sample_negatives_unfold. simpl.
  unfold mbind at 1. unfold mbind at 1. unfold lift, KGDataset.filter_for, dict_getitem.
  rewrite bool_decide_eq_false_2 by done. by rewrite Hkey.
Qed.

(** X8. The filter lookup at its edges. An empty lookup counts as no
    lookup: the collation under [{}] is the collation under [None]. A
    lookup that is not empty must know the key of every triplet: if the
    key of the first triplet is missing, the collation (in "batch" or
    "full" mode) raises [KeyError] before anything is drawn. *)
Theorem filter_lookup_edges `{RandomState} fuel self data mode g :
  KGDataset._collate_fn fuel self data mode (Some ∅) g
  = KGDataset._collate_fn fuel self data mode None g
  ∧ ∀ (d : KGDataset.filter_map) x rest,
      data = x :: rest → d ≠ ∅ → d !! filter_key mode x = None →
      KGDataset._neg_mode self = "batch" ∨ KGDataset._neg_mode self = "full" →
      KGDataset._collate_fn fuel self data mode (Some d) g = (Raise KeyError, g).
Proof.
  split; [apply collate_empty_filter|].
  intros d x rest -> Hd Hkey Hmode. unfold KGDataset._collate_fn.
  assert (KGDataset.unpack_columns (x :: rest)
          = Ret (heads (x :: rest), rels (x :: rest), tails (x :: rest))) as Hcols by done.
  rewrite (mbind_lift_step _ _ _ _ Hcols). cbv beta iota. destruct Hmode as [-> | ->].
  - change (String.eqb "batch" "batch") with true. cbv iota.
    rewrite (mbind_lift_step _ _ _ _
               (group_index_unfold [heads (x :: rest); tails (x :: rest)] ltac:(done))).
    cbv beta iota zeta. unfold mbind.
    by rewrite (sample_negatives_missing_key _ _ _ _ _ _ _ _ Hd Hkey).
  - change (String.eqb "full" "batch") with false.
    change (String.eqb "full" "full") with true. cbv iota zeta. unfold mbind at 1.
    by rewrite (sample_negatives_missing_key _ _ _ _ _ _ _ _ Hd Hkey).
Qed.

Lemma filter_lookup_edges_witness :
  KGDataset._collate_fn (H := cycle_rng) 4 ds_head_filter [(3, 0, 2)]%Z "head"
    (Some {[ (1, 0)%Z := FilterArr [0%Z] ]}) 0%Z
  = (Raise KeyError, 0%Z).
Proof.
  apply (filter_lookup_edges (H := cycle_rng) 4 ds_head_filter [(3, 0, 2)]%Z "head" 0%Z)
    with (x := (3, 0, 2)%Z) (rest := []); [done | | done | by right].
  intros Hempty. apply (f_equal (λ m : KGDataset.filter_map, m !! (1, 0)%Z)) in Hempty.
  vm_compute in Hempty. discriminate.
Defined.

(** With nothing to sample, a sampler call returns the empty array or
    fails; it never loops. *)
Lemma uniform_sampler_zero `{RandomState} fuel cand fl_set_i g :
  KGDataset.uniform_sampler fuel 0 cand fl_set_i g
  = (match fl_set_i with Some _ => Raise ValueError | None => Ret [] end, g).
Proof.
  unfold KGDataset.uniform_sampler. destruct fl_set_i as [fs|].
  - rewrite sampler_loop_exit by lia. done.
  - unfold mbind, np_random_randint, lift. simpl. by destruct cand.
Qed.

Lemma mbind_Raise `{RandomState} {A B} (m : M A) (k : A → M B) g e g' :
  m g = (Raise e, g') → mbind m k g = (Raise e, g').
Proof. unfold mbind. by intros ->. Qed.

Lemma sample_negatives_zero `{RandomState} fuel self data mode fl_set cand g :
  KGDataset._num_negs self = 0 →
  ∃ g', KGDataset.sample_negatives fuel self data mode fl_set cand g = (Raise KeyError, g')
        ∨ KGDataset.sample_negatives fuel self data mode fl_set cand g
          = (Raise ValueError, g')
        ∨ KGDataset.sample_negatives fuel self data mode fl_set cand g
          = (Ret (replicate (length data) []), g').
Proof.
  intros Hk. rewrite sample_negatives_unfold, Hk.
  set (f := λ x : Z * Z * Z,
              let* fl_set_i := lift (KGDataset.filter_for fl_set (filter_key mode x)) in
              KGDataset.uniform_sampler fuel 0 cand fl_set_i).
  assert (∀ x g0, f x g0 = (Raise KeyError, g0) ∨ f x g0 = (Raise ValueError, g0)
                  ∨ f x g0 = (Ret [], g0)) as Hf.
  { intros x g0.
    assert (f x g0 = match KGDataset.filter_for fl_set (filter_key mode x) with
                     | Ret o => KGDataset.uniform_sampler fuel 0 cand o g0
                     | Raise e => (Raise e, g0)
                     | Spin => (Spin, g0)
                     end) as -> by done.
    destruct (KGDataset.filter_for fl_set (filter_key mode x)) as [o|e|] eqn:Hfl.
    - rewrite uniform_sampler_zero. destruct o; simpl; auto.
    - left. f_equal. f_equal. unfold KGDataset.filter_for, dict_getitem in Hfl.
      destruct fl_set as [d|]; [|done]. destruct (bool_decide (d = ∅)); [done|].
      destruct (d !! filter_key mode x); simpl in Hfl; congruence.
    - unfold KGDataset.filter_for, dict_getitem in Hfl.
      destruct fl_set as [d|]; [|done]. destruct (bool_decide (d = ∅)); [done|].
      by destruct (d !! filter_key mode x). }
  revert g. induction data as [|x data IH]; intros g.
  - exists g. right; right. done.
  - change (mmap f (x :: data))
      with (let* y := f x in let* ys := mmap f data in mret (y :: ys)).
    destruct (Hf x g) as [Hx | [Hx | Hx]].
    + exists g. left. by apply mbind_Raise.
    + exists g. right; left. by apply mbind_Raise.
    + rewrite (mbind_step _ _ _ _ _ Hx).
      destruct (IH g) as (g' & [Hrun | [Hrun | Hrun]]); exists g'.
      * left. by apply mbind_Raise.
      * right; left. by apply mbind_Raise.
      * right; right. by rewrite (mbind_step _ _ _ _ _ Hrun).
Qed.

Lemma reindex_batch_empty_rows uniques h r t (n : nat) mode :
  0 < n →
  ∃ e, KGDataset.reindex_batch
         (np_vectorize (λ x, dict_getitem (KGDataset.reindex_dict uniques) x))
         h r t (replicate n []) uniques mode = Raise e
       ∧ (e = ValueError ∨ e = KeyError).
Proof.
  intros Hn. destruct n as [|n]; [lia|]. unfold KGDataset.reindex_batch.
  assert (∀ xs, (∃ ys, np_vectorize (λ x, dict_getitem (KGDataset.reindex_dict uniques) x) xs
                        = Ret ys)
                ∨ np_vectorize (λ x, dict_getitem (KGDataset.reindex_dict uniques) x) xs
                  = Raise ValueError
                ∨ np_vectorize (λ x, dict_getitem (KGDataset.reindex_dict uniques) x) xs
                  = Raise KeyError) as Hcases.
  { intros xs. destruct xs as [|x xs]; [by right; left|].
    destruct (decide (Forall (λ y, y ∈ uniques) (x :: xs))) as [Hall | Hnot].
    - left. destruct (reindex_func_known uniques (x :: xs)) as (ys & Hys & _); eauto.
    - right; right. apply not_Forall_Exists in Hnot; [|intros y; apply _].
      change (omap (λ y, dict_getitem (KGDataset.reindex_dict uniques) y) (x :: xs)
              = Raise KeyError).
      apply omap_Raise.
      + apply Forall_forall. intros y _.
        destruct (decide (y ∈ uniques)) as [Hin | Hout].
        * right. destruct (reindex_one _ _ Hin) as (i & Hi & _). eauto.
        * left. by apply reindex_absent.
      + eapply Exists_impl; [exact Hnot|]. intros y Hy. by apply reindex_absent. }
  destruct (Hcases h) as [[h' ->] | [-> | ->]]; [|eauto..]. simpl.
  destruct (Hcases t) as [[t' ->] | [-> | ->]]; [|eauto..]. simpl. eauto.
Qed.

(** X7. A dataset with [num_negs = 0] cannot be collated: whatever the
    batch, the mode, the filter lookup and the random state, [_collate_fn]
    ends in [ValueError] or [KeyError]; it neither returns nor loops. *)
Theorem collate_without_negatives_raises `{RandomState} fuel self data mode fl_set g :
  KGDataset._num_negs self = 0 →
  ∃ e g', KGDataset._collate_fn fuel self data mode fl_set g = (Raise e, g')
          ∧ (e = ValueError ∨ e = KeyError).
Proof.
  intros Hk. unfold KGDataset._collate_fn.
  destruct data as [|x0 data0] eqn:Hdata; [by exists ValueError, g; split; [|left]|].
  rewrite <- Hdata.
  assert (KGDataset.unpack_columns data = Ret (heads data, rels data, tails data)) as Hcols
    by (by subst data).
  assert (0 < length data) as Hlen by (subst data; simpl; lia).
  rewrite (mbind_lift_step _ _ _ _ Hcols). cbv beta iota.
  destruct (String.eqb (KGDataset._neg_mode self) "batch").
  - rewrite (mbind_lift_step _ _ _ _
               (group_index_unfold [heads data; tails data] ltac:(done))).
    cbv beta iota zeta.
    destruct (sample_negatives_zero fuel self data mode fl_set
                (KGDataset.CandArr (np_unique (concat [heads data; tails data]))) g Hk)
      as (g' & [Hrun | [Hrun | Hrun]]); unfold mbind at 1; rewrite Hrun.
    + exists KeyError, g'. split; [done | by right].
    + exists ValueError, g'. split; [done | by left].
    + destruct (reindex_batch_empty_rows
                  (np_unique (concat [heads data; tails data]))
                  (heads data) (rels data) (tails data) (length data) mode Hlen)
        as (e & He & Hwhich).
      exists e, g'. unfold lift. by rewrite He.
  - destruct (String.eqb (KGDataset._neg_mode self) "full");
      [|by exists ValueError, g; split; [|left]].
    cbv zeta.
    destruct (sample_negatives_zero fuel self data mode fl_set
                (KGDataset.CandInt (KGDataset._num_ents self)) g Hk)
      as (g' & [Hrun | [Hrun | Hrun]]); unfold mbind at 1; rewrite Hrun.
    + exists KeyError, g'. split; [done | by right].
    + exists ValueError, g'. split; [done | by left].
    + assert (np_concatenate (replicate (length data) ([] : list Z))
              = Ret (concat (replicate (length data) []))) as Hcat
        by (destruct (length data); [lia | done]).
      rewrite (mbind_lift_step _ _ _ _ Hcat).
      rewrite (mbind_lift_step _ _ _ _
                 (group_index_unfold
                    [heads data; tails data; concat (replicate (length data) [])]
                    ltac:(done))).
      cbv beta iota.
      destruct (reindex_batch_empty_rows
                  (np_unique (concat [heads data; tails data;
                                      concat (replicate (length data) [])]))
                  (heads data) (rels data) (tails data) (length data) mode Hlen)
        as (e & He & Hwhich).
      exists e, g'. unfold lift. by rewrite He.
Qed.

Lemma collate_without_negatives_raises_witness :
  ∃ e g',
    KGDataset._collate_fn (H := cycle_rng) 2
      (KGDataset.Build_t [(0, 0, 1)]%Z 4 0 "full" false
         (<["tail" := None]> (<["head" := None]> ∅)) 0)
      [(0, 0, 1)]%Z "head" None 0%Z = (Raise e, g')
    ∧ (e = ValueError ∨ e = KeyError).
Proof.
  apply (collate_without_negatives_raises (H := cycle_rng) 2
           (KGDataset.Build_t [(0, 0, 1)]%Z 4 0 "full" false
              (<["tail" := None]> (<["head" := None]> ∅)) 0)).
  reflexivity.
Defined.

(** ** More on the evaluation dataset *)

Lemma cand_getitem_rows rows index :
  TestKGDataset.cand_getitem (TestKGDataset.CandRows rows) index
  = let! row := list_getitem rows index in Ret (TestKGDataset.CandRow row).
Proof.
  unfold TestKGDataset.cand_getitem, list_getitem.
  destruct (_ && _); [|done]. by destruct (rows !! _).
Qed.

(** A column that counts as true has entries. *)
Lemma corr_truth_true corr_idx :
  TestKGDataset.corr_truth corr_idx = Ret true →
  ∃ c, corr_idx = Some c ∧ TestKGDataset.corr_entries c ≠ [].
Proof.
  destruct corr_idx as [[[|x l] | c [|x cs]]|]; simpl; try done.
  - intros _. by eexists.
  - intros _. by eexists.
Qed.

Lemma corr_truth_Raise corr_idx e :
  TestKGDataset.corr_truth corr_idx = Raise e → e = ValueError.
Proof.
  destruct corr_idx as [[[|x l] | c [|x cs]]|]; simpl; try done. by intros [= <-].
Qed.

Lemma test_getitem_at (self : TestKGDataset.t) (i : nat) :
  aligned self → i < TestKGDataset.__len__ self →
  ∃ h r cand,
    TestKGDataset._h self !! i = Some h
    ∧ TestKGDataset._r self !! i = Some r
    ∧ (if String.eqb (TestKGDataset._mode self) "normal"
       then cand = TestKGDataset._cand self
       else ∃ rows row, TestKGDataset._cand self = TestKGDataset.CandRows rows
                        ∧ rows !! i = Some row ∧ cand = TestKGDataset.CandRow row)
    ∧ TestKGDataset.__getitem__ self (Z.of_nat i)
      = let! truth := TestKGDataset.corr_truth (TestKGDataset._corr_idx self) in
        Ret ((h, r, TestKGDataset._t self ≫= (λ ts, ts !! i)), cand,
             if truth
             then TestKGDataset._corr_idx self
                  ≫= (λ c, TestKGDataset.corr_entries c !! i)
             else None).
Proof.
  intros (Hh & Ht & Hcand & Hcorr) Hi. unfold TestKGDataset.__len__ in Hi.
  destruct (lookup_lt_is_Some_2 (TestKGDataset._h self) i) as [h Hhi]; [lia|].
  destruct (lookup_lt_is_Some_2 (TestKGDataset._r self) i) as [r Hri]; [lia|].
  unfold TestKGDataset.__getitem__.
  rewrite (np_getitem_lookup _ _ _ Hhi), (np_getitem_lookup _ _ _ Hri). simpl.
  assert (∃ t, match TestKGDataset._t self with
               | Some ts => let! x := np_getitem ts (Z.of_nat i) in Ret (Some x)
               | None => Ret None
               end = Ret t ∧ t = TestKGDataset._t self ≫= (λ ts, ts !! i)) as (t & -> & ->).
  { destruct (TestKGDataset._t self) as [ts|] eqn:Hts; [|by eexists].
    destruct (lookup_lt_is_Some_2 ts i) as [x Hx]; [rewrite (Ht ts eq_refl); lia|].
    rewrite (np_getitem_lookup _ _ _ Hx). simpl. rewrite Hx. by eexists. }
  simpl.
  assert (∀ cand : TestKGDataset.cand_t,
            (let! truth := TestKGDataset.corr_truth (TestKGDataset._corr_idx self) in
             let! corr_idx :=
               match TestKGDataset._corr_idx self with
               | Some c =>
                   if truth
                   then let! x := np_getitem (TestKGDataset.corr_entries c) (Z.of_nat i) in
                        Ret (Some x)
                   else Ret None
               | None => Ret None
               end in
             Ret ((h, r, TestKGDataset._t self ≫= (λ ts, ts !! i)), cand, corr_idx))
            = let! truth := TestKGDataset.corr_truth (TestKGDataset._corr_idx self) in
              Ret ((h, r, TestKGDataset._t self ≫= (λ ts, ts !! i)), cand,
                   if truth
                   then TestKGDataset._corr_idx self
                        ≫= (λ c, TestKGDataset.corr_entries c !! i)
                   else None)) as Hcorr_eq.
  { intros cand.
    destruct (TestKGDataset.corr_truth (TestKGDataset._corr_idx self))
      as [[|]| |] eqn:Htruth; [| |done..]; simpl.
    - apply corr_truth_true in Htruth as (c & Hc & Hne). rewrite Hc. simpl.
      destruct (Hcorr c Hc) as [? | Hlen]; [done|].
      destruct (lookup_lt_is_Some_2 (TestKGDataset.corr_entries c) i) as [x Hx]; [lia|].
      by rewrite (np_getitem_lookup _ _ _ Hx), Hx.
    - by destruct (TestKGDataset._corr_idx self). }
  destruct (String.eqb_spec (TestKGDataset._mode self) "normal") as [Hmode | Hmode].
  - exists h, r, (TestKGDataset._cand self). simpl. by rewrite Hcorr_eq.
  - destruct (Hcand Hmode) as (rows & Hrows & Hlen).
    destruct (lookup_lt_is_Some_2 rows i) as [row Hrow]; [lia|].
    exists h, r, (TestKGDataset.CandRow row).
    rewrite Hrows, cand_getitem_rows, (list_getitem_lookup _ _ _ Hrow). simpl.
    rewrite Hcorr_eq. split; [done|]. split; [done|]. split; [|done].
    by exists rows, row.
Qed.

(** X15. [TestKGDataset.__len__] counts the relations. When the other
    columns have as many entries, [__getitem__] serves every index of
    [range(len(self))] with the head, relation and tail at that position,
    the shared candidate entry in "normal" mode or the candidate row of
    that position otherwise, and, provided [correct_index] counts as true
    in [if self._corr_idx:], the correct index of that position. A
    [correct_index] that is missing, an empty list or the one-entry array
    [[0]] counts as false and gives [None]; a numpy array of two or more
    entries has no truth value, and the item is not served: the call
    raises [ValueError]. When there are fewer heads than relations, an
    index below the length already raises [IndexError]. *)
Theorem test_dataset_indexing (self : TestKGDataset.t) :
  (aligned self →
   ∀ i : nat, i < TestKGDataset.__len__ self →
     ∃ h r cand,
       TestKGDataset._h self !! i = Some h
       ∧ TestKGDataset._r self !! i = Some r
       ∧ (if String.eqb (TestKGDataset._mode self) "normal"
          then cand = TestKGDataset._cand self
          else ∃ rows row, TestKGDataset._cand self = TestKGDataset.CandRows rows
                           ∧ rows !! i = Some row ∧ cand = TestKGDataset.CandRow row)
       ∧ TestKGDataset.__getitem__ self (Z.of_nat i)
         = match TestKGDataset._corr_idx self with
           | None | Some (TestKGDataset.CorrList []) =>
               Ret ((h, r, TestKGDataset._t self ≫= (λ ts, ts !! i)), cand, None)
           | Some (TestKGDataset.CorrList (c :: cs)) =>
               Ret ((h, r, TestKGDataset._t self ≫= (λ ts, ts !! i)), cand,
                    (c :: cs) !! i)
           | Some (TestKGDataset.CorrArr c []) =>
               Ret ((h, r, TestKGDataset._t self ≫= (λ ts, ts !! i)), cand,
                    if (c =? 0)%Z then None else [c] !! i)
           | Some (TestKGDataset.CorrArr _ (_ :: _)) => Raise ValueError
           end)
  ∧ (length (TestKGDataset._h self) < TestKGDataset.__len__ self →
     TestKGDataset.__getitem__ self (Z.of_nat (length (TestKGDataset._h self)))
     = Raise IndexError).
Proof.
  split.
  - intros Hal i Hi.
    destruct (test_getitem_at self i Hal Hi) as (h & r & cand & Hh & Hr & Hcand & Hitem).
    exists h, r, cand. split; [done|]. split; [done|]. split; [done|].
    rewrite Hitem.
    destruct (TestKGDataset._corr_idx self) as [[[|c cs] | c [|x cs]]|]; simpl; try done.
    by destruct (c =? 0)%Z.
  - intros _. unfold TestKGDataset.__getitem__, np_getitem.
    destruct (Z.leb_spec 0 (Z.of_nat (length (TestKGDataset._h self)))); [|lia].
    destruct (Z.ltb_spec (Z.of_nat (length (TestKGDataset._h self)))
                (Z.of_nat (length (TestKGDataset._h self)))); [lia|]. simpl.
    destruct (Z.leb_spec (- Z.of_nat (length (TestKGDataset._h self)))
                (Z.of_nat (length (TestKGDataset._h self)))); simpl; [|done].
    destruct (Z.ltb_spec (Z.of_nat (length (TestKGDataset._h self))) 0); [lia | done].
Qed.

Lemma test_dataset_indexing_witness :
  ∃ h r cand,
    TestKGDataset._h wiki_dataset !! 1 = Some h
    ∧ TestKGDataset._r wiki_dataset !! 1 = Some r
    ∧ (if String.eqb (TestKGDataset._mode wiki_dataset) "normal"
       then cand = TestKGDataset._cand wiki_dataset
       else ∃ rows row, TestKGDataset._cand wiki_dataset = TestKGDataset.CandRows rows
                        ∧ rows !! 1 = Some row ∧ cand = TestKGDataset.CandRow row)
    ∧ TestKGDataset.__getitem__ wiki_dataset (Z.of_nat 1)
      = match TestKGDataset._corr_idx wiki_dataset with
        | None | Some (TestKGDataset.CorrList []) =>
            Ret ((h, r, TestKGDataset._t wiki_dataset ≫= (λ ts, ts !! 1)), cand, None)
        | Some (TestKGDataset.CorrList (c :: cs)) =>
            Ret ((h, r, TestKGDataset._t wiki_dataset ≫= (λ ts, ts !! 1)), cand,
                 (c :: cs) !! 1)
        | Some (TestKGDataset.CorrArr c []) =>
            Ret ((h, r, TestKGDataset._t wiki_dataset ≫= (λ ts, ts !! 1)), cand,
                 if (c =? 0)%Z then None else [c] !! 1)
        | Some (TestKGDataset.CorrArr _ (_ :: _)) => Raise ValueError
        end.
Proof.
  apply (test_dataset_indexing wiki_dataset);
    [|unfold TestKGDataset.__len__; simpl; lia].
  split; [done|]. split; [done|]. split; [|intros c [= <-]; by right].
  intros _. by exists [[1; 2; 3]; [6; 7; 8]]%Z.
Defined.

Lemma getitem_wiki self rows index item :
  TestKGDataset._mode self = "wiki" →
  TestKGDataset._cand self = TestKGDataset.CandRows rows →
  TestKGDataset.__getitem__ self index = Ret item →
  ∃ h r t row corr truth,
    item = ((h, r, t), TestKGDataset.CandRow row, corr)
    ∧ np_getitem (TestKGDataset._h self) index = Ret h
    ∧ np_getitem (TestKGDataset._r self) index = Ret r
    ∧ list_getitem rows index = Ret row
    ∧ TestKGDataset.corr_truth (TestKGDataset._corr_idx self) = Ret truth
    ∧ (∀ c, TestKGDataset._corr_idx self = Some c → truth = true →
            ∃ x, np_getitem (TestKGDataset.corr_entries c) index = Ret x ∧ corr = Some x).
Proof.
  intros Hmode Hcand. unfold TestKGDataset.__getitem__.
  rewrite Hmode, Hcand, cand_getitem_rows. change (String.eqb "wiki" "normal") with false.
  cbv iota.
  destruct (np_getitem (TestKGDataset._h self) index) as [h| |]; [|done..].
  destruct (np_getitem (TestKGDataset._r self) index) as [r| |]; [|done..]. simpl.
  destruct (match TestKGDataset._t self with
            | Some ts => let! x := np_getitem ts index in Ret (Some x)
            | None => Ret None
            end) as [t| |]; [|done..]. simpl.
  destruct (list_getitem rows index) as [row| |]; [|done..]. simpl.
  destruct (TestKGDataset.corr_truth (TestKGDataset._corr_idx self)) as [truth| |];
    [|done..]. simpl.
  destruct (TestKGDataset._corr_idx self) as [c|]; simpl.
  - destruct truth.
    + destruct (np_getitem (TestKGDataset.corr_entries c) index) as [x| |] eqn:Hx;
        [|done..].
      simpl. intros [= <-]. exists h, r, t, row, (Some x), true.
      do 5 (split; [done|]). intros c' [= <-] _. by exists x.
    + intros [= <-]. exists h, r, t, row, None, false.
      do 5 (split; [done|]). by intros c' _ [=].
  - intros [= <-]. exists h, r, t, row, None, truth.
    do 5 (split; [done|]). by intros c' [=].
Qed.

(** The columns of a batch of items fetched in "wiki" mode. *)
Lemma items_wiki self rows idxs data :
  TestKGDataset._mode self = "wiki" →
  TestKGDataset._cand self = TestKGDataset.CandRows rows →
  omap (TestKGDataset.__getitem__ self) idxs = Ret data →
  omap (np_getitem (TestKGDataset._h self)) idxs
    = Ret (map (λ x : TestKGDataset.item_t, x.1.1.1.1) data)
  ∧ omap (np_getitem (TestKGDataset._r self)) idxs
    = Ret (map (λ x : TestKGDataset.item_t, x.1.1.1.2) data)
  ∧ (∃ cand_rows,
       omap (list_getitem rows) idxs = Ret cand_rows
       ∧ map (λ x : TestKGDataset.item_t, x.1.2) data
         = map TestKGDataset.CandRow cand_rows)
  ∧ (idxs ≠ [] →
     ∃ truth, TestKGDataset.corr_truth (TestKGDataset._corr_idx self) = Ret truth)
  ∧ (∀ c, TestKGDataset._corr_idx self = Some c →
          TestKGDataset.corr_truth (TestKGDataset._corr_idx self) = Ret true →
          ∃ xs, omap (np_getitem (TestKGDataset.corr_entries c)) idxs = Ret xs
                ∧ TestKGDataset.to_tensor_opt (map (λ x : TestKGDataset.item_t, x.2) data)
                  = Ret xs).
Proof.
  intros Hmode Hcand. revert data. induction idxs as [|i idxs IH]; intros data; simpl.
  - intros [= <-]. simpl. split; [done|]. split; [done|]. split; [by exists []|].
    split; [done|]. intros c _ _. by exists [].
  - destruct (TestKGDataset.__getitem__ self i) as [item| |] eqn:Hitem; [|done..]. simpl.
    destruct (omap (TestKGDataset.__getitem__ self) idxs) as [items| |]; [|done..]. simpl.
    intros [= <-].
    destruct (IH items eq_refl) as (Hh & Hr & (cand_rows & Hrows & Hit) & _ & Hc).
    destruct (getitem_wiki _ _ _ _ Hmode Hcand Hitem)
      as (h & r & t & row & corr & truth & -> & Hi & Hj & Hk & Htruth & Hcorr).
    rewrite Hi, Hj, Hh, Hr, Hk, Hrows. simpl. rewrite Hit.
    split; [done|]. split; [done|]. split; [by eexists|].
    split; [by eauto|]. intros c Hcs Htrue.
    destruct (Hc c Hcs Htrue) as (xs & Hxs & Htens).
    destruct (Hcorr c Hcs) as (x & Hx & ->); [congruence|].
    rewrite Hx, Hxs. simpl. exists (x :: xs). split; [done|].
    unfold TestKGDataset.to_tensor_opt in *. simpl. by rewrite Htens.
Qed.

(** Stacking candidate rows is [np.stack] on the rows. *)
Lemma stack_cands_rows (cand_rows : list (list Z)) :
  TestKGDataset.stack_cands (map TestKGDataset.CandRow cand_rows)
  = let! m := np_stack cand_rows in Ret (TestKGDataset.T2 m).
Proof.
  destruct cand_rows as [|row0 cand_rows]; [done|].
  change (map TestKGDataset.CandRow (row0 :: cand_rows))
    with (TestKGDataset.CandRow row0 :: map TestKGDataset.CandRow cand_rows).
  cbn [TestKGDataset.stack_cands].
  assert (∀ l : list (list Z),
            omap (λ c, match c with
                       | TestKGDataset.CandRow row => Ret row
                       | _ => Raise ValueError
                       end) (map TestKGDataset.CandRow l) = Ret l) as Hrows.
  { induction l as [|row l IH]; [done|]. simpl in *. by rewrite IH. }
  change (TestKGDataset.CandRow row0 :: map TestKGDataset.CandRow cand_rows)
    with (map TestKGDataset.CandRow (row0 :: cand_rows)).
  by rewrite Hrows.
Qed.

(** X16. In "wiki" mode the collation of the items of a non-empty list of
    indices stacks the candidate rows found at those indices. When these
    rows have one length it returns the label "wiki", the heads and
    relations at the indices, no tails (even if the dataset has some), the
    stacked rows, and, provided [correct_index] counts as true in
    [if self._corr_idx:], the correct indices at those positions, [None]
    when it counts as false; when the rows differ in length it raises
    [ValueError]. (A [correct_index] without a truth value, a numpy array
    of two or more entries, serves no item to collate.) *)
Theorem wiki_collate_stacks_rows self rows idxs data :
  TestKGDataset._mode self = "wiki" →
  TestKGDataset._cand self = TestKGDataset.CandRows rows →
  idxs ≠ [] →
  omap (TestKGDataset.__getitem__ self) idxs = Ret data →
  ∃ cand_rows truth,
    omap (list_getitem rows) idxs = Ret cand_rows
    ∧ TestKGDataset.corr_truth (TestKGDataset._corr_idx self) = Ret truth
    ∧ ((∃ w, Forall (λ row, length row = w) cand_rows) →
       ∃ hs rs corr_idx,
         TestKGDataset.collate_fn self data
           = Ret ("wiki", (hs, rs, None, TestKGDataset.T2 cand_rows), corr_idx)
         ∧ omap (np_getitem (TestKGDataset._h self)) idxs = Ret hs
         ∧ omap (np_getitem (TestKGDataset._r self)) idxs = Ret rs
         ∧ if truth
           then ∃ c xs, TestKGDataset._corr_idx self = Some c
                        ∧ omap (np_getitem (TestKGDataset.corr_entries c)) idxs = Ret xs
                        ∧ corr_idx = Some xs
           else corr_idx = None)
    ∧ (¬ (∃ w, Forall (λ row, length row = w) cand_rows) →
       TestKGDataset.collate_fn self data = Raise ValueError).
Proof.
  intros Hmode Hcand Hidxs Hdata.
  destruct (items_wiki _ _ _ _ Hmode Hcand Hdata)
    as (Hh & Hr & (cand_rows & Hrows & Hit) & Htruth & Hc).
  destruct (Htruth Hidxs) as [truth Htr].
  exists cand_rows, truth. split; [done|]. split; [done|].
  assert (cand_rows ≠ []) as Hne.
  { apply omap_length in Hrows. destruct idxs, cand_rows; done. }
  unfold TestKGDataset.collate_fn. rewrite Hmode.
  change (String.eqb "wiki" "wiki") with true. cbv iota.
  rewrite Hit, stack_cands_rows, Htr.
  split.
  - intros [w Hw]. rewrite (np_stack_same_length cand_rows w Hne Hw). simpl.
    destruct truth.
    + destruct (corr_truth_true _ Htr) as (c & Hcs & _).
      destruct (Hc c Hcs Htr) as (xs & Hxs & ->). simpl.
      assert (xs ≠ []) as Hxne by (apply omap_length in Hxs; destruct idxs, xs; done).
      destruct xs as [|x xs]; [done|]. simpl. eauto 12.
    + simpl. eauto 10.
  - intros Hragged. unfold np_stack. destruct cand_rows as [|r0 cand_rows]; [done|].
    destruct (forallb (λ r, length r =? length r0) (r0 :: cand_rows)) eqn:Hall; [|done].
    exfalso. apply Hragged. exists (length r0). apply Forall_forall.
    intros row Hrow%list_elem_of_In.
    rewrite forallb_forall in Hall. by apply Nat.eqb_eq, Hall.
Qed.

Lemma wiki_collate_stacks_rows_witness :
  ∃ cand_rows truth,
    omap (list_getitem [[1; 2; 3]; [6; 7; 8]]%Z) [1; 0]%Z = Ret cand_rows
    ∧ TestKGDataset.corr_truth (TestKGDataset._corr_idx wiki_dataset) = Ret truth
    ∧ ((∃ w, Forall (λ row, length row = w) cand_rows) →
       ∃ hs rs corr_idx,
         TestKGDataset.collate_fn wiki_dataset
           [((5, 1, None), TestKGDataset.CandRow [6; 7; 8], Some 0);
            ((4, 0, None), TestKGDataset.CandRow [1; 2; 3], Some 2)]%Z
           = Ret ("wiki", (hs, rs, None, TestKGDataset.T2 cand_rows), corr_idx)
         ∧ omap (np_getitem (TestKGDataset._h wiki_dataset)) [1; 0]%Z = Ret hs
         ∧ omap (np_getitem (TestKGDataset._r wiki_dataset)) [1; 0]%Z = Ret rs
         ∧ if truth
           then ∃ c xs, TestKGDataset._corr_idx wiki_dataset = Some c
                        ∧ omap (np_getitem (TestKGDataset.corr_entries c)) [1; 0]%Z
                          = Ret xs
                        ∧ corr_idx = Some xs
           else corr_idx = None)
    ∧ (¬ (∃ w, Forall (λ row, length row = w) cand_rows) →
       TestKGDataset.collate_fn wiki_dataset
         [((5, 1, None), TestKGDataset.CandRow [6; 7; 8], Some 0);
          ((4, 0, None), TestKGDataset.CandRow [1; 2; 3], Some 2)]%Z
       = Raise ValueError).
Proof.
  apply (wiki_collate_stacks_rows wiki_dataset [[1; 2; 3]; [6; 7; 8]]%Z [1; 0]%Z);
    [reflexivity | reflexivity | discriminate | reflexivity].
Defined.

Lemma omap_Raise_inv {A B} (f : A → outcome B) xs e :
  omap f xs = Raise e → ∃ x, x ∈ xs ∧ f x = Raise e.
Proof.
  induction xs as [|x xs IH]; simpl; [done|].
  destruct (f x) as [y| |] eqn:Hx; simpl.
  - destruct (omap f xs) as [ys| |]; simpl; [done | | done].
    intros [= ->]. destruct (IH eq_refl) as (x' & Hin & Hx').
    exists x'. split; [by constructor | done].
  - intros [= ->]. exists x. split; [constructor | done].
  - done.
Qed.

Lemma omap_no_Spin {A B} (f : A → outcome B) xs :
  (∀ x, f x ≠ Spin) → omap f xs ≠ Spin.
Proof.
  intros Hf. induction xs as [|x xs IH]; simpl; [done|].
  specialize (Hf x). destruct (f x) as [y| |]; simpl; [|done..].
  by destruct (omap f xs) as [ys| |].
Qed.

Lemma to_tensor_opt_Raise xs e :
  TestKGDataset.to_tensor_opt xs = Raise e → e = ValueError.
Proof.
  intros (x & _ & Hx)%omap_Raise_inv. destruct x; [done | by injection Hx].
Qed.

Lemma np_stack_Raise rows e : np_stack rows = Raise e → e = ValueError.
Proof.
  unfold np_stack. destruct rows as [|r0 rows]; [by intros [= <-]|].
  destruct (forallb _ _); [done | by intros [= <-]].
Qed.

(** Stacking the candidate slots returns or raises [ValueError]. *)
Lemma stack_cands_cases cands :
  (∃ cand, TestKGDataset.stack_cands cands = Ret cand)
  ∨ TestKGDataset.stack_cands cands = Raise ValueError.
Proof.
  destruct cands as [|c0 cands]; [by right|].
  destruct c0 as [n | row | rows0]; cbn [TestKGDataset.stack_cands];
    match goal with
    | |- context [omap ?f ?l] =>
        pose proof (omap_no_Spin f l) as Hspin;
        destruct (omap f l) as [ys|e|] eqn:Hom;
        [| right; apply omap_Raise_inv in Hom as (x & _ & Hx);
           destruct x; simpl in *; congruence
         | exfalso; apply Hspin; [intros x; by destruct x | done] ]
    end; simpl.
  - left. by eexists.
  - destruct (np_stack ys) as [m|e|] eqn:Hst; simpl.
    + left. by eexists.
    + right. apply np_stack_Raise in Hst. by subst.
    + unfold np_stack in Hst. destruct ys; [done|]. by destruct (forallb _ _).
  - destruct (forallb _ ys); [left; by eexists | by right].
Qed.

(** X14. [TestKGDataset.__init__] looks at the mode before anything else:
    without a 'mode' entry it raises [KeyError], and a mode other than
    "wiki" and "normal" fails the assertion whatever else the dictionary
    holds. This check is what keeps [collate_fn] sound: its branches cover
    "wiki" and "normal" only, so on a dataset with any other mode it
    reaches the [return] with nothing bound, while on a dataset that
    [__init__] returned this never happens. *)
Theorem test_init_guards_collate (triplets : TestKGDataset.triplets_t) (num_ents : Z) :
  (TestKGDataset.d_mode triplets = None →
   TestKGDataset.__init__ triplets num_ents = Raise KeyError)
  ∧ (∀ m, TestKGDataset.d_mode triplets = Some m → m ≠ "wiki" → m ≠ "normal" →
          TestKGDataset.__init__ triplets num_ents = Raise AssertionError)
  ∧ (∀ self, TestKGDataset.__init__ triplets num_ents = Ret self →
       (TestKGDataset._mode self = "wiki" ∨ TestKGDataset._mode self = "normal")
       ∧ ∀ data, TestKGDataset.collate_fn self data ≠ Raise NameError)
  ∧ (∀ self data,
       TestKGDataset._mode self ≠ "wiki" → TestKGDataset._mode self ≠ "normal" →
       TestKGDataset.collate_fn self data = Raise NameError).
Proof.
  split; [|split; [|split]].
  - intros Hm. unfold TestKGDataset.__init__. by rewrite Hm.
  - intros m Hm Hw Hn. unfold TestKGDataset.__init__. rewrite Hm. simpl.
    destruct (String.eqb_spec m "wiki"); [done|].
    by destruct (String.eqb_spec m "normal").
  - intros self Hinit.
    assert (TestKGDataset._mode self = "wiki" ∨ TestKGDataset._mode self = "normal") as Hmode.
    { unfold TestKGDataset.__init__ in Hinit.
      destruct (TestKGDataset.d_mode triplets) as [m|]; [|done]. simpl in Hinit.
      destruct (String.eqb m "wiki" || String.eqb m "normal") eqn:Hok;
        simpl in Hinit; [|done].
      destruct (TestKGDataset.d_h triplets); [|done]. simpl in Hinit.
      destruct (TestKGDataset.d_r triplets); [|done]. simpl in Hinit.
      destruct (TestKGDataset.d_candidate triplets); [|done]. simpl in Hinit.
      injection Hinit as <-. simpl.
      apply orb_true_iff in Hok as [Hok%String.eqb_eq | Hok%String.eqb_eq]; auto. }
    split; [done|]. intros data Hbad. unfold TestKGDataset.collate_fn in Hbad.
    destruct Hmode as [Hmode | Hmode]; rewrite Hmode in Hbad.
    + change (String.eqb "wiki" "wiki") with true in Hbad. cbv iota in Hbad.
      destruct (stack_cands_cases (map (λ x : TestKGDataset.item_t, x.1.2) data))
        as [[cand Hst] | Hst]; rewrite Hst in Hbad; simpl in Hbad; [|done].
      destruct (TestKGDataset.corr_truth (TestKGDataset._corr_idx self))
        as [truth|e|] eqn:Htr; simpl in Hbad; [| |done].
      * destruct truth; simpl in Hbad; [|done].
        destruct (TestKGDataset.to_tensor_opt _) as [xs|e|] eqn:Hxs;
          simpl in Hbad; [| |done].
        -- by destruct xs.
        -- apply to_tensor_opt_Raise in Hxs. congruence.
      * apply corr_truth_Raise in Htr. congruence.
    + change (String.eqb "normal" "wiki") with false in Hbad.
      change (String.eqb "normal" "normal") with true in Hbad. cbv iota in Hbad.
      destruct (TestKGDataset.to_tensor_opt _) as [ts|e|] eqn:Hts; simpl in Hbad; [| |done].
      * destruct data as [|x data]; simpl in Hbad; [done|].
        by destruct (x.1.2).
      * apply to_tensor_opt_Raise in Hts. congruence.
  - intros self data Hw Hn. unfold TestKGDataset.collate_fn.
    destruct (String.eqb_spec (TestKGDataset._mode self) "wiki"); [done|].
    by destruct (String.eqb_spec (TestKGDataset._mode self) "normal").
Qed.

(** X21. A [correct_index] that is a numpy array of two or more entries
    has no truth value, so [if self._corr_idx:] raises [ValueError]
    wherever it is reached. On such a dataset [__getitem__] returns for no
    index, and raises [ValueError] for every index of [range(len(self))]
    when the columns have one entry per relation; and in "wiki" mode
    [collate_fn] raises [ValueError] on every batch. *)
Theorem array_correct_index_raises (self : TestKGDataset.t) (c x : Z) (cs : list Z) :
  TestKGDataset._corr_idx self = Some (TestKGDataset.CorrArr c (x :: cs)) →
  (∀ index item, TestKGDataset.__getitem__ self index ≠ Ret item)
  ∧ (aligned self → ∀ i : nat, i < TestKGDataset.__len__ self →
       TestKGDataset.__getitem__ self (Z.of_nat i) = Raise ValueError)
  ∧ (TestKGDataset._mode self = "wiki" →
     ∀ data, TestKGDataset.collate_fn self data = Raise ValueError).
Proof.
  intros Hcorr. split; [|split].
  - intros index item. unfold TestKGDataset.__getitem__. rewrite Hcorr.
    destruct (np_getitem (TestKGDataset._h self) index) as [h| |]; [|done..].
    destruct (np_getitem (TestKGDataset._r self) index) as [r| |]; [|done..]. simpl.
    destruct (match TestKGDataset._t self with
              | Some ts => let! x := np_getitem ts index in Ret (Some x)
              | None => Ret None
              end) as [t| |]; [|done..]. simpl.
    by destruct (if String.eqb (TestKGDataset._mode self) "normal"
                 then Ret (TestKGDataset._cand self)
                 else TestKGDataset.cand_getitem (TestKGDataset._cand self) index)
      as [cand| |].
  - intros Hal i Hi.
    destruct (test_getitem_at self i Hal Hi) as (h & r & cand & _ & _ & _ & ->).
    by rewrite Hcorr.
  - intros Hmode data. unfold TestKGDataset.collate_fn. rewrite Hmode, Hcorr.
    change (String.eqb "wiki" "wiki") with true. cbv iota.
    by destruct (stack_cands_cases (map (λ x : TestKGDataset.item_t, x.1.2) data))
      as [[cand ->] | ->].
Qed.

Lemma array_correct_index_raises_witness :
  (∀ index item, TestKGDataset.__getitem__ wiki_array_dataset index ≠ Ret item)
  ∧ (aligned wiki_array_dataset → ∀ i : nat, i < TestKGDataset.__len__ wiki_array_dataset →
       TestKGDataset.__getitem__ wiki_array_dataset (Z.of_nat i) = Raise ValueError)
  ∧ (TestKGDataset._mode wiki_array_dataset = "wiki" →
     ∀ data, TestKGDataset.collate_fn wiki_array_dataset data = Raise ValueError).
Proof. apply (array_correct_index_raises wiki_array_dataset 2 0 []). reflexivity. Defined.

(** ** The name of the loss function *)

Lemma prefix_append (sub s : string) :
  String.prefix sub s = true ↔ ∃ post, s = String.append sub post.
Proof.
  revert s. induction sub as [|a sub IH]; intros s.
  - split; [intros _; by exists s | by destruct s].
  - destruct s as [|b s]; simpl.
    + split; [done | by intros [post [=]]].
    + destruct (Ascii.ascii_dec a b) as [-> | Hne].
      * rewrite IH. split; intros [post Hpost]; exists post;
          [simpl; by rewrite Hpost | simpl in Hpost; by injection Hpost].
      * split; [done|]. intros [post [= ? _]]. done.
Qed.

Lemma append_append (s a b : string) :
  String.append (String.append s a) b = String.append s (String.append a b).
Proof.
  induction s as [|c s IH]; [done|].
  change (String c (String.append (String.append s a) b)
          = String c (String.append s (String.append a b))).
  by f_equal.
Qed.

Lemma str_contains_spec (sub s : string) :
  GNNModel.str_contains sub s = true
  ↔ ∃ pre post, s = String.append pre (String.append sub post).
Proof.
  induction s as [|c s IH].
  - cbn [GNNModel.str_contains]. rewrite orb_false_r, prefix_append. split.
    + intros [post Hpost]. by exists EmptyString, post.
    + intros (pre & post & Hs). destruct pre; [by exists post|done].
  - cbn [GNNModel.str_contains]. rewrite orb_true_iff, IH, prefix_append. split.
    + intros [[post Hpost] | (pre & post & ->)].
      * by exists EmptyString, post.
      * by exists (String c pre), post.
    + intros (pre & post & Hs). destruct pre as [|c' pre]; simpl in Hs.
      * left. by exists post.
      * right. injection Hs as -> ->. by exists pre, post.
Qed.

(** X17. The name [loss_func] looks up in the loss module always has
    "loss" in it: a configured name that has it is used as it is, any
    other gets "_loss" appended. Putting a name through the rule a second
    time changes nothing. *)
Theorem loss_type_name_has_loss (loss_type : string) :
  (∃ pre post,
     GNNModel.loss_type_name loss_type
     = String.append pre (String.append "loss" post))
  ∧ GNNModel.loss_type_name (GNNModel.loss_type_name loss_type)
    = GNNModel.loss_type_name loss_type
  ∧ ((∃ pre post, loss_type = String.append pre (String.append "loss" post)) →
     GNNModel.loss_type_name loss_type = loss_type)
  ∧ ((¬ ∃ pre post, loss_type = String.append pre (String.append "loss" post)) →
     GNNModel.loss_type_name loss_type = String.append loss_type "_loss").
Proof.
  assert (∃ pre post,
            GNNModel.loss_type_name loss_type
            = String.append pre (String.append "loss" post)) as Hhas.
  { unfold GNNModel.loss_type_name.
    destruct (GNNModel.str_contains "loss" loss_type) eqn:Hc; simpl.
    - by apply str_contains_spec.
    - exists (String.append loss_type "_"), EmptyString. by rewrite append_append. }
  split; [done|]. split; [|split].
  - apply str_contains_spec in Hhas. unfold GNNModel.loss_type_name at 1.
    by rewrite Hhas.
  - intros Hin%str_contains_spec. unfold GNNModel.loss_type_name. by rewrite Hin.
  - intros Hout. unfold GNNModel.loss_type_name.
    destruct (GNNModel.str_contains "loss" loss_type) eqn:Hc; [|done].
    exfalso. by apply Hout, str_contains_spec.
Qed.

(** ** The filter set as a set *)

Lemma randint_bind_ext `{RandomState} {B} low high size (K1 K2 : list Z → M B) g :
  (∀ idx g1, Forall (λ i, (low ≤ i < high)%Z) idx → K1 idx g1 = K2 idx g1) →
  mbind (np_random_randint low high size) K1 g
  = mbind (np_random_randint low high size) K2 g.
Proof.
  intros Hagree. unfold mbind.
  destruct (np_random_randint low high size g) as [[idx| |] g1] eqn:Hdraw; [|done..].
  apply randint_Ret in Hdraw as [_ Hrange]. by apply Hagree.
Qed.

Lemma survivors_agree fs1 fs2 ids :
  Forall (λ x, x ∈ fs1 ↔ x ∈ fs2) ids → survivors fs1 ids = survivors fs2 ids.
Proof.
  unfold survivors. induction 1 as [|x ids Hx _ IH]; [done|].
  rewrite !filter_cons, IH. destruct (decide (x ∉ fs1)), (decide (x ∉ fs2)); tauto.
Qed.

Lemma sampler_loop_filter_agree `{RandomState} cand (fs1 fs2 : list Z) fuel k acc num g :
  (∀ x, in_domain cand x → (x ∈ fs1 ↔ x ∈ fs2)) →
  KGDataset.sampler_loop fuel k (KGDataset.n_cand_of cand) (KGDataset.e_cand_of cand)
    (FilterArr fs1) acc num g
  = KGDataset.sampler_loop fuel k (KGDataset.n_cand_of cand) (KGDataset.e_cand_of cand)
      (FilterArr fs2) acc num g.
Proof.
  intros Hsame. revert acc num g. induction fuel as [|fuel IH]; intros acc num g; [done|].
  cbn [KGDataset.sampler_loop]. destruct (num <? k); [|done].
  apply randint_bind_ext. intros idx g1 Hidx.
  destruct (through_cand_in_range cand idx) as (ids & Hids & _ & Hdom);
    [eapply Forall_impl; [exact Hidx|]; simpl; intros; lia|].
  unfold mbind, lift. rewrite Hids, !survivors_filter. cbn [compared_ids].
  rewrite (survivors_agree fs1 fs2 ids);
    [apply IH | eapply Forall_impl; [exact Hdom|]; exact Hsame].
Qed.

(** X13. Only membership among the candidates counts in a filter array: two
    filter arrays that hold the same candidates (in any order, with any
    repetitions, with any ids from outside the domain) give the same
    outcome from the same random state. *)
Theorem uniform_sampler_filter_as_set `{RandomState} fuel k cand (fs1 fs2 : list Z) g :
  (∀ x, in_domain cand x → (x ∈ fs1 ↔ x ∈ fs2)) →
  KGDataset.uniform_sampler fuel k cand (Some (FilterArr fs1)) g
  = KGDataset.uniform_sampler fuel k cand (Some (FilterArr fs2)) g.
Proof.
  intros Hsame. unfold KGDataset.uniform_sampler, mbind.
  by rewrite (sampler_loop_filter_agree cand fs1 fs2 _ _ _ _ _ Hsame).
Qed.

Lemma uniform_sampler_filter_as_set_witness :
  KGDataset.uniform_sampler (H := cycle_rng) 6 2 (KGDataset.CandArr [10; 11; 12]%Z)
    (Some (FilterArr [11; 11; 40]%Z)) 0%Z
  = KGDataset.uniform_sampler (H := cycle_rng) 6 2 (KGDataset.CandArr [10; 11; 12]%Z)
      (Some (FilterArr [11]%Z)) 0%Z.
Proof.
  apply (uniform_sampler_filter_as_set (H := cycle_rng) 6 2
           (KGDataset.CandArr [10; 11; 12]%Z) [11; 11; 40]%Z [11]%Z 0%Z).
  simpl. intros x Hx. rewrite !list_elem_of_In in *. simpl in *. intuition lia.
Defined.
